(** * tykhe-flask: sample generation, file writers and the file cache

    A shallow embedding of [app/data.py] and of the data-creation half of
    [app/__init__.py].

    - [Py]: the few Python builtins the code relies on ([int] on text,
      list indexing with negative indices, [ceil(log10(n))]).
    - [Frame]: pandas data frames as far as the code uses them, the three
      writers [df_to_csv], [df_to_xlsx], [df_to_sav].
    - [Cache]: the cache directory and the sentinel protocol of
      [get_data_file] / [create_data_file], as a small-step machine over a
      pool of threads.
    - [Sampling]: the studies, [Study.get_sample], the memoised
      [get_study_sample] and [create_data_file] acting on one process. *)

From Stdlib Require Import ZArith Ascii String Floats Lia.
From stdpp Require Import base option list strings gmap.

Local Open Scope Z_scope.
Set Warnings "-inexact-float".

(** ** Python builtins *)

(** Exceptions raised on the paths that are modelled. *)
Inductive exn :=
  | FileExistsError
  | FileNotFoundError
  | KeyError
  | ValueError
  | IndexError
  | TypeError
  | OSError.

(** Results of fallible calls. *)
Inductive result (A : Type) :=
  | Ok (a : A)
  | Raise (e : exn).
Arguments Ok {A} a.
Arguments Raise {A} e.

#[export] Instance result_ret : MRet result := fun A a => Ok a.
#[export] Instance result_bind : MBind result := fun A B k m =>
  match m with
  | Ok a => k a
  | Raise e => Raise e
  end.

Module Py.

(** [l[i]]: negative indices count from the end, anything out of range
    raises [IndexError]. *)
Definition index {A} (l : list A) (i : Z) : result A :=
  let n := Z.of_nat (length l) in
  let j := if i <? 0 then n + i else i in
  if (0 <=? j) && (j <? n) then
    match l !! Z.to_nat j with
    | Some x => Ok x
    | None => Raise IndexError
    end
  else Raise IndexError.

(** White space of [str] among the ASCII characters: tab to carriage
    return, the four separators 28 to 31, and the space. *)
Definition is_space (c : ascii) : bool :=
  match nat_of_ascii c with
  | 9%nat | 10%nat | 11%nat | 12%nat | 13%nat
  | 28%nat | 29%nat | 30%nat | 31%nat | 32%nat => true
  | _ => false
  end.

Fixpoint lstrip (s : string) : string :=
  match s with
  | String c s' => if is_space c then lstrip s' else s
  | EmptyString => EmptyString
  end.

Definition strip (s : string) : string :=
  String.rev (lstrip (String.rev (lstrip s))).

Definition digit (c : ascii) : option Z :=
  let n := nat_of_ascii c in
  if (48 <=? n)%nat && (n <=? 57)%nat
  then Some (Z.of_nat n - 48) else None.

(** Decimal digits, single underscores allowed between digits. *)
Fixpoint digits (acc : Z) (after_digit : bool) (s : string) : option Z :=
  match s with
  | EmptyString => if after_digit then Some acc else None
  | String c s' =>
      if Ascii.eqb c "_" then
        if after_digit then digits acc false s' else None
      else
        match digit c with
        | Some d => digits (10 * acc + d) true s'
        | None => None
        end
  end.


(** [int(s)] on ASCII text, base ten: surrounding white space, an
    optional sign, digits.  Anything else raises [ValueError].  Beyond
    ASCII, Python's [int] also takes the decimal digits and the white
    space of other scripts; what is proved from [int] raising is stated
    for [ascii_text]. *)
Definition int (s : string) : result Z :=
  let body :=
    match strip s with
    | String "-" s' => Z.opp <$> digits 0 false s'
    | String "+" s' => digits 0 false s'
    | s' => digits 0 false s'
    end in
  match body with
  | Some z => Ok z
  | None => Raise ValueError
  end.

(** The text of an integer, as an f-string prints it. *)
Fixpoint nat_digits (fuel n : nat) (acc : string) : string :=
  match fuel with
  | O => acc
  | S fuel' =>
      let d := ascii_of_nat (48 + n mod 10) in
      let acc' := String d acc in
      if (n <? 10)%nat then acc' else nat_digits fuel' (n / 10) acc'
  end.

Definition str (z : Z) : string :=
  let n := Z.abs_nat z in
  let body := nat_digits (S n) n EmptyString in
  if z <? 0 then String "-" body else body.

(** [ceil(log10(n))] for a list length [n].  [math.log10] is exact at
    the powers of ten and increasing, so for [n >= 1] the result is the
    least [k] with [n <= 10^k]; [log10(0)] raises [ValueError]. *)
Fixpoint least_pow10 (fuel : nat) (k p : Z) (n : Z) : Z :=
  match fuel with
  | O => k
  | S fuel' => if n <=? p then k else least_pow10 fuel' (k + 1) (10 * p) n
  end.

Definition ceil_log10 (n : nat) : result Z :=
  match n with
  | O => Raise ValueError
  | S _ => Ok (least_pow10 n 0 1 (Z.of_nat n))
  end.

End Py.

(** ** Data frames and the file writers *)

Module Frame.

(** The data types a study declares for its variables: [float], or a
    [pd.CategoricalDtype(categories, ordered=...)]. *)
Inductive dtype :=
  | Float64
  | Categorical (categories : list string) (ordered : bool).

(** The Python objects found in an observation. *)
Inductive value :=
  | VFloat (x : float)
  | VStr (s : string).

(** A column with its pandas dtype.  A categorical column stores codes
    into its categories, code [-1] being NaN; [IntCol] is what
    [.cat.codes] gives, [StrCol] what [.astype('str')] gives. *)
Inductive column :=
  | FloatCol (xs : list float)
  | CatCol (categories : list string) (ordered : bool) (codes : list Z)
  | IntCol (xs : list Z)
  | StrCol (xs : list string).

(** A data frame: its columns in order, by name. *)
Abbreviation DataFrame := (list (string * column)).

(** One value as a writer receives it. *)
Inductive cell :=
  | CFloat (x : float)
  | CInt (z : Z)
  | CStr (s : string)
  | CNaN.

Definition columns (df : DataFrame) : list string := df.*1.

(** [df[varName]] *)
Fixpoint getitem (df : DataFrame) (varName : string) : option column :=
  match df with
  | [] => None
  | (n, c) :: df' => if String.eqb n varName then Some c else getitem df' varName
  end.

(** [df[varName] = col]: replaces the column in place, a new name is
    appended. *)
Fixpoint setitem (df : DataFrame) (varName : string) (col : column) : DataFrame :=
  match df with
  | [] => [(varName, col)]
  | (n, c) :: df' =>
      if String.eqb n varName then (n, col) :: df'
      else (n, c) :: setitem df' varName col
  end.

(** The label a code stands for, [None] for NaN. *)
Definition label (categories : list string) (code : Z) : option string :=
  if code <? 0 then None else categories !! Z.to_nat code.

Definition cell_of_label (o : option string) : cell :=
  match o with
  | Some s => CStr s
  | None => CNaN
  end.

Definition cells (c : column) : list cell :=
  match c with
  | FloatCol xs => CFloat <$> xs
  | CatCol categories _ codes => (fun k => cell_of_label (label categories k)) <$> codes
  | IntCol xs => CInt <$> xs
  | StrCol xs => CStr <$> xs
  end.

Definition col_length (c : column) : nat := length (cells c).

(** [len(df)] *)
Definition nrows (df : DataFrame) : nat :=
  match df with
  | [] => O
  | (_, c) :: _ => col_length c
  end.

(** [df.head(n)]: the first [n] rows. *)
Definition col_head (n : nat) (c : column) : column :=
  match c with
  | FloatCol xs => FloatCol (take n xs)
  | CatCol categories ordered codes => CatCol categories ordered (take n codes)
  | IntCol xs => IntCol (take n xs)
  | StrCol xs => StrCol (take n xs)
  end.

Definition head (n : nat) (df : DataFrame) : DataFrame :=
  prod_map id (col_head n) <$> df.

(** [df.iterrows()], each row as the list [[row[vn] for vn in row.index]]. *)
Definition iterrows (df : DataFrame) : list (list cell) :=
  (fun i => (fun nc : string * column => default CNaN (cells nc.2 !! i)) <$> df)
    <$> seq 0 (nrows df).

(** The column [name] of the frame, as cells. *)
Definition cells_of (df : DataFrame) (name : string) : option (list cell) :=
  cells <$> getitem df name.

(** *** Building a typed frame from records *)

(** [pd.DataFrame.from_records(sample, columns=names)]: column [j] collects
    position [j] of every record; a record of another length raises. *)
Fixpoint record_columns (ncols : nat) (sample : list (list value))
  : result (list (list value)) :=
  match sample with
  | [] => Ok (replicate ncols [])
  | row :: rest =>
      if (length row =? ncols)%nat then
        cols ← record_columns ncols rest;
        Ok (zip_with cons row cols)
      else Raise ValueError
  end.

Definition from_records (sample : list (list value)) (names : list string)
  : result (list (string * list value)) :=
  cols ← record_columns (length names) sample;
  Ok (zip names cols).

Fixpoint index_of (categories : list string) (s : string) (i : Z) : Z :=
  match categories with
  | [] => -1
  | c :: rest => if String.eqb c s then i else index_of rest s (i + 1)
  end.

Section Astype.

(** [float(s)] on text, as [astype(float)] applies it to a string. *)
Variable float_of_str : string -> option float.

Definition to_float (v : value) : result float :=
  match v with
  | VFloat x => Ok x
  | VStr s =>
      match float_of_str s with
      | Some x => Ok x
      | None => Raise ValueError
      end
  end.

(** A value that is not among the categories becomes NaN. *)
Definition to_code (categories : list string) (v : value) : Z :=
  match v with
  | VStr s => index_of categories s 0
  | VFloat _ => -1
  end.

Fixpoint to_floats (vs : list value) : result (list float) :=
  match vs with
  | [] => Ok []
  | v :: vs' => x ← to_float v; xs ← to_floats vs'; Ok (x :: xs)
  end.

Definition astype_col (t : dtype) (vs : list value) : result column :=
  match t with
  | Float64 => xs ← to_floats vs; Ok (FloatCol xs)
  | Categorical categories ordered =>
      Ok (CatCol categories ordered (to_code categories <$> vs))
  end.

(** [df.astype(variables)]; every column name is a key of [variables]
    in the one place this is called. *)
Fixpoint astype (raw : list (string * list value))
    (variables : list (string * dtype)) : result DataFrame :=
  match raw with
  | [] => Ok []
  | (n, vs) :: raw' =>
      match (list_to_map variables : gmap string dtype) !! n with
      | None => Raise KeyError
      | Some t =>
          c ← astype_col t vs;
          df ← astype raw' variables;
          Ok ((n, c) :: df)
      end
  end.

End Astype.

(** *** What the writers leave on disk *)

(** The arguments [df_to_sav] hands to [savReaderWriter.SavWriter]. *)
Record sav_header := {
  varNames : list string;
  varTypes : gmap string Z;
  valueLabels : gmap string (gmap Z string);
  measureLevels : gmap string string;
  formats : gmap string string
}.

(** A file of the cache directory, by what was handed to its encoder.
    The byte layout is the encoder's business. *)
Inductive file :=
  | EmptyFile
  | CsvFile (df : DataFrame)
  | ExcelFile (df : DataFrame)
  | StataFile (df : DataFrame)
  | SavFile (header : sav_header) (rows : list (list cell))
  | PartialFile.

Definition is_ordinal (c : column) : bool :=
  match c with
  | CatCol _ true _ => true
  | _ => false
  end.

(** [df[varName].cat.codes] *)
Definition cat_codes (c : column) : column :=
  match c with
  | CatCol _ _ codes => IntCol codes
  | _ => c
  end.

(** The loop shared by [df_to_csv] and [df_to_xlsx]: an ordered
    categorical column is overwritten, in the frame itself, by its codes. *)
Definition codes_step (df : DataFrame) (varName : string) : DataFrame :=
  match getitem df varName with
  | Some c => if is_ordinal c then setitem df varName (cat_codes c) else df
  | None => df
  end.

(** Both return the frame as the call leaves it (the caller's object is
    edited in place) and the file written. *)
Definition df_to_csv (df : DataFrame) : DataFrame * file :=
  let varNames := columns df in
  let df' := foldl codes_step df varNames in
  (df', CsvFile df').

Definition df_to_xlsx (df : DataFrame) : DataFrame * file :=
  let varNames := columns df in
  let df' := foldl codes_step df varNames in
  (df', ExcelFile df').

Definition is_categorical (c : column) : bool :=
  match c with
  | CatCol _ _ _ => true
  | _ => false
  end.

(** [df.to_stata(pathname)] does not touch the frame.  For a categorical
    column pandas takes the maximum of its codes, which raises
    [ValueError] when the column has no rows; the checks of the encoder
    on the values it is given are its business. *)
Definition to_stata (df : DataFrame) : DataFrame * result file :=
  if existsb (fun nc : string * column =>
                is_categorical nc.2 && (col_length nc.2 =? 0)%nat) df
  then (df, Raise ValueError)
  else (df, Ok (StataFile df)).

(** [{value: labels[value] for value in values}] *)
Fixpoint value_labels (labels : list string) (values : list Z)
  : result (gmap Z string) :=
  match values with
  | [] => Ok ∅
  | value :: rest =>
      l ← Py.index labels value;
      m ← value_labels labels rest;
      Ok (<[value := l]> m)
  end.

(** [df[varName].apply(len)]: the length of every label in the column;
    [len] of NaN raises [TypeError]. *)
Fixpoint apply_len (cs : list cell) : result (list Z) :=
  match cs with
  | [] => Ok []
  | CStr s :: cs' => ns ← apply_len cs'; Ok (Z.of_nat (String.length s) :: ns)
  | _ :: _ => Raise TypeError
  end.

(** [max] of a sequence; the empty sequence raises [ValueError]. *)
Definition py_max (ns : list Z) : result Z :=
  match ns with
  | [] => Raise ValueError
  | n :: ns' => Ok (foldl Z.max n ns')
  end.

(** [.astype('str')] on a categorical column. *)
Definition astype_str (c : column) : column :=
  match c with
  | CatCol categories _ codes =>
      StrCol ((fun k => default "nan" (label categories k)) <$> codes)
  | _ => c
  end.

Definition empty_header (names : list string) : sav_header :=
  {| varNames := names; varTypes := ∅; valueLabels := ∅;
     measureLevels := ∅; formats := ∅ |}.

(** One round of the loop of [df_to_sav].  The frame is edited in place,
    so it is returned also when the round raises. *)
Definition sav_step (st : DataFrame * result sav_header) (varName : string)
  : DataFrame * result sav_header :=
  match st with
  | (df, Raise e) => (df, Raise e)
  | (df, Ok h) =>
      match getitem df varName with
      | None => (df, Raise KeyError)
      | Some (CatCol labels true values as col) =>
          let df' := setitem df varName (IntCol values) in
          (df',
           vl ← value_labels labels values;
           w ← Py.ceil_log10 (length labels);
           Ok {| varNames := varNames h;
                 varTypes := <[varName := 0]> (varTypes h);
                 valueLabels := <[varName := vl]> (valueLabels h);
                 measureLevels := <[varName := "ordinal"]> (measureLevels h);
                 formats := <[varName := "F" +:+ Py.str w +:+ ".0"]> (formats h) |})
      | Some (CatCol labels false values as col) =>
          match (ns ← apply_len (cells col); py_max ns) with
          | Raise e => (df, Raise e)
          | Ok width =>
              (setitem df varName (astype_str col),
               Ok {| varNames := varNames h;
                     varTypes := <[varName := width]> (varTypes h);
                     valueLabels := valueLabels h;
                     measureLevels := <[varName := "nominal"]> (measureLevels h);
                     formats := formats h |})
          end
      | Some _ =>
          (df,
           Ok {| varNames := varNames h;
                 varTypes := <[varName := 0]> (varTypes h);
                 valueLabels := valueLabels h;
                 measureLevels := <[varName := "scale"]> (measureLevels h);
                 formats := formats h |})
      end
  end.

Definition df_to_sav (df : DataFrame) : DataFrame * result file :=
  let varNames := columns df in
  match foldl sav_step (df, Ok (empty_header varNames)) varNames with
  | (df', Ok h) => (df', Ok (SavFile h (iterrows df')))
  | (df', Raise e) => (df', Raise e)
  end.

(** *** Reading the writers column by column *)

(** What the loop of [df_to_csv] and [df_to_xlsx] makes of a column. *)
Definition coded (c : column) : column := if is_ordinal c then cat_codes c else c.

(** What the loop of [df_to_sav] makes of a column. *)
Definition sav_column (c : column) : column :=
  match c with
  | CatCol _ true values => IntCol values
  | CatCol _ false _ => astype_str c
  | _ => c
  end.

(** What a header of [df_to_sav] holds for a variable. *)
Definition entries (h : sav_header) (n : string) :=
  (varTypes h !! n, valueLabels h !! n, measureLevels h !! n, formats h !! n).

(** The header entries [df_to_sav] writes for a column of each kind. *)
Definition sav_recorded (c : column) (h : sav_header) (n : string) : Prop :=
  match c with
  | CatCol labels true values =>
      exists vl w,
        value_labels labels values = Ok vl /\
        Py.ceil_log10 (length labels) = Ok w /\
        entries h n = (Some 0, Some vl, Some "ordinal", Some ("F" +:+ Py.str w +:+ ".0"))
  | CatCol labels false values =>
      exists lens w,
        apply_len (cells c) = Ok lens /\ py_max lens = Ok w /\
        varTypes h !! n = Some w /\ measureLevels h !! n = Some "nominal"
  | _ => varTypes h !! n = Some 0 /\ measureLevels h !! n = Some "scale"
  end.

(** Every column has [len(df)] cells. *)
Definition rectangular (df : DataFrame) : Prop :=
  Forall (fun nc => col_length nc.2 = nrows df) df.

(** A frame as pandas builds it: distinct column names, columns of one
    length. *)
Definition well_formed (df : DataFrame) : Prop :=
  NoDup (columns df) /\ rectangular df.

(** *** More readings of a frame *)

(** The measurement level [df_to_sav] declares for a column. *)
Definition measure_level (c : column) : string :=
  match c with
  | CatCol _ true _ => "ordinal"
  | CatCol _ false _ => "nominal"
  | _ => "scale"
  end.

(** The column has the dtype [t]. *)
Definition has_dtype (t : dtype) (c : column) : Prop :=
  match t, c with
  | Float64, FloatCol _ => True
  | Categorical categories ordered, CatCol categories' ordered' _ =>
      categories' = categories /\ ordered' = ordered
  | _, _ => False
  end.

(** The column of dtype [t] that has no rows. *)
Definition empty_column (t : dtype) : column :=
  match t with
  | Float64 => FloatCol []
  | Categorical categories ordered => CatCol categories ordered []
  end.

(** The frame has no missing values and every column has a row: the
    codes of a categorical column are indices into its categories. *)
Definition complete_column (c : column) : Prop :=
  col_length c <> 0%nat
  /\ match c with
     | CatCol labels _ codes =>
         Forall (fun k => 0 <= k < Z.of_nat (length labels)) codes
     | _ => True
     end.

Definition complete (df : DataFrame) : Prop :=
  forall n c, getitem df n = Some c -> complete_column c.

(** A frame with one column of each kind, and the frames of a nominal
    column without and with rows. *)
Definition one_of_each : DataFrame :=
  [("grade", CatCol ["low"; "mid"; "high"] true [1; 2]);
   ("group", CatCol ["A"; "B"] false [0; 1]);
   ("x", FloatCol [1; 2]%float)].

Definition groups_only (codes : list Z) : DataFrame :=
  [("group", CatCol ["A"; "B"] false codes)].

(** The column is not categorical. *)
Definition plain_column (c : column) : bool :=
  match c with
  | CatCol _ _ _ => false
  | _ => true
  end.

(** No column of the frame is categorical. *)
Definition plain (df : DataFrame) : Prop :=
  forall n c, getitem df n = Some c -> plain_column c = true.

(** A frame of two float columns. *)
Definition two_floats : DataFrame :=
  [("a", FloatCol [1; 2]%float); ("b", FloatCol [3; 4]%float)].

End Frame.

(** ** The cache directory and the sentinel protocol *)

Module Cache.
Import Frame.

(** *** The directory *)

(** The cache directory: the regular files in it, by name.  Names are
    relative to [cache]. *)
Abbreviation dir := (gmap string file).


(** [open(p, 'x')]: exclusive creation of an empty file, for a [p] that is
    a [file_name].  For any other [p] the call raises an error that is
    not [FileExistsError] ([FileNotFoundError] for a '/', [ValueError] for
    a NUL byte, [OSError] for a name that is too long) and creates
    nothing; what is proved about a call that gets past [open] is stated
    for such names. *)
Definition open_x (p : string) (fs : dir) : result dir :=
  match fs !! p with
  | None => Ok (<[p := EmptyFile]> fs)
  | Some _ => Raise FileExistsError
  end.

(** [path.isfile(p)] *)
Definition isfile (p : string) (fs : dir) : bool :=
  match fs !! p with
  | Some _ => true
  | None => false
  end.

(** [unlink(p)] *)
Definition unlink (p : string) (fs : dir) : result dir :=
  match fs !! p with
  | Some _ => Ok (delete p fs)
  | None => Raise FileNotFoundError
  end.

(** *** Requests and names *)

(** The arguments of [get_data_file], as the routes pass them: text
    taken from the query string, and the [wait] flag. *)
Record request := {
  r_study : string;
  r_size : string;
  r_format : string;
  r_sid : string;
  r_wait : bool
}.

(** [f'tykhe_{study}_{size}_{sid}.{format}'] *)
Definition filename (r : request) : string :=
  "tykhe_" +:+ r_study r +:+ "_" +:+ r_size r +:+ "_" +:+ r_sid r
    +:+ "." +:+ r_format r.

Definition signal_of (name : string) : string := "creating-" +:+ name.

Definition pathname (r : request) : string := filename r.
Definition signalpath (r : request) : string := signal_of (filename r).

(** The keys of [STUDIES]. *)
Definition declared (study : string) : bool :=
  bool_decide (study ∈ ["levels"; "simon"; "twosample_null"; "twosample_medium"]).

(** The formats for which [create_data_file] calls a writer. *)
Definition writes (format : string) : bool :=
  bool_decide (format ∈ ["csv"; "xlsx"; "dta"; "sav"]).

(** *** Threads *)

(** The arguments [get_data_file] passes to [create_data_file]. *)
Record creation := {
  a_study : string;
  a_size : Z;
  a_format : string;
  a_sid : Z;
  a_pathname : string;
  a_signalname : string
}.

(** Where a thread running [get_data_file] stands. *)
Inductive caller_pc :=
  | CStart                      (* before [open(signalpath, 'x')] *)
  | CCheck                      (* sentinel created, before [path.isfile(pathname)] *)
  | CUnlink                     (* <exists>: before [unlink(signalpath)] *)
  | CSpawn                      (* <nothing>: before the thread is started *)
  | CJoin (tid : nat)           (* in [thread.join()] *)
  | CPoll                       (* <underway>: in the [while] loop *)
  | CReturned (name : string)   (* returned [name] *)
  | CRaised (e : exn)           (* [int(size)] or [int(sid)] raised *)
  | CUnlinkFailed.              (* [unlink(signalpath)] raised *)

(** Where a thread running [create_data_file] stands. *)
Inductive worker_pc :=
  | WSample                     (* before [get_study_sample] *)
  | WWrite                      (* data created, before the writer *)
  | WUnlink                     (* file written, before [unlink(signalname)] *)
  | WFinished
  | WRaised (e : exn)           (* the sample or the writer raised *)
  | WUnlinkFailed.              (* [unlink(signalname)] raised *)

Inductive thread :=
  | Caller (r : request) (pc : caller_pc)
  | Worker (a : creation) (pc : worker_pc).

Record config := {
  fs : dir;
  threads : list thread
}.

(** What the data side of [create_data_file] does at a step: the call
    returns (a writer leaving [written] at the path), or it raises (a
    writer possibly leaving a torn file).  The protocol is proved for
    every such outcome; [Sampling.create_data_file] computes the outcome
    the code produces. *)
Inductive outcome :=
  | Returns (written : file)
  | Raises (e : exn) (torn : bool).

Definition terminated (t : thread) : bool :=
  match t with
  | Worker _ (WFinished | WRaised _ | WUnlinkFailed) => true
  | Caller _ (CReturned _ | CRaised _ | CUnlinkFailed) => true
  | _ => false
  end.

(** One step of a thread running [get_data_file].  [tid] is the id the
    next started thread gets. *)
Definition caller_step (pool : list thread) (fs : dir) (r : request)
    (pc : caller_pc) : option (dir * caller_pc * option thread) :=
  match pc with
  | CStart =>
      match open_x (signalpath r) fs with
      | Ok fs' => Some (fs', CCheck, None)
      | Raise _ =>
          if r_wait r then Some (fs, CPoll, None)
          else Some (fs, CReturned (filename r), None)
      end
  | CCheck =>
      if isfile (pathname r) fs then Some (fs, CUnlink, None)
      else Some (fs, CSpawn, None)
  | CUnlink =>
      match unlink (signalpath r) fs with
      | Ok fs' => Some (fs', CReturned (filename r), None)
      | Raise _ => Some (fs, CUnlinkFailed, None)
      end
  | CSpawn =>
      match Py.int (r_size r), Py.int (r_sid r) with
      | Ok size, Ok sid =>
          let args := {| a_study := r_study r; a_size := size;
                         a_format := r_format r; a_sid := sid;
                         a_pathname := pathname r;
                         a_signalname := signalpath r |} in
          Some (fs,
                if r_wait r then CJoin (length pool) else CReturned (filename r),
                Some (Worker args WSample))
      | Raise e, _ | _, Raise e => Some (fs, CRaised e, None)
      end
  | CJoin tid =>
      match pool !! tid with
      | Some t =>
          if terminated t then Some (fs, CReturned (filename r), None) else None
      | None => None
      end
  | CPoll =>
      if isfile (signalpath r) fs then Some (fs, CPoll, None)
      else Some (fs, CReturned (filename r), None)
  | CReturned _ | CRaised _ | CUnlinkFailed => None
  end.

(** One step of a thread running [create_data_file]. *)
Definition worker_step (o : outcome) (fs : dir) (a : creation)
    (pc : worker_pc) : option (dir * worker_pc) :=
  match pc with
  | WSample =>
      if declared (a_study a) then
        match o with
        | Returns _ => Some (fs, WWrite)
        | Raises e _ => Some (fs, WRaised e)
        end
      else
        (* [STUDIES[study]] raises, unless seeding the generator did *)
        match o with
        | Raises e _ => Some (fs, WRaised e)
        | Returns _ => Some (fs, WRaised KeyError)
        end
  | WWrite =>
      if writes (a_format a) then
        match o with
        | Returns written => Some (<[a_pathname a := written]> fs, WUnlink)
        | Raises e torn =>
            Some (if torn then <[a_pathname a := PartialFile]> fs else fs,
                  WRaised e)
        end
      else Some (fs, WUnlink)
  | WUnlink =>
      match unlink (a_signalname a) fs with
      | Ok fs' => Some (fs', WFinished)
      | Raise _ => Some (fs, WUnlinkFailed)
      end
  | WFinished | WRaised _ | WUnlinkFailed => None
  end.

Definition thread_step (o : outcome) (pool : list thread) (fs : dir)
    (t : thread) : option (dir * thread * option thread) :=
  match t with
  | Caller r pc =>
      '(fs', pc', started) ← caller_step pool fs r pc;
      Some (fs', Caller r pc', started)
  | Worker a pc =>
      '(fs', pc') ← worker_step o fs a pc;
      Some (fs', Worker a pc', None)
  end.

(** Thread [i] takes a step; [None] when it cannot (it has ended, or it
    waits in [join]). *)
Definition step (i : nat) (o : outcome) (c : config) : option config :=
  t ← threads c !! i;
  '(fs', t', started) ← thread_step o (threads c) (fs c) t;
  Some {| fs := fs'; threads := <[i := t']> (threads c) ++ option_list started |}.

(** A schedule: which thread moves, and what the data side does then. *)
Fixpoint run (sched : list (nat * outcome)) (c : config) : option config :=
  match sched with
  | [] => Some c
  | (i, o) :: rest => c' ← step i o c; run rest c'
  end.

(** Requests that have arrived and not started yet. *)
Definition arrive (fs0 : dir) (rs : list request) : config :=
  {| fs := fs0; threads := (fun r => Caller r CStart) <$> rs |}.

(** *** Reading a configuration *)

Definition count (p : thread -> bool) (pool : list thread) : nat :=
  length (List.filter p pool).

(** The thread holds the sentinel [sig]: it created it and has not
    removed it, or it ended without removing it. *)
Definition holds (sig : string) (t : thread) : bool :=
  match t with
  | Caller r (CCheck | CUnlink | CSpawn | CRaised _) => String.eqb (signalpath r) sig
  | Worker a (WSample | WWrite | WUnlink | WRaised _) => String.eqb (a_signalname a) sig
  | _ => false
  end.

(** The thread runs [create_data_file] on the file [name] with a format
    that has a writer. *)
Definition writer (name : string) (t : thread) : bool :=
  match t with
  | Worker a _ => String.eqb (a_pathname a) name && writes (a_format a)
  | Caller _ _ => false
  end.

(** The thread runs [create_data_file] with the arguments that
    [get_data_file] derives from the request [r]. *)
Definition creation_of (r : request) (t : thread) : bool :=
  match t with
  | Worker a _ =>
      bool_decide (a_study a = r_study r /\ a_format a = r_format r
                   /\ a_pathname a = pathname r /\ a_signalname a = signalpath r)
  | Caller _ _ => false
  end.

(** How often [create_data_file] was started for the request. *)
Definition creations_of (r : request) (c : config) : nat :=
  count (creation_of r) (threads c).

(** The thread works on the file [name]. *)
Definition on_file (name : string) (t : thread) : Prop :=
  match t with
  | Caller r _ => filename r = name
  | Worker a _ => a_pathname a = name
  end.

(** The thread ended with an exception. *)
Definition raised (t : thread) : bool :=
  match t with
  | Caller _ (CRaised _ | CUnlinkFailed) => true
  | Worker _ (WRaised _ | WUnlinkFailed) => true
  | _ => false
  end.

Definition started (t : thread) : bool :=
  match t with
  | Caller _ CStart => false
  | _ => true
  end.

(** The steps of [thread_step], case by case. *)
Inductive tstep (pool : list thread) (fs : dir)
  : thread -> dir -> thread -> option thread -> Prop :=
  | c_open r :
      fs !! signalpath r = None ->
      tstep pool fs (Caller r CStart)
        (<[signalpath r := EmptyFile]> fs) (Caller r CCheck) None
  | c_underway r :
      isfile (signalpath r) fs = true ->
      tstep pool fs (Caller r CStart)
        fs (Caller r (if r_wait r then CPoll else CReturned (filename r))) None
  | c_exists r :
      isfile (pathname r) fs = true ->
      tstep pool fs (Caller r CCheck) fs (Caller r CUnlink) None
  | c_nothing r :
      isfile (pathname r) fs = false ->
      tstep pool fs (Caller r CCheck) fs (Caller r CSpawn) None
  | c_unlink r :
      isfile (signalpath r) fs = true ->
      tstep pool fs (Caller r CUnlink)
        (delete (signalpath r) fs) (Caller r (CReturned (filename r))) None
  | c_unlink_failed r :
      isfile (signalpath r) fs = false ->
      tstep pool fs (Caller r CUnlink) fs (Caller r CUnlinkFailed) None
  | c_spawn r size sid :
      Py.int (r_size r) = Ok size -> Py.int (r_sid r) = Ok sid ->
      tstep pool fs (Caller r CSpawn)
        fs
        (Caller r (if r_wait r then CJoin (length pool) else CReturned (filename r)))
        (Some (Worker {| a_study := r_study r; a_size := size;
                         a_format := r_format r; a_sid := sid;
                         a_pathname := pathname r;
                         a_signalname := signalpath r |} WSample))
  | c_spawn_raised r e :
      tstep pool fs (Caller r CSpawn) fs (Caller r (CRaised e)) None
  | c_join r tid t :
      pool !! tid = Some t -> terminated t = true ->
      tstep pool fs (Caller r (CJoin tid)) fs (Caller r (CReturned (filename r))) None
  | c_poll r :
      isfile (signalpath r) fs = true ->
      tstep pool fs (Caller r CPoll) fs (Caller r CPoll) None
  | c_polled r :
      isfile (signalpath r) fs = false ->
      tstep pool fs (Caller r CPoll) fs (Caller r (CReturned (filename r))) None
  | w_sampled a :
      declared (a_study a) = true ->
      tstep pool fs (Worker a WSample) fs (Worker a WWrite) None
  | w_sample_raised a e :
      tstep pool fs (Worker a WSample) fs (Worker a (WRaised e)) None
  | w_written a written :
      writes (a_format a) = true ->
      tstep pool fs (Worker a WWrite)
        (<[a_pathname a := written]> fs) (Worker a WUnlink) None
  | w_write_raised a e :
      writes (a_format a) = true ->
      tstep pool fs (Worker a WWrite) fs (Worker a (WRaised e)) None
  | w_write_torn a e :
      writes (a_format a) = true ->
      tstep pool fs (Worker a WWrite)
        (<[a_pathname a := PartialFile]> fs) (Worker a (WRaised e)) None
  | w_no_writer a :
      writes (a_format a) = false ->
      tstep pool fs (Worker a WWrite) fs (Worker a WUnlink) None
  | w_unlink a :
      isfile (a_signalname a) fs = true ->
      tstep pool fs (Worker a WUnlink)
        (delete (a_signalname a) fs) (Worker a WFinished) None
  | w_unlink_failed a :
      isfile (a_signalname a) fs = false ->
      tstep pool fs (Worker a WUnlink) fs (Worker a WUnlinkFailed) None.

(** A thread that works on the file asks for a format that has a writer. *)
Definition writing (t : thread) : bool :=
  match t with
  | Caller r _ => writes (r_format r)
  | Worker a _ => writes (a_format a)
  end.

(** What holds of each thread in a reachable configuration, read for the
    file [name]. *)
Definition thread_ok (name : string) (fs : dir) (pool : list thread)
    (t : thread) : Prop :=
  match t with
  | Caller r pc =>
      match pc with
      | CSpawn => filename r = name -> isfile name fs = false
      | CUnlink => filename r = name -> isfile name fs = true
      | CReturned x => x = filename r
      | CJoin tid =>
          exists a pc', pool !! tid = Some (Worker a pc')
                        /\ a_pathname a = filename r /\ a_format a = r_format r
      | _ => True
      end
  | Worker a pc =>
      a_signalname a = signal_of (a_pathname a)
      /\ (a_pathname a = name -> writes (a_format a) = true ->
          match pc with
          | WUnlink | WFinished | WUnlinkFailed => isfile name fs = true
          | _ => True
          end)
  end.

(** The invariant of the protocol for one file. *)
Record invariant (name : string) (c : config) : Prop := {
  inv_hold :
    (count (holds (signal_of name)) (threads c)
     <= if isfile (signal_of name) (fs c) then 1 else 0)%nat;
  inv_once : (count (writer name) (threads c) <= 1)%nat;
  inv_ok : forall j t, threads c !! j = Some t ->
                       thread_ok name (fs c) (threads c) t
}.

(** A thread that works on the file ended with an exception. *)
Definition failed (name : string) (c : config) : Prop :=
  exists k t, threads c !! k = Some t /\ on_file name t /\ raised t = true.

(** What makes the file complete for the callers that waited: every
    request for it names a format that has a writer; once a request for
    it has started, the sentinel or the file is there, or a thread has
    failed; a caller that waited and returned finds the file, unless a
    thread has failed. *)
Record completes (name : string) (c : config) : Prop := {
  cmp_format : forall j t, threads c !! j = Some t -> on_file name t ->
                           writing t = true;
  cmp_started :
    (exists j t, threads c !! j = Some t /\ on_file name t /\ started t = true) ->
    isfile (signal_of name) (fs c) = true \/ isfile name (fs c) = true
    \/ failed name c;
  cmp_done : forall j r x,
    threads c !! j = Some (Caller r (CReturned x)) ->
    filename r = name -> r_wait r = true ->
    isfile name (fs c) = true \/ failed name c
}.

(** The two-group request of the scenarios, in a given format. *)
Definition two_groups (format : string) (wait : bool) : request :=
  {| r_study := "twosample_null"; r_size := "4"; r_format := format;
     r_sid := "42"; r_wait := wait |}.


(** The file is there and nothing works on it. *)
Definition present (name : string) (c : config) : Prop :=
  isfile name (fs c) = true
  /\ forall j t, threads c !! j = Some t ->
       match t with
       | Caller r CSpawn => filename r <> name
       | Worker a _ => a_pathname a <> name
       | _ => True
       end.

(** The data side returns. *)
Definition returns := Returns EmptyFile.

(** Two callers of one key: the first wins, the second polls. *)
Definition two_callers : list (nat * outcome) :=
  [(0, returns); (1, returns); (0, returns); (0, returns);
   (2, returns); (2, Returns (CsvFile [])); (2, returns);
   (0, returns); (1, returns)]%nat.


(** *** More readings of a configuration *)

(** A thread that is to write the file [name] and has not yet. *)
Definition about_to_write (name : string) (t : thread) : bool :=
  match t with
  | Worker a (WSample | WWrite) => String.eqb (a_pathname a) name && writes (a_format a)
  | _ => false
  end.

(** While a thread is to write the file, the file is not there. *)
Definition unwritten (name : string) (c : config) : Prop :=
  forall j t, threads c !! j = Some t -> about_to_write name t = true ->
              isfile name (fs c) = false.

(** The sentinel of the file [name] is there and no thread holds it:
    the callers for the file have not started, poll, or have returned
    without waiting; no thread runs [create_data_file] on it. *)
Definition stale (name : string) (c : config) : Prop :=
  isfile (signal_of name) (fs c) = true
  /\ forall j t, threads c !! j = Some t ->
       match t with
       | Caller r pc =>
           filename r = name ->
           match pc with
           | CStart | CPoll => True
           | CReturned _ => r_wait r = false
           | _ => False
           end
       | Worker a _ =>
           a_pathname a <> name /\ a_signalname a = signal_of (a_pathname a)
       end.

(** The steps a call of [get_data_file] that does not wait has left, at
    most. *)
Definition caller_rank (pc : caller_pc) : nat :=
  match pc with
  | CStart => 3
  | CCheck => 2
  | CUnlink | CSpawn => 1
  | CJoin _ | CPoll => 1
  | CReturned _ | CRaised _ | CUnlinkFailed => 0
  end.

(** The call neither joins a thread nor polls. *)
Definition straight (pc : caller_pc) : bool :=
  match pc with
  | CJoin _ | CPoll => false
  | _ => true
  end.

(** How often thread [i] moves in a schedule. *)
Definition steps_of (i : nat) (sched : list (nat * outcome)) : nat :=
  length (List.filter (fun e => Nat.eqb e.1 i) sched).

(** The arguments [get_data_file] passes on for a request whose size and
    seed are the integers [size] and [sid]. *)
Definition creation_args (r : request) (size sid : Z) : creation :=
  {| a_study := r_study r; a_size := size; a_format := r_format r;
     a_sid := sid; a_pathname := pathname r; a_signalname := signalpath r |}.

(** A lone call on a file that is not there: the caller up to the start
    of the thread, the thread with the outcomes [sample] and [write] of
    its two calls, and the caller again when it waits. *)
Definition lone_call (wait : bool) (sample write : outcome)
  : list (nat * outcome) :=
  [(0, returns); (0, returns); (0, returns);
   (1, sample); (1, write); (1, returns)]%nat
  ++ if wait then [(0%nat, returns)] else [].


(** When the sentinel of the file [name] is there, a thread holds it;
    and every thread running [create_data_file] writes to the file of a
    request. *)
Definition held (name : string) (c : config) : Prop :=
  (isfile (signal_of name) (fs c) = true ->
   exists j t, threads c !! j = Some t /\ holds (signal_of name) t = true)
  /\ forall j a pc, threads c !! j = Some (Worker a pc) ->
                    exists r, a_pathname a = filename r.

End Cache.

(** ** Studies, samples and data creation in one process *)

Module Sampling.
Import Frame Cache.

(** What the code uses of numpy: a seeded generator and its draws, each
    returning the advanced generator, [np.exp], [np.round], and the
    conversion of text by [astype(float)]. *)
Class Numpy := {
  Generator : Type;
  default_rng : Z -> result Generator;
  normal : float -> float -> Generator -> float * Generator;
  integers : Z -> Generator -> Z * Generator;
  choice : Z -> list float -> Generator -> Z * Generator;
  multivariate_normal :
    list float -> list (list float) -> Generator -> list float * Generator;
  np_exp : float -> float;
  np_round : float -> float;
  float_of_str : string -> option float
}.

Section Studies.
Context `{Numpy}.

(** Mean and covariance estimated by [Simon.__init__] from
    [data/Zwaan2018/MeansSimonTask.csv]. *)
Variable simon_mu : list float.
Variable simon_Sigma : list (list float).

(** A study: the names and dtypes of [variables] in order, and
    [get_observation(rng, index)]. *)
Record Study := {
  variables : list (string * dtype);
  get_observation : Generator -> Z -> result (list value * Generator)
}.

(** [Study.get_sample]: the observations for [index] in [range(size)],
    one after the other on the same generator. *)
Fixpoint observations (st : Study) (rng : Generator) (indices : list Z)
  : result (list (list value)) :=
  match indices with
  | [] => Ok []
  | index :: rest =>
      '(obs, rng') ← get_observation st rng index;
      sample ← observations st rng' rest;
      Ok (obs :: sample)
  end.

(** [range(size)] *)
Definition range (size : Z) : list Z := Z.of_nat <$> seq 0 (Z.to_nat size).

Definition get_sample (st : Study) (size : Z) (rng : Generator)
  : result DataFrame :=
  sample ← observations st rng (range size);
  let variables := variables st in
  raw ← from_records sample variables.*1;
  astype float_of_str raw variables.

Definition Simon : Study := {|
  variables := [("session1_congruent", Float64);
                ("session1_incongruent", Float64);
                ("session2_congruent", Float64);
                ("session2_incongruent", Float64)];
  get_observation rng index :=
    let '(x, rng) := multivariate_normal simon_mu simon_Sigma rng in
    Ok (VFloat <$> x, rng)
|}.

Definition TwoSample (d : float) : Study :=
  let groups := ["A"; "B"] in
  {| variables := [("group", Categorical groups false); ("x", Float64)];
     get_observation rng index :=
       let gi := index mod 2 in
       let '(x, rng) := normal 0 1 rng in
       let x := if gi =? 1 then (x + d)%float else x in
       g ← Py.index groups gi;
       Ok ([VStr g; VFloat x], rng)
  |}.

Definition Levels : Study :=
  let sex := ["female"; "male"] in
  let happiness := ["very unhappy"; "unhappy"; "neutral"; "happy"; "very happy"] in
  let colour := ["red"; "orange"; "yellow"; "green"; "blue"; "purple";
                 "black"; "white"; "grey"; "brown"] in
  let sex_happiness := [[0.16; 0.17; 0.09; 0.23; 0.35];
                        [0.31; 0.26; 0.14; 0.18; 0.11]]%float in
  let sex_lhm := [(5.119, 0.05576); (5.163, 0.06775)]%float in
  let sex_colour :=
    [[0.120; 0.069; 0.060; 0.174; 0.260; 0.170; 0.064; 0.036; 0.032; 0.015];
     [0.140; 0.080; 0.046; 0.200; 0.290; 0.090; 0.078; 0.026; 0.035; 0.015]]%float in
  {| variables := [("sex", Categorical sex false);
                   ("happiness", Categorical happiness true);
                   ("colour", Categorical colour false);
                   ("height", Float64)];
     get_observation rng index :=
       let '(si, rng) := integers (Z.of_nat (length sex)) rng in
       p ← Py.index sex_happiness si;
       let '(hi, rng) := choice (Z.of_nat (length happiness)) p rng in
       p ← Py.index sex_colour si;
       let '(ci, rng) := choice (Z.of_nat (length colour)) p rng in
       '(loc, scale) ← Py.index sex_lhm si;
       let '(z, rng) := normal loc scale rng in
       let height := np_round (np_exp z) in
       s ← Py.index sex si;
       h ← Py.index happiness hi;
       c ← Py.index colour ci;
       Ok ([VStr s; VStr h; VStr c; VFloat height], rng)
  |}.

Definition STUDIES : gmap string Study :=
  list_to_map [("levels", Levels);
               ("simon", Simon);
               ("twosample_null", TwoSample 0);
               ("twosample_medium", TwoSample 0.5)].

(** The body of [get_study_sample]: a generator seeded with [sid], and
    the sample of the study it draws. *)
Definition sample_of (study : string) (size sid : Z) : result DataFrame :=
  rng ← default_rng sid;
  match STUDIES !! study with
  | Some st => get_sample st size rng
  | None => Raise KeyError
  end.

End Studies.

(** *** One process: the memoised samples and the cache directory *)

Section Process.
Context `{Numpy}.
Variable simon_mu : list float.
Variable simon_Sigma : list (list float).

(** The arguments [lru_cache] keys on. *)
Abbreviation key := (string * Z * Z)%type.

(** A worker process with the directory it shares with the others.
    Frames are objects: [heap] holds them, [memo] (the table of
    [lru_cache], most recently used first) and the callers refer to
    them by position, so an edit in place is seen by every holder. *)
Record world := {
  heap : list DataFrame;
  memo : list (key * nat);
  files : dir
}.

(** Code that acts on the process and may raise. *)
Definition M (A : Type) : Type := world -> world * result A.

Definition ret {A} (a : A) : M A := fun w => (w, Ok a).

Definition bind {A B} (m : M A) (k : A -> M B) : M B := fun w =>
  match m w with
  | (w', Ok a) => k a w'
  | (w', Raise e) => (w', Raise e)
  end.

Definition when (b : bool) (m : M unit) : M unit :=
  if b then m else ret tt.

Fixpoint memo_find (k : key) (m : list (key * nat)) : option nat :=
  match m with
  | [] => None
  | (k', loc) :: m' => if decide (k' = k) then Some loc else memo_find k m'
  end.

Definition memo_drop (k : key) (m : list (key * nat)) : list (key * nat) :=
  List.filter (fun e => negb (bool_decide (e.1 = k))) m.

Definition maxsize : nat := 300.

(** [get_study_sample], under [lru_cache(maxsize=300)]: a hit returns
    the stored object and makes it the most recent entry; a miss runs
    the body, stores the new object and evicts the least recent entry
    beyond [maxsize]; a call that raises stores nothing. *)
Definition get_study_sample (study : string) (size sid : Z) : M nat :=
  fun w =>
    let k := (study, size, sid) in
    match memo_find k (memo w) with
    | Some loc =>
        ({| heap := heap w;
            memo := (k, loc) :: memo_drop k (memo w);
            files := files w |}, Ok loc)
    | None =>
        match sample_of simon_mu simon_Sigma study size sid with
        | Ok df =>
            let loc := length (heap w) in
            ({| heap := heap w ++ [df];
                memo := take maxsize ((k, loc) :: memo w);
                files := files w |}, Ok loc)
        | Raise e => (w, Raise e)
        end
    end.

(** A writer applied to the object at [loc]: the object is replaced by
    what the writer left of it, the file appears at [pathname]. *)
Definition write (writer : DataFrame -> DataFrame * result file)
    (loc : nat) (pathname : string) : M unit :=
  fun w =>
    match heap w !! loc with
    | None => (w, Raise KeyError)
    | Some df =>
        let '(df', r) := writer df in
        let h := <[loc := df']> (heap w) in
        match r with
        | Ok f =>
            ({| heap := h; memo := memo w;
                files := <[pathname := f]> (files w) |}, Ok tt)
        | Raise e =>
            ({| heap := h; memo := memo w; files := files w |}, Raise e)
        end
    end.

Definition total (writer : DataFrame -> DataFrame * file)
  : DataFrame -> DataFrame * result file :=
  fun df => let '(df', f) := writer df in (df', Ok f).

Definition unlink_file (p : string) : M unit := fun w =>
  match unlink p (files w) with
  | Ok fs' => ({| heap := heap w; memo := memo w; files := fs' |}, Ok tt)
  | Raise e => (w, Raise e)
  end.

Definition create_data_file (study : string) (size : Z) (format : string)
    (sid : Z) (pathname signalname : string) : M unit :=
  bind (get_study_sample study size sid) (fun df =>
  bind (when (String.eqb format "csv") (write (total df_to_csv) df pathname)) (fun _ =>
  bind (when (String.eqb format "xlsx") (write (total df_to_xlsx) df pathname)) (fun _ =>
  bind (when (String.eqb format "dta") (write to_stata df pathname)) (fun _ =>
  bind (when (String.eqb format "sav") (write df_to_sav df pathname)) (fun _ =>
  unlink_file signalname))))).

(** Calls served by the process, one after the other. *)
Inductive call :=
  | GetStudySample (study : string) (size sid : Z)
  | CreateDataFile (study : string) (size : Z) (format : string) (sid : Z)
      (pathname signalname : string).

Definition serve (w : world) (c : call) : world :=
  match c with
  | GetStudySample study size sid => (get_study_sample study size sid w).1
  | CreateDataFile study size format sid pathname signalname =>
      (create_data_file study size format sid pathname signalname w).1
  end.

Definition start (fs0 : dir) : world :=
  {| heap := []; memo := []; files := fs0 |}.

(** The frame a call of [get_study_sample] hands to its caller. *)
Definition sampled (study : string) (size sid : Z) (w : world)
  : result DataFrame :=
  match get_study_sample study size sid w with
  | (w', Ok loc) =>
      match heap w' !! loc with
      | Some df => Ok df
      | None => Raise KeyError
      end
  | (_, Raise e) => Raise e
  end.

(** The formats whose writer edits the frame it is given. *)
Definition edits (format : string) : bool :=
  String.eqb format "csv" || String.eqb format "xlsx" || String.eqb format "sav".

(** A call that hands the frame of the key [k] to such a writer. *)
Definition editing (k : key) (c : call) : bool :=
  match c with
  | GetStudySample _ _ _ => false
  | CreateDataFile study size format sid _ _ =>
      bool_decide ((study, size, sid) = k) && edits format
  end.

Definition quiet (k : key) (h : list call) : bool :=
  forallb (fun c => negb (editing k c)) h.

(** The process after it served the calls of [h], oldest first. *)
Definition after (fs0 : dir) (h : list call) : world :=
  foldl serve (start fs0) h.

(** The call runs the body of [get_study_sample]. *)
Definition misses (k : key) (w : world) : Prop := memo_find k (memo w) = None.

(** What the table of [lru_cache] holds: each entry refers to an object of
    the heap, two keys never share an object, and the object of the key
    [(study, size, sid)] is the sample that key determines. *)
Record memo_ok (study : string) (size sid : Z) (w : world) : Prop := {
  mo_bound : forall k' loc, (k', loc) ∈ memo w -> (loc < length (heap w))%nat;
  mo_inj : forall (k1 k2 : key) loc,
             (k1, loc) ∈ memo w -> (k2, loc) ∈ memo w -> k1 = k2;
  mo_val : forall loc, ((study, size, sid), loc) ∈ memo w ->
             exists df, heap w !! loc = Some df
                        /\ sample_of simon_mu simon_Sigma study size sid = Ok df
}.

(** The table with the entry a writer works on. *)
Definition holds_entry (study : string) (size sid : Z)
    (k' : key) (loc : nat) (w : world) : Prop :=
  memo_ok study size sid w /\ (k', loc) ∈ memo w.

End Process.

(** *** Reading the table and the directory *)

(** The place of the key in the table of [lru_cache], the most recent
    entry being at 0; the length of the table when the key is not in it. *)
Fixpoint memo_rank (k : string * Z * Z) (m : list (string * Z * Z * nat)) : nat :=
  match m with
  | [] => 0
  | (k', _) :: m' => if decide (k' = k) then 0 else S (memo_rank k m')
  end.

(** The key is in the table with the object [loc], among the [n + 1]
    most recent entries. *)
Definition kept (k : string * Z * Z) (loc n : nat) (w : world) : Prop :=
  memo_find k (memo w) = Some loc /\ (memo_rank k (memo w) <= n)%nat.

(** The table holds at most [maxsize] entries, one for a key, each
    referring to an object of the heap. *)
Definition table_ok (w : world) : Prop :=
  (length (memo w) <= maxsize)%nat
  /\ NoDup (memo w).*1
  /\ forall (k : string * Z * Z) loc,
       (k, loc) ∈ memo w -> (loc < length (heap w))%nat.

(** *** A scenario: the files of one key *)

(** The header of the SPSS file at [pathname], if there is one. *)
Definition written_header (w : world) (pathname : string) : option sav_header :=
  match files w !! pathname with
  | Some (SavFile h _) => Some h
  | _ => None
  end.

(** What that header holds for the variable [n]. *)
Definition sav_entries (w : world) (pathname n : string) :=
  (fun h => entries h n) <$> written_header w pathname.

(** The calls of [create_data_file] for the levels study with 3
    observations and seed 7, as [get_data_file] starts them, and the
    sentinels it has created. *)
Definition levels_file (format : string) : call :=
  CreateDataFile "levels" 3 format 7
    ("tykhe_levels_3_7." +:+ format) ("creating-tykhe_levels_3_7." +:+ format).

Definition sentinels : dir :=
  {[ "creating-tykhe_levels_3_7.csv" := EmptyFile;
     "creating-tykhe_levels_3_7.sav" := EmptyFile ]}.

(** *** Observations of the studies *)

(** An observation of the levels study: three labels, each among the
    categories of its variable, and a height. *)
Definition levels_row (obs : list value) : Prop :=
  match obs with
  | [VStr s; VStr h; VStr c; VFloat _] =>
      s ∈ ["female"; "male"]
      /\ h ∈ ["very unhappy"; "unhappy"; "neutral"; "happy"; "very happy"]
      /\ c ∈ ["red"; "orange"; "yellow"; "green"; "blue"; "purple";
              "black"; "white"; "grey"; "brown"]
  | _ => False
  end.

(** An observation of the Simon task: four numbers. *)
Definition simon_row (obs : list value) : Prop :=
  exists x, obs = VFloat <$> x /\ length x = 4%nat.

Section Draws.
Context `{Numpy}.

(** The first [n] standard normal draws of a generator. *)
Fixpoint draws (n : nat) (rng : Generator) : list float :=
  match n with
  | O => []
  | S n' => let '(x, rng') := normal 0 1 rng in x :: draws n' rng'
  end.

(** [TwoSample.get_observation] adds [d] to the draw of an observation
    with an odd index. *)
Definition effect (d : float) (index : Z) (x : float) : float :=
  if index mod 2 =? 1 then (x + d)%float else x.

End Draws.

(** *** The group of an observation *)

(** [TwoSample.get_observation] takes [self.groups[index % 2]]. *)
Definition group_of (index : Z) : string := if index mod 2 =? 0 then "A" else "B".

Section Scenario.
Context `{Numpy}.
Variable simon_mu : list float.
Variable simon_Sigma : list (list float).

(** The sample of [study] for seed 42 and size 4 has the groups A, B, A,
    B; there is no sample only if seeding the generator raises. *)
Definition alternates_at_seed_42 (study : string) : Prop :=
  match default_rng 42 with
  | Ok _ =>
      exists df,
        sample_of simon_mu simon_Sigma study 4 42 = Ok df
        /\ cells_of df "group" = Some [CStr "A"; CStr "B"; CStr "A"; CStr "B"]
  | Raise e => sample_of simon_mu simon_Sigma study 4 42 = Raise e
  end.

End Scenario.

End Sampling.

(** ** A generator to run the definitions on *)

Module Toy.
Import Sampling.

(** A linear congruential generator stands in for numpy's: the theorems
    hold for every [Numpy], this one evaluates them on concrete inputs. *)
Definition next (s : Z) : Z := (1103515245 * s + 12345) mod 2147483648.

Definition fraction (s : Z) : float :=
  (PrimFloat.of_uint63 (Uint63.of_Z (s mod 1000)) / 1000)%float.

Definition numpy : Numpy := {|
  Generator := Z;
  default_rng seed := if seed <? 0 then Raise ValueError else Ok seed;
  normal loc scale s := ((loc + scale * fraction s)%float, next s);
  integers n s := (next s mod n, next s);
  choice n p s := (next s mod n, next s);
  multivariate_normal mu Sigma s := ((fun m => (m + fraction s)%float) <$> mu, next s);
  np_exp x := x;
  np_round x := x;
  float_of_str _ := None
|}.

End Toy.

(** * Properties *)

(** ** Frames and writers *)

Module FrameFacts.
Import Frame.

Lemma eqb_refl_s (s : string) : String.eqb s s = true.
Proof. apply String.eqb_refl. Qed.

Lemma getitem_Some_elem (df : DataFrame) n c :
  getitem df n = Some c -> (n, c) ∈ df.
Proof.
  induction df as [|[m c'] df IH]; simpl; [done|].
  destruct (String.eqb_spec m n) as [->|Hne].
  - intros [= ->]. left.
  - intros Hg. right. auto.
Qed.

Lemma getitem_None (df : DataFrame) n :
  getitem df n = None <-> n ∉ columns df.
Proof.
  unfold columns. induction df as [|[m c'] df IH]; simpl.
  - split; [intros _; apply not_elem_of_nil | done].
  - destruct (String.eqb_spec m n) as [->|Hne].
    + split; [done|]. intros Hn. exfalso. apply Hn. left.
    + rewrite IH, not_elem_of_cons. split; [by intros ?; split|by intros [_ ?]].
Qed.

Lemma getitem_lookup (df : DataFrame) j n c :
  NoDup (columns df) -> df !! j = Some (n, c) -> getitem df n = Some c.
Proof.
  unfold columns. revert j. induction df as [|[m c'] df IH]; intros j Hnd Hj; [done|].
  simpl in *. apply NoDup_cons in Hnd as [Hm Hnd].
  destruct j as [|j]; simpl in Hj.
  - injection Hj as -> ->. by rewrite String.eqb_refl.
  - destruct (String.eqb_spec m n) as [->|Hne].
    + exfalso. apply Hm. apply list_elem_of_fmap. exists (n, c). split; [done|].
      eapply list_elem_of_lookup_2; eauto.
    + eauto.
Qed.

Lemma lookup_getitem (df : DataFrame) j n c :
  columns df !! j = Some n -> NoDup (columns df) -> getitem df n = Some c ->
  df !! j = Some (n, c).
Proof.
  unfold columns. intros Hj Hnd Hg.
  rewrite list_lookup_fmap in Hj.
  destruct (df !! j) as [[m c']|] eqn:E; [|done]. simpl in Hj. injection Hj as ->.
  pose proof (getitem_lookup df j n c' Hnd E). congruence.
Qed.

Lemma getitem_setitem_eq (df : DataFrame) n c :
  getitem (setitem df n c) n = Some c.
Proof.
  induction df as [|[m c'] df IH]; simpl.
  - by rewrite String.eqb_refl.
  - destruct (String.eqb_spec m n) as [->|Hne]; simpl.
    + by rewrite String.eqb_refl.
    + by destruct (String.eqb_spec m n).
Qed.

Lemma getitem_setitem_ne (df : DataFrame) n m c :
  n <> m -> getitem (setitem df n c) m = getitem df m.
Proof.
  intros Hne. induction df as [|[k c'] df IH]; simpl.
  - by destruct (String.eqb_spec n m).
  - destruct (String.eqb_spec k n) as [->|Hkn]; simpl.
    + by destruct (String.eqb_spec n m).
    + by rewrite IH.
Qed.

Lemma columns_setitem (df : DataFrame) n c c' :
  getitem df n = Some c -> columns (setitem df n c') = columns df.
Proof.
  unfold columns. induction df as [|[k c0] df IH]; simpl; [done|].
  destruct (String.eqb_spec k n) as [->|Hkn]; simpl; [done|].
  intros Hg. f_equal. by apply IH.
Qed.

Lemma nrows_setitem (df : DataFrame) n c c' :
  getitem df n = Some c -> col_length c' = col_length c ->
  nrows (setitem df n c') = nrows df.
Proof.
  destruct df as [|[k c0] df]; simpl; [done|].
  destruct (String.eqb_spec k n) as [->|Hkn]; simpl; [|done].
  by intros [= ->] ->.
Qed.




Lemma coded_idemp c : coded (coded c) = coded c.
Proof. by destruct c as [| ? [] ? | |]. Qed.

Lemma col_length_coded c : col_length (coded c) = col_length c.
Proof. destruct c as [| ? [] ? | |]; unfold col_length; simpl; by rewrite ?length_fmap. Qed.

Lemma col_length_sav_column c : col_length (sav_column c) = col_length c.
Proof. destruct c as [| ? [] ? | |]; unfold col_length; simpl; by rewrite ?length_fmap. Qed.

Lemma codes_step_spec (df : DataFrame) a :
  (forall n, getitem (codes_step df a) n
             = (if decide (n = a) then coded else id) <$> getitem df n)
  /\ columns (codes_step df a) = columns df
  /\ nrows (codes_step df a) = nrows df.
Proof.
  unfold codes_step. destruct (getitem df a) as [c|] eqn:E.
  - destruct (is_ordinal c) eqn:Ho.
    + split_and!.
      * intros n. destruct (decide (n = a)) as [->|Hne].
        -- rewrite getitem_setitem_eq, E. simpl. unfold coded. by rewrite Ho.
        -- rewrite getitem_setitem_ne by done. by destruct (getitem df n).
      * by eapply columns_setitem.
      * eapply nrows_setitem; [done|]. pose proof (col_length_coded c) as Hc.
        unfold coded in Hc. by rewrite Ho in Hc.
    + split_and!; try done.
      intros n. destruct (decide (n = a)) as [->|Hne].
      * rewrite E. simpl. unfold coded. by rewrite Ho.
      * by destruct (getitem df n).
  - split_and!; try done.
    intros n. destruct (decide (n = a)) as [->|Hne].
    + by rewrite E.
    + by destruct (getitem df n).
Qed.

Lemma codes_loop_spec ns (df : DataFrame) :
  (forall n, getitem (foldl codes_step df ns) n
             = (if decide (n ∈ ns) then coded else id) <$> getitem df n)
  /\ columns (foldl codes_step df ns) = columns df
  /\ nrows (foldl codes_step df ns) = nrows df.
Proof.
  revert df. induction ns as [|a ns IH]; intros df; simpl.
  - split_and!; try done. intros n. by destruct (getitem df n).
  - destruct (IH (codes_step df a)) as (Hg & Hc & Hr).
    destruct (codes_step_spec df a) as (Hg1 & Hc1 & Hr1).
    split_and!; [|congruence|congruence].
    intros n. rewrite Hg, Hg1.
    destruct (getitem df n) as [c|]; [simpl|done]. f_equal.
    destruct (decide (n ∈ ns)) as [Hin|Hnin], (decide (n = a)) as [Hna|Hne];
      destruct (decide (n ∈ a :: ns)) as [H1|H1]; simpl;
      rewrite ?elem_of_cons, ?not_elem_of_cons in H1;
      try done; try apply coded_idemp; exfalso; tauto.
Qed.

#[local] Arguments sav_step : simpl never.

Lemma sav_loop_raise ns (df : DataFrame) e :
  foldl sav_step (df, Raise e) ns = (df, Raise e).
Proof. induction ns as [|a ns IH]; simpl; [done|apply IH]. Qed.

Lemma sav_step_Ok (df df1 : DataFrame) h h1 a :
  sav_step (df, Ok h) a = (df1, Ok h1) ->
  exists c, getitem df a = Some c
    /\ getitem df1 a = Some (sav_column c)
    /\ (forall m, m <> a -> getitem df1 m = getitem df m /\ entries h1 m = entries h m)
    /\ sav_recorded c h1 a
    /\ columns df1 = columns df
    /\ nrows df1 = nrows df
    /\ varNames h1 = varNames h.
Proof.
  unfold sav_step. destruct (getitem df a) as [c|] eqn:E; [|done].
  destruct c as [xs|labels [] values|xs|xs].
  - intros [= <- <-]. exists (FloatCol xs). unfold entries. simpl.
    split_and!; try done; try (by rewrite !lookup_insert_eq).
    intros m Hm. by rewrite !lookup_insert_ne.
  - destruct (value_labels labels values) as [vl|] eqn:Ev; simpl; [|done].
    destruct (Py.ceil_log10 (length labels)) as [w|] eqn:Ew; simpl; [|done].
    intros [= <- <-]. exists (CatCol labels true values). unfold entries. simpl.
    split_and!; try done.
    + apply getitem_setitem_eq.
    + intros m Hm. rewrite getitem_setitem_ne by done. by rewrite !lookup_insert_ne.
    + exists vl, w. split_and!; try done. unfold entries; simpl.
      by rewrite !lookup_insert_eq.
    + by eapply columns_setitem.
    + eapply nrows_setitem; [done|]. unfold col_length. simpl. by rewrite !length_fmap.
  - destruct (apply_len (cells (CatCol labels false values))) as [lens|] eqn:El;
      simpl; [|done].
    destruct (py_max lens) as [w|] eqn:Em; simpl; [|done].
    intros [= <- <-]. exists (CatCol labels false values). unfold entries. simpl.
    split_and!; try done.
    + apply getitem_setitem_eq.
    + intros m Hm. rewrite getitem_setitem_ne by done. by rewrite !lookup_insert_ne.
    + exists lens, w. split_and!; try done; simpl; by rewrite !lookup_insert_eq.
    + by eapply columns_setitem.
    + eapply nrows_setitem; [done|]. unfold col_length. simpl. by rewrite !length_fmap.
  - intros [= <- <-]. exists (IntCol xs). unfold entries. simpl.
    split_and!; try done; try (by rewrite !lookup_insert_eq).
    intros m Hm. by rewrite !lookup_insert_ne.
  - intros [= <- <-]. exists (StrCol xs). unfold entries. simpl.
    split_and!; try done; try (by rewrite !lookup_insert_eq).
    intros m Hm. by rewrite !lookup_insert_ne.
Qed.

Lemma sav_loop_other ns (df df' : DataFrame) h h' n :
  foldl sav_step (df, Ok h) ns = (df', Ok h') -> n ∉ ns ->
  getitem df' n = getitem df n /\ entries h' n = entries h n.
Proof.
  revert df h. induction ns as [|a ns IH]; intros df h; simpl.
  - by intros [= <- <-].
  - intros Hf Hn. apply not_elem_of_cons in Hn as [Hna Hn].
    destruct (sav_step (df, Ok h) a) as [df1 [h1|e]] eqn:Es.
    + apply sav_step_Ok in Es as (c & _ & _ & Ho & _).
      destruct (Ho n Hna) as [E1 E2]. destruct (IH _ _ Hf Hn) as [E3 E4].
      split; congruence.
    + by rewrite sav_loop_raise in Hf.
Qed.

Lemma sav_loop_shape ns (df df' : DataFrame) h h' :
  foldl sav_step (df, Ok h) ns = (df', Ok h') ->
  columns df' = columns df /\ nrows df' = nrows df /\ varNames h' = varNames h.
Proof.
  revert df h. induction ns as [|a ns IH]; intros df h; simpl.
  - by intros [= <- <-].
  - intros Hf.
    destruct (sav_step (df, Ok h) a) as [df1 [h1|e]] eqn:Es.
    + apply sav_step_Ok in Es as (c & _ & _ & _ & _ & Hc & Hr & Hv).
      destruct (IH _ _ Hf) as (? & ? & ?). split_and!; congruence.
    + by rewrite sav_loop_raise in Hf.
Qed.

Lemma sav_recorded_entries c h h' n :
  entries h' n = entries h n -> sav_recorded c h n -> sav_recorded c h' n.
Proof.
  unfold entries, sav_recorded. intros [= E1 E2 E3 E4].
  destruct c as [|? [] ?| |]; rewrite ?E1, ?E2, ?E3, ?E4; try done.
  intros (vl & w & ? & ? & Hx). exists vl, w. split_and!; try done.
  unfold entries. by rewrite E1, E2, E3, E4.
Qed.

Lemma sav_loop_spec ns (df df' : DataFrame) h h' n c :
  NoDup ns ->
  foldl sav_step (df, Ok h) ns = (df', Ok h') ->
  n ∈ ns -> getitem df n = Some c ->
  getitem df' n = Some (sav_column c) /\ sav_recorded c h' n.
Proof.
  revert df h. induction ns as [|a ns IH]; intros df h Hnd; simpl.
  - intros _ Hn. by apply elem_of_nil in Hn.
  - apply NoDup_cons in Hnd as [Ha Hnd]. intros Hf Hn Hg.
    destruct (sav_step (df, Ok h) a) as [df1 [h1|e]] eqn:Es;
      [|by rewrite sav_loop_raise in Hf].
    apply sav_step_Ok in Es as (c1 & Hg1 & Hg1' & Ho & Hrec & _).
    destruct (decide (n = a)) as [->|Hne].
    + assert (c1 = c) as -> by congruence.
      destruct (sav_loop_other _ _ _ _ _ a Hf Ha) as [Hgo Heo].
      split; [congruence|]. by eapply sav_recorded_entries.
    + apply elem_of_cons in Hn as [?|Hn]; [done|].
      destruct (Ho n Hne) as [Hgn _].
      eapply IH; eauto. congruence.
Qed.



(** *** Python helpers *)

Lemma pow10_above (n : nat) : Z.of_nat (S n) <= 10 ^ Z.of_nat n.
Proof.
  induction n as [|n IH]; [done|].
  rewrite (Nat2Z.inj_succ n), Z.pow_succ_r by lia. lia.
Qed.

Lemma least_pow10_spec fuel k p n :
  p = 10 ^ k -> 0 <= k -> 1 <= n ->
  (k = 0 \/ 10 ^ (k - 1) < n) ->
  n <= 10 ^ (k + Z.of_nat fuel - 1) ->
  let r := Py.least_pow10 fuel k p n in
  0 <= r /\ n <= 10 ^ r /\ (r = 0 \/ 10 ^ (r - 1) < n).
Proof.
  revert k p. induction fuel as [|fuel IH]; intros k p -> Hk Hn Hlow Hup; simpl.
  - exfalso. replace (k + Z.of_nat 0 - 1) with (k - 1) in Hup by lia.
    destruct Hlow as [->|Hlow]; [|lia].
    change (10 ^ (0 - 1)) with 0 in Hup. lia.
  - destruct (Z.leb_spec n (10 ^ k)) as [Hle|Hgt]; [done|].
    apply IH; try lia.
    + rewrite Z.pow_add_r by lia. lia.
    + right. by replace (k + 1 - 1) with k by lia.
    + by replace (k + 1 + Z.of_nat fuel - 1) with (k + Z.of_nat (S fuel) - 1) by lia.
Qed.

Lemma ceil_log10_spec (n : nat) w :
  Py.ceil_log10 n = Ok w ->
  (0 < n)%nat /\ 0 <= w /\ Z.of_nat n <= 10 ^ w /\ (w = 0 \/ 10 ^ (w - 1) < Z.of_nat n).
Proof.
  destruct n as [|n]; [done|]. intros Hw.
  assert (w = Py.least_pow10 (S n) 0 1 (Z.of_nat (S n))) as ->
    by (unfold Py.ceil_log10 in Hw; congruence).
  split; [lia|].
  apply (least_pow10_spec (S n) 0 1 (Z.of_nat (S n))); [done|lia|lia|by left|].
  replace (0 + Z.of_nat (S n) - 1) with (Z.of_nat n) by lia. apply pow10_above.
Qed.

Lemma ceil_log10_Ok (n : nat) : (0 < n)%nat -> exists w, Py.ceil_log10 n = Ok w.
Proof. destruct n; [lia|]. by eexists. Qed.

Lemma ceil_log10_unique (n : nat) w k :
  Py.ceil_log10 n = Ok w -> 0 <= k ->
  Z.of_nat n <= 10 ^ k -> (k = 0 \/ 10 ^ (k - 1) < Z.of_nat n) -> w = k.
Proof.
  intros Hw Hk Hup Hlow. apply ceil_log10_spec in Hw as (Hn & Hw & Hwu & Hwl).
  destruct (Z.lt_trichotomy w k) as [Hlt|[->|Hgt]]; [exfalso| done |exfalso].
  - destruct Hlow as [->|Hlow]; [lia|].
    assert (10 ^ w <= 10 ^ (k - 1)) by (apply Z.pow_le_mono_r; lia). lia.
  - destruct Hwl as [->|Hwl]; [lia|].
    assert (10 ^ k <= 10 ^ (w - 1)) by (apply Z.pow_le_mono_r; lia). lia.
Qed.

Lemma py_max_spec lens w :
  py_max lens = Ok w -> w ∈ lens /\ forall x, x ∈ lens -> x <= w.
Proof.
  destruct lens as [|n lens]; [done|]. simpl. intros [= <-].
  assert (forall l a, (foldl Z.max a l = a \/ foldl Z.max a l ∈ l)
                      /\ a <= foldl Z.max a l
                      /\ forall x, x ∈ l -> x <= foldl Z.max a l) as Hf.
  { induction l as [|b l IH]; intros a; simpl.
    - split_and!; [by left|lia|]. intros x Hx. by apply elem_of_nil in Hx.
    - destruct (IH (Z.max a b)) as (Hm & Hle & Hall). split_and!.
      + destruct Hm as [Hm|Hm]; [|right; by right].
        rewrite Hm. destruct (Z.max_spec a b) as [[_ ->]|[_ ->]]; [right; left|by left].
      + lia.
      + intros x [->|Hx]%elem_of_cons; [lia|by apply Hall]. }
  destruct (Hf lens n) as (Hm & Hle & Hall). split.
  - destruct Hm as [->|Hm]; [left|by right].
  - intros x [->|Hx]%elem_of_cons; [done|by apply Hall].
Qed.

Lemma apply_len_spec cs lens :
  apply_len cs = Ok lens ->
  forall n, n ∈ lens <-> exists s, CStr s ∈ cs /\ n = Z.of_nat (String.length s).
Proof.
  revert lens. induction cs as [|c cs IH]; intros lens; simpl.
  - intros [= <-] n. split; [by intros ?%elem_of_nil|].
    by intros (s & ?%elem_of_nil & _).
  - destruct c as [x|z|s|]; try done.
    destruct (apply_len cs) as [ns|] eqn:E; simpl; [|done].
    intros [= <-] n. rewrite elem_of_cons, (IH ns eq_refl). split.
    + intros [->|(s' & Hs & ->)]; [exists s; split; [left|done]|].
      exists s'. split; [by right|done].
    + intros (s' & [[= ->]|Hs]%elem_of_cons & ->); [by left|].
      right. by exists s'.
Qed.

Lemma value_labels_spec labels values vl :
  value_labels labels values = Ok vl ->
  forall k l, vl !! k = Some l <-> k ∈ values /\ Py.index labels k = Ok l.
Proof.
  revert vl. induction values as [|v values IH]; intros vl; simpl.
  - intros [= <-] k l. rewrite lookup_empty. split; [done|].
    by intros [?%elem_of_nil _].
  - destruct (Py.index labels v) as [lv|] eqn:Ev; simpl; [|done].
    destruct (value_labels labels values) as [m|] eqn:Em; simpl; [|done].
    intros [= <-] k l. destruct (decide (v = k)) as [->|Hne].
    + rewrite lookup_insert_eq. split.
      * intros [= <-]. split; [left|done].
      * intros [_ Hk]. congruence.
    + rewrite lookup_insert_ne by done. rewrite (IH m eq_refl), elem_of_cons.
      split; [intros [? ?]; split; [by right|done]|].
      intros [[->|?] ?]; done.
Qed.

Lemma iterrows_lookup (df : DataFrame) i j n c x :
  (i < nrows df)%nat -> df !! j = Some (n, c) -> cells c !! i = Some x ->
  exists row, iterrows df !! i = Some row /\ row !! j = Some x.
Proof.
  intros Hi Hj Hx. unfold iterrows. eexists. split.
  - rewrite list_lookup_fmap, lookup_seq_lt by done. simpl. reflexivity.
  - rewrite list_lookup_fmap, Hj. simpl. by rewrite Hx.
Qed.

Lemma df_to_sav_Ok (df df' : DataFrame) h rows :
  df_to_sav df = (df', Ok (SavFile h rows)) ->
  foldl sav_step (df, Ok (empty_header (columns df))) (columns df) = (df', Ok h)
  /\ rows = iterrows df'.
Proof.
  unfold df_to_sav.
  destruct (foldl sav_step _ _) as [d [h0|e]]; [|done]. by intros [= <- <- <-].
Qed.

(** *** Prefixes of records and of typed frames *)

Lemma record_columns_length ncols sample cols :
  record_columns ncols sample = Ok cols -> length cols = ncols.
Proof.
  revert cols. induction sample as [|row rest IH]; intros cols; simpl.
  - intros [= <-]. apply length_replicate.
  - destruct (Nat.eqb_spec (length row) ncols) as [Hl|]; [|done].
    destruct (record_columns ncols rest) as [cs|] eqn:E; simpl; [|done].
    intros [= <-]. rewrite length_zip_with. specialize (IH cs eq_refl). lia.
Qed.

Lemma take_zip_with_cons (row : list value) cs k :
  take (S k) <$> zip_with cons row cs = zip_with cons row (take k <$> cs).
Proof.
  revert cs. induction row as [|v row IH]; intros [|c cs]; simpl; try done.
  by rewrite IH.
Qed.

Lemma take_replicate_nil ncols (cs : list (list value)) :
  length cs = ncols -> replicate ncols [] = take 0 <$> cs.
Proof.
  intros <-. induction cs as [|c cs IH]; simpl; [done|]. by rewrite IH.
Qed.

Lemma record_columns_prefix ncols s1 s2 cols :
  record_columns ncols (s1 ++ s2) = Ok cols ->
  record_columns ncols s1 = Ok (take (length s1) <$> cols).
Proof.
  revert cols. induction s1 as [|row s1 IH]; intros cols; simpl.
  - intros Hc. f_equal. apply take_replicate_nil. by eapply record_columns_length.
  - destruct (Nat.eqb_spec (length row) ncols) as [Hl|]; [|done].
    destruct (record_columns ncols (s1 ++ s2)) as [cs|] eqn:E; simpl; [|done].
    intros [= <-]. rewrite (IH cs eq_refl). simpl. by rewrite take_zip_with_cons.
Qed.

Section AstypeFacts.
Variable float_of_str : string -> option float.

Lemma to_floats_take k vs xs :
  to_floats float_of_str vs = Ok xs ->
  to_floats float_of_str (take k vs) = Ok (take k xs).
Proof.
  revert k xs. induction vs as [|v vs IH]; intros k xs; simpl.
  - intros [= <-]. by destruct k.
  - destruct (to_float float_of_str v) as [x|] eqn:Ex; simpl; [|done].
    destruct (to_floats float_of_str vs) as [ys|] eqn:Ey; simpl; [|done].
    intros [= <-]. destruct k as [|k]; simpl; [done|].
    rewrite Ex. simpl. by rewrite (IH k ys eq_refl).
Qed.

Lemma astype_col_take t k vs c :
  astype_col float_of_str t vs = Ok c ->
  astype_col float_of_str t (take k vs) = Ok (col_head k c).
Proof.
  destruct t as [|cats ord]; simpl.
  - destruct (to_floats float_of_str vs) as [xs|] eqn:E; simpl; [|done].
    intros [= <-]. by rewrite (to_floats_take _ _ _ E).
  - intros [= <-]. simpl. by rewrite fmap_take.
Qed.

Lemma astype_head k raw variables df :
  astype float_of_str raw variables = Ok df ->
  astype float_of_str (prod_map id (take k) <$> raw) variables = Ok (head k df).
Proof.
  revert df. induction raw as [|[n vs] raw IH]; intros df; simpl.
  - by intros [= <-].
  - destruct (_ !! n) as [t|]; [|done].
    destruct (astype_col float_of_str t vs) as [c|] eqn:Ec; simpl; [|done].
    destruct (astype float_of_str raw variables) as [d|] eqn:Ed; simpl; [|done].
    intros [= <-]. rewrite (astype_col_take _ _ _ _ Ec). simpl.
    specialize (IH d eq_refl).
    change (astype float_of_str (prod_map id (take k) <$> raw) variables
              ≫= (fun df : DataFrame => Ok ((n, col_head k c) :: df))
            = Ok ((n, col_head k c) :: head k d)).
    by rewrite IH.
Qed.

End AstypeFacts.

Lemma zip_take_columns (names : list string) (cols : list (list value)) k :
  zip names (take k <$> cols) = prod_map id (take k) <$> zip names cols.
Proof.
  revert cols. induction names as [|n names IH]; intros [|c cols]; simpl; try done.
  by rewrite IH.
Qed.

(** *** The claims about the writers *)

Lemma mid_code codes i :
  cells (CatCol ["low"; "mid"; "high"] true codes) !! i = Some (CStr "mid") ->
  codes !! i = Some 1.
Proof.
  simpl. rewrite list_lookup_fmap. destruct (codes !! i) as [k|]; [|done].
  simpl. unfold label. intros Hk. f_equal.
  destruct (Z.ltb_spec k 0) as [Hneg|Hpos]; [done|].
  destruct (Z.to_nat k) as [|[|[|n]]] eqn:E; simpl in Hk; try done. lia.
Qed.

Lemma written_column (df d : DataFrame) j name c c' :
  NoDup (columns df) -> df !! j = Some (name, c) ->
  columns d = columns df -> getitem d name = Some c' ->
  d !! j = Some (name, c').
Proof.
  intros Hnd Hj Hc Hg. apply lookup_getitem; [|by rewrite Hc|done].
  rewrite Hc. unfold columns. by rewrite list_lookup_fmap, Hj.
Qed.

(** C6 (as amended): a cell "mid" of an ordered categorical column with
    categories low, mid, high is written as the integer code 1 by
    [df_to_csv], [df_to_xlsx] and [df_to_sav]; the value labels
    [df_to_sav] attaches to the column map 1 to "mid" and hold exactly
    the codes that occur in the column, each with its label. *)
Theorem ordinal_mid_is_code_1 (df : DataFrame) name j codes i :
  well_formed df ->
  df !! j = Some (name, CatCol ["low"; "mid"; "high"] true codes) ->
  cells (CatCol ["low"; "mid"; "high"] true codes) !! i = Some (CStr "mid") ->
  (exists d cs, (df_to_csv df).2 = CsvFile d
      /\ cells_of d name = Some cs /\ cs !! i = Some (CInt 1))
  /\ (exists d cs, (df_to_xlsx df).2 = ExcelFile d
      /\ cells_of d name = Some cs /\ cs !! i = Some (CInt 1))
  /\ forall df' h rows,
      df_to_sav df = (df', Ok (SavFile h rows)) ->
      (exists row, rows !! i = Some row /\ row !! j = Some (CInt 1))
      /\ exists vl,
          valueLabels h !! name = Some vl
          /\ vl !! 1 = Some "mid"
          /\ forall k l, vl !! k = Some l <->
               k ∈ codes /\ Py.index ["low"; "mid"; "high"] k = Ok l.
Proof.
  intros [Hnd Hrect] Hj Hcell.
  pose proof (mid_code _ _ Hcell) as Hcode.
  pose proof (getitem_lookup _ _ _ _ Hnd Hj) as Hg.
  assert (name ∈ columns df) as Hin.
  { unfold columns. apply list_elem_of_fmap. exists (name, CatCol ["low"; "mid"; "high"] true codes).
    split; [done|]. by eapply list_elem_of_lookup_2. }
  assert (forall d, getitem d name = Some (IntCol codes) ->
            exists cs, cells_of d name = Some cs /\ cs !! i = Some (CInt 1)) as Hcs.
  { intros d Hd. exists (CInt <$> codes). unfold cells_of. rewrite Hd. split; [done|].
    by rewrite list_lookup_fmap, Hcode. }
  destruct (codes_loop_spec (columns df) df) as (Hcg & _ & _).
  specialize (Hcg name). rewrite Hg, decide_True in Hcg by done. simpl in Hcg.
  split_and!.
  - eexists. unfold df_to_csv. simpl. destruct (Hcs _ Hcg) as (cs & ? & ?). eauto.
  - eexists. unfold df_to_xlsx. simpl. destruct (Hcs _ Hcg) as (cs & ? & ?). eauto.
  - intros df' h rows [Hloop ->]%df_to_sav_Ok.
    destruct (sav_loop_spec _ _ _ _ _ _ _ Hnd Hloop Hin Hg) as [Hg' Hrec].
    destruct (sav_loop_shape _ _ _ _ _ Hloop) as (Hcols & Hrows & _).
    simpl in Hg', Hrec. destruct Hrec as (vl & w & Hvl & _ & Hent).
    split.
    + eapply (iterrows_lookup df' i j name (IntCol codes)).
      * rewrite Hrows. unfold rectangular in Hrect. rewrite Forall_forall in Hrect.
        specialize (Hrect _ (list_elem_of_lookup_2 _ _ _ Hj)). simpl in Hrect.
        rewrite <- Hrect. unfold col_length. apply lookup_lt_Some in Hcell. done.
      * by eapply written_column.
      * simpl. by rewrite list_lookup_fmap, Hcode.
    + exists vl. unfold entries in Hent. injection Hent as _ Hv _ _.
      pose proof (value_labels_spec _ _ _ Hvl) as Hspec. split_and!; [done| |done].
      apply Hspec. split; [by eapply list_elem_of_lookup_2|done].
Qed.

(** The frame of the counterexample to C6: one ordered column holding a
    single "mid". *)
Lemma ordinal_mid_is_code_1_witness :
  let df := [("v", CatCol ["low"; "mid"; "high"] true [1])] in
  (exists d cs, (df_to_csv df).2 = CsvFile d
      /\ cells_of d "v" = Some cs /\ cs !! 0%nat = Some (CInt 1))
  /\ (exists d cs, (df_to_xlsx df).2 = ExcelFile d
      /\ cells_of d "v" = Some cs /\ cs !! 0%nat = Some (CInt 1))
  /\ forall df' h rows,
      df_to_sav df = (df', Ok (SavFile h rows)) ->
      (exists row, rows !! 0%nat = Some row /\ row !! 0%nat = Some (CInt 1))
      /\ exists vl,
          valueLabels h !! "v" = Some vl
          /\ vl !! 1 = Some "mid"
          /\ forall k l, vl !! k = Some l <->
               k ∈ [1] /\ Py.index ["low"; "mid"; "high"] k = Ok l.
Proof.
  apply (ordinal_mid_is_code_1 [("v", CatCol ["low"; "mid"; "high"] true [1])]
           "v" 0 [1] 0).
  - split; [compute_done|]. by repeat constructor.
  - reflexivity.
  - reflexivity.
Defined.

(** C6 as stated fails: for a column holding a single "mid", the value
    labels attached by [df_to_sav] are {1: "mid"}, not
    {0: "low", 1: "mid", 2: "high"}. *)
Lemma ordinal_mid_labels_counterexample :
  let col := CatCol ["low"; "mid"; "high"] true [1] in
  cells col !! 0%nat = Some (CStr "mid")
  /\ exists df' h rows,
      df_to_sav [("v", col)] = (df', Ok (SavFile h rows))
      /\ valueLabels h !! "v" = Some {[ 1 := "mid" ]}
      /\ valueLabels h !! "v"
         <> Some (list_to_map [(0, "low"); (1, "mid"); (2, "high")]).
Proof.
  split; [reflexivity|].
  exists [("v", IntCol [1])],
    {| varNames := ["v"];
       varTypes := <["v" := 0]> ∅;
       valueLabels := <["v" := <[1 := "mid"]> ∅]> ∅;
       measureLevels := <["v" := "ordinal"]> ∅;
       formats := <["v" := "F1.0"]> ∅ |},
    [[CInt 1]].
  split; [vm_compute; reflexivity|]. simpl. rewrite lookup_insert_eq.
  split; [reflexivity|]. intros Heq.
  pose proof (f_equal (fun o : option (gmap Z string) => o ≫= (.!! 0)) Heq) as Hl.
  done.
Qed.

(** C8: the display format [df_to_sav] records for an ordered
    categorical column with [n] declared categories is "F", then
    ceil(log10(n)), then ".0": "F1.0" for ten categories, width 2 for
    eleven to a hundred. *)
Theorem sav_format_ordinal (df df' : DataFrame) h rows name labels values :
  NoDup (columns df) ->
  getitem df name = Some (CatCol labels true values) ->
  df_to_sav df = (df', Ok (SavFile h rows)) ->
  exists w,
    Py.ceil_log10 (length labels) = Ok w
    /\ Z.of_nat (length labels) <= 10 ^ w
    /\ (w = 0 \/ 10 ^ (w - 1) < Z.of_nat (length labels))
    /\ formats h !! name = Some ("F" +:+ Py.str w +:+ ".0")
    /\ (length labels = 10%nat -> formats h !! name = Some "F1.0")
    /\ ((11 <= length labels <= 100)%nat -> formats h !! name = Some "F2.0").
Proof.
  intros Hnd Hg [Hloop ->]%df_to_sav_Ok.
  assert (name ∈ columns df) as Hin.
  { destruct (decide (name ∈ columns df)) as [|Hn]; [done|].
    apply getitem_None in Hn. congruence. }
  destruct (sav_loop_spec _ _ _ _ _ _ _ Hnd Hloop Hin Hg) as [_ Hrec].
  simpl in Hrec. destruct Hrec as (vl & w & _ & Hw & Hent).
  unfold entries in Hent. injection Hent as _ _ _ Hf.
  pose proof (ceil_log10_spec _ _ Hw) as (_ & _ & Hup & Hlow).
  exists w. split_and!; try done.
  - intros Hn. rewrite Hn in Hw. injection Hw as <-. exact Hf.
  - intros Hn. assert (w = 2) as ->; [|exact Hf].
    eapply ceil_log10_unique; [done|lia| |right]; simpl; lia.
Qed.

Lemma sav_format_ordinal_witness :
  let labels := ["0"; "1"; "2"; "3"; "4"; "5"; "6"; "7"; "8"; "9"; "10"] in
  exists df' h rows,
    df_to_sav [("v", CatCol labels true [10; 0])] = (df', Ok (SavFile h rows))
    /\ exists w,
        Py.ceil_log10 (length labels) = Ok w
        /\ Z.of_nat (length labels) <= 10 ^ w
        /\ (w = 0 \/ 10 ^ (w - 1) < Z.of_nat (length labels))
        /\ formats h !! "v" = Some ("F" +:+ Py.str w +:+ ".0")
        /\ (length labels = 10%nat -> formats h !! "v" = Some "F1.0")
        /\ ((11 <= length labels <= 100)%nat -> formats h !! "v" = Some "F2.0").
Proof.
  intros labels. eexists _, _, _. split; [vm_compute; reflexivity|].
  eapply (sav_format_ordinal [("v", CatCol labels true [10; 0])]).
  - compute_done.
  - reflexivity.
  - vm_compute; reflexivity.
Defined.

(** C9: the width [df_to_sav] declares for an unordered categorical
    column is the length of the longest label that occurs in the column;
    the column is written as the text of its labels. *)
Theorem sav_nominal_width (df df' : DataFrame) h rows name labels values :
  NoDup (columns df) ->
  getitem df name = Some (CatCol labels false values) ->
  df_to_sav df = (df', Ok (SavFile h rows)) ->
  exists w,
    varTypes h !! name = Some w
    /\ (exists s, CStr s ∈ cells (CatCol labels false values)
                  /\ w = Z.of_nat (String.length s))
    /\ (forall s, CStr s ∈ cells (CatCol labels false values) ->
                  Z.of_nat (String.length s) <= w)
    /\ measureLevels h !! name = Some "nominal"
    /\ getitem df' name
       = Some (StrCol ((fun k => default "nan" (label labels k)) <$> values))
    /\ rows = iterrows df'.
Proof.
  intros Hnd Hg [Hloop ->]%df_to_sav_Ok.
  assert (name ∈ columns df) as Hin.
  { destruct (decide (name ∈ columns df)) as [|Hn]; [done|].
    apply getitem_None in Hn. congruence. }
  destruct (sav_loop_spec _ _ _ _ _ _ _ Hnd Hloop Hin Hg) as [Hg' Hrec].
  simpl in Hrec. destruct Hrec as (lens & w & Hlens & Hmax & Hw & Hm).
  pose proof (apply_len_spec _ _ Hlens) as Hl.
  apply py_max_spec in Hmax as [Hwin Hall].
  exists w. split_and!; try done.
  - by apply Hl.
  - intros s Hs. apply Hall, Hl. by exists s.
Qed.

Lemma sav_nominal_width_witness :
  exists df' h rows,
    df_to_sav [("g", CatCol ["A"; "BBB"] false [0; 0])] = (df', Ok (SavFile h rows))
    /\ exists w,
        varTypes h !! "g" = Some w
        /\ (exists s, CStr s ∈ cells (CatCol ["A"; "BBB"] false [0; 0])
                      /\ w = Z.of_nat (String.length s))
        /\ (forall s, CStr s ∈ cells (CatCol ["A"; "BBB"] false [0; 0]) ->
                      Z.of_nat (String.length s) <= w)
        /\ measureLevels h !! "g" = Some "nominal"
        /\ getitem df' "g"
           = Some (StrCol ((fun k => default "nan" (label ["A"; "BBB"] k)) <$> [0; 0]))
        /\ rows = iterrows df'.
Proof.
  eexists _, _, _. split; [vm_compute; reflexivity|].
  eapply (sav_nominal_width [("g", CatCol ["A"; "BBB"] false [0; 0])]).
  - compute_done.
  - reflexivity.
  - vm_compute; reflexivity.
Defined.

(** The declared categories play no part: "BBB" is declared and does not
    occur, the width is that of "A". *)
Example sav_nominal_width_unused_label :
  exists df' h rows,
    df_to_sav [("g", CatCol ["A"; "BBB"] false [0; 0])] = (df', Ok (SavFile h rows))
    /\ varTypes h !! "g" = Some 1.
Proof. eexists _, _, _. split; vm_compute; reflexivity. Qed.

(** [to_stata] hands the frame on as it was, whether it raises or not. *)
Lemma to_stata_keeps (df : DataFrame) : (to_stata df).1 = df.
Proof. unfold to_stata. by destruct (existsb _ df). Qed.

End FrameFacts.

(** ** Studies and samples *)

Module SamplingFacts.
Import Frame FrameFacts Sampling.

Lemma cells_col_head k c : cells (col_head k c) = take k (cells c).
Proof. destruct c; simpl; by rewrite fmap_take. Qed.

Lemma nrows_head k (df : DataFrame) : nrows (head k df) = (k `min` nrows df)%nat.
Proof.
  destruct df as [|[n c] df]; simpl; [lia|].
  unfold col_length. by rewrite cells_col_head, length_take.
Qed.

Lemma iterrows_head k (df : DataFrame) :
  iterrows (head k df) = take k (iterrows df).
Proof.
  unfold iterrows. rewrite nrows_head, <- fmap_take, take_seq.
  apply list_fmap_ext. intros j i Hi.
  apply lookup_seq in Hi as [-> Hi]. simpl. unfold head.
  rewrite <- list_fmap_compose. apply list_fmap_ext. intros _ [n c] _. simpl.
  rewrite cells_col_head, lookup_take_lt by lia. done.
Qed.

Section Facts.
Context `{Numpy}.
Variable simon_mu : list float.
Variable simon_Sigma : list (list float).

Lemma range_prefix M N :
  M <= N ->
  range N = range M ++ (Z.of_nat <$> seq (Z.to_nat M) (Z.to_nat N - Z.to_nat M)).
Proof.
  intros Hle. unfold range. rewrite <- fmap_app. f_equal.
  replace (Z.to_nat N) with (Z.to_nat M + (Z.to_nat N - Z.to_nat M))%nat at 1 by lia.
  by rewrite seq_app.
Qed.

Lemma length_range M : length (range M) = Z.to_nat M.
Proof. unfold range. by rewrite length_fmap, length_seq. Qed.

Lemma observations_app st rng l1 l2 s :
  observations st rng (l1 ++ l2) = Ok s ->
  exists s1 s2, s = s1 ++ s2 /\ length s1 = length l1
                /\ observations st rng l1 = Ok s1.
Proof.
  revert rng s. induction l1 as [|i l1 IH]; intros rng s; simpl.
  - intros Hs. by exists [], s.
  - destruct (get_observation st rng i) as [[obs rng']|] eqn:Eo; simpl; [|done].
    destruct (observations st rng' (l1 ++ l2)) as [rest|] eqn:Er; simpl; [|done].
    intros [= <-]. destruct (IH _ _ Er) as (s1 & s2 & -> & Hlen & Hs1).
    exists (obs :: s1), s2. rewrite Hs1. simpl. by rewrite Hlen.
Qed.

Lemma get_sample_prefix st rng M N dfN :
  M <= N ->
  get_sample st N rng = Ok dfN ->
  get_sample st M rng = Ok (head (Z.to_nat M) dfN).
Proof.
  intros Hle. unfold get_sample, from_records.
  rewrite (range_prefix M N Hle).
  destruct (observations st rng (_ ++ _)) as [s|] eqn:Es; simpl; [|done].
  apply observations_app in Es as (s1 & s2 & -> & Hlen & ->). simpl.
  destruct (record_columns _ (s1 ++ s2)) as [cols|] eqn:Ec; simpl; [|done].
  rewrite (record_columns_prefix _ _ _ _ Ec). simpl.
  rewrite zip_take_columns, Hlen, length_range.
  apply astype_head.
Qed.

(** C4: for every study, seed and sizes M < N, the sample of size M is
    the first M rows of the sample of size N, in order. *)
Theorem prefix_determinism study sid M N dfN :
  M < N ->
  sample_of simon_mu simon_Sigma study N sid = Ok dfN ->
  exists dfM,
    sample_of simon_mu simon_Sigma study M sid = Ok dfM
    /\ dfM = head (Z.to_nat M) dfN
    /\ iterrows dfM = take (Z.to_nat M) (iterrows dfN).
Proof.
  intros Hlt. unfold sample_of.
  destruct (default_rng sid) as [rng|]; simpl; [|done].
  destruct (STUDIES simon_mu simon_Sigma !! study) as [st|]; [|done].
  intros HN. exists (head (Z.to_nat M) dfN). split_and!; [|done|apply iterrows_head].
  apply (get_sample_prefix st rng M N); [lia|done].
Qed.

Lemma twosample_observation d rng i :
  exists x rng',
    get_observation (TwoSample d) rng i = Ok ([VStr (group_of i); VFloat x], rng').
Proof.
  unfold TwoSample, group_of. cbn [get_observation].
  destruct (normal 0 1 rng) as [x rng'].
  pose proof (Z.mod_pos_bound i 2 ltac:(lia)) as Hb.
  remember (i mod 2) as gi eqn:Egi. clear Egi.
  assert (gi = 0 \/ gi = 1) as [-> | ->] by lia; by eexists _, _.
Qed.

Lemma twosample_observations d rng indices :
  exists xs,
    length xs = length indices
    /\ observations (TwoSample d) rng indices
       = Ok (zip_with (fun i x => [VStr (group_of i); VFloat x]) indices xs).
Proof.
  revert rng. induction indices as [|i indices IH]; intros rng.
  - by exists [].
  - destruct (twosample_observation d rng i) as (x & rng' & Hob).
    destruct (IH rng') as (xs & Hlen & Hobs).
    exists (x :: xs). split; [simpl; by rewrite Hlen|].
    cbn [observations]. rewrite Hob. simpl. by rewrite Hobs.
Qed.

Lemma twosample_records indices (xs : list float) :
  length xs = length indices ->
  record_columns 2 (zip_with (fun i x => [VStr (group_of i); VFloat x]) indices xs)
  = Ok [VStr ∘ group_of <$> indices; VFloat <$> xs].
Proof.
  revert xs. induction indices as [|i indices IH]; intros [|x xs]; simpl; try done.
  intros [= Hlen]. by rewrite (IH xs Hlen).
Qed.

Lemma to_floats_VFloat (xs : list float) :
  to_floats float_of_str (VFloat <$> xs) = Ok xs.
Proof. induction xs as [|x xs IH]; [done|]. rewrite fmap_cons. cbn [to_floats to_float]. by rewrite IH. Qed.

Lemma group_code i : to_code ["A"; "B"] (VStr (group_of i)) = i mod 2.
Proof.
  unfold group_of. pose proof (Z.mod_pos_bound i 2 ltac:(lia)).
  destruct (Z.eqb_spec (i mod 2) 0) as [->|]; simpl; [done|lia].
Qed.

Lemma group_cell i :
  cell_of_label (label ["A"; "B"] (i mod 2)) = CStr (group_of i).
Proof.
  unfold group_of, label. pose proof (Z.mod_pos_bound i 2 ltac:(lia)).
  destruct (Z.eqb_spec (i mod 2) 0) as [->|]; [done|].
  assert (i mod 2 = 1) as -> by lia. done.
Qed.

Lemma twosample_sample d size rng :
  exists xs,
    length xs = Z.to_nat size
    /\ get_sample (TwoSample d) size rng
       = Ok [("group", CatCol ["A"; "B"] false ((fun i => i mod 2) <$> range size));
             ("x", FloatCol xs)].
Proof.
  destruct (twosample_observations d rng (range size)) as (xs & Hlen & Hobs).
  exists xs. split; [by rewrite Hlen, length_range|].
  unfold get_sample, from_records. rewrite Hobs. simpl.
  rewrite (twosample_records _ _ Hlen). simpl.
  rewrite lookup_insert_eq, lookup_insert_ne, lookup_insert_eq by done.
  simpl. rewrite to_floats_VFloat. simpl. do 4 f_equal.
  rewrite <- list_fmap_compose. apply list_fmap_ext. intros _ i _. apply group_code.
Qed.

(** C10: the group of observation [index] of the two-group study is A
    for an even index and B for an odd one, whatever the generator
    draws; for seed 42 and size 4 the groups are A, B, A, B. *)
Theorem twosample_groups_alternate :
  (forall d size rng,
      exists df,
        get_sample (TwoSample d) size rng = Ok df
        /\ cells_of df "group" = Some (CStr ∘ group_of <$> range size))
  /\ alternates_at_seed_42 simon_mu simon_Sigma "twosample_null"
  /\ alternates_at_seed_42 simon_mu simon_Sigma "twosample_medium".
Proof.
  assert (forall d size rng,
      exists df,
        get_sample (TwoSample d) size rng = Ok df
        /\ cells_of df "group" = Some (CStr ∘ group_of <$> range size)) as Hgen.
  { intros d size rng. destruct (twosample_sample d size rng) as (xs & _ & ->).
    eexists. split; [done|]. unfold cells_of. simpl. f_equal.
    rewrite <- list_fmap_compose. apply list_fmap_ext. intros _ i _. apply group_cell. }
  split; [done|].
  split; unfold alternates_at_seed_42, sample_of;
    (destruct (default_rng 42) as [rng|e]; simpl; [|done]).
  - apply (Hgen 0%float 4 rng).
  - apply (Hgen 0.5%float 4 rng).
Qed.


End Facts.
Lemma prefix_determinism_witness :
  2 < 5
  /\ exists dfN,
      sample_of (H := Toy.numpy) [1; 2; 3; 4]%float [] "levels" 5 7 = Ok dfN
      /\ exists dfM,
          sample_of (H := Toy.numpy) [1; 2; 3; 4]%float [] "levels" 2 7 = Ok dfM
          /\ dfM = head (Z.to_nat 2) dfN
          /\ iterrows dfM = take (Z.to_nat 2) (iterrows dfN).
Proof.
  split; [lia|]. eexists. split; [vm_compute; reflexivity|].
  apply (prefix_determinism (H := Toy.numpy) [1; 2; 3; 4]%float [] "levels" 7 2 5);
    [lia|vm_compute; reflexivity].
Defined.

End SamplingFacts.

(** ** The sentinel protocol *)

Module CacheFacts.
Import Frame Cache.

(** *** Counting threads *)

Lemma count_app p (l1 l2 : list thread) : count p (l1 ++ l2) = (count p l1 + count p l2)%nat.
Proof. unfold count. by rewrite List.filter_app, length_app. Qed.

Lemma count_cons p t (l : list thread) :
  count p (t :: l) = ((if p t then 1 else 0) + count p l)%nat.
Proof. unfold count. simpl. by destruct (p t). Qed.

Lemma count_insert p (l : list thread) i t t' :
  l !! i = Some t ->
  (count p (<[i := t']> l) + (if p t then 1 else 0)
   = count p l + (if p t' then 1 else 0))%nat.
Proof.
  revert i. induction l as [|x l IH]; intros [|i] Hi; simpl in Hi; try done.
  - injection Hi as ->. simpl. rewrite !count_cons. lia.
  - simpl. rewrite !count_cons. specialize (IH i Hi). lia.
Qed.

Lemma count_pos p (l : list thread) i t :
  l !! i = Some t -> p t = true -> (1 <= count p l)%nat.
Proof.
  revert i. induction l as [|x l IH]; intros [|i] Hi Hp; simpl in Hi; try done.
  - injection Hi as ->. rewrite count_cons, Hp. lia.
  - rewrite count_cons. specialize (IH i Hi Hp). lia.
Qed.

Lemma count_two p (l : list thread) i j t t' :
  l !! i = Some t -> l !! j = Some t' -> i <> j ->
  p t = true -> p t' = true -> (2 <= count p l)%nat.
Proof.
  revert i j. induction l as [|x l IH]; intros [|i] [|j] Hi Hj Hne Hp Hp';
    simpl in Hi, Hj; try done; rewrite count_cons.
  - injection Hi as ->. rewrite Hp. pose proof (count_pos p l j t' Hj Hp'). lia.
  - injection Hj as ->. rewrite Hp'. pose proof (count_pos p l i t Hi Hp). lia.
  - assert (i <> j) by lia. specialize (IH i j Hi Hj ltac:(done) Hp Hp'). lia.
Qed.

Lemma count_le p q (l : list thread) :
  (forall t, t ∈ l -> p t = true -> q t = true) -> (count p l <= count q l)%nat.
Proof.
  induction l as [|x l IH]; intros Hpq; [done|]. rewrite !count_cons.
  assert (count p l <= count q l)%nat by (apply IH; intros t Ht; apply Hpq; by right).
  destruct (p x) eqn:Ep; [|lia]. rewrite (Hpq x ltac:(left) Ep). lia.
Qed.

Lemma count_zero p (l : list thread) :
  (forall t, t ∈ l -> p t = false) -> count p l = 0%nat.
Proof.
  induction l as [|x l IH]; intros Hp; [done|]. rewrite count_cons.
  rewrite (Hp x ltac:(left)). rewrite IH; [done|]. intros t Ht. apply Hp. by right.
Qed.

Lemma count_option p (sp : option thread) :
  count p (option_list sp)
  = match sp with Some t => if p t then 1%nat else 0%nat | None => 0%nat end.
Proof. destruct sp as [t|]; [|done]. simpl. rewrite count_cons. unfold count. simpl. lia. Qed.

(** *** Names *)

Lemma signal_of_inj x y : signal_of x = signal_of y -> x = y.
Proof. unfold signal_of. cbv [String.append]. by intros [= ->]. Qed.

Lemma signal_not_data x r : signal_of x <> filename r.
Proof. unfold signal_of, filename. cbv [String.append]. discriminate. Qed.

(** *** Steps *)

Lemma step_inv i o c c' :
  step i o c = Some c' ->
  exists t fs' t' sp,
    threads c !! i = Some t
    /\ thread_step o (threads c) (fs c) t = Some (fs', t', sp)
    /\ c' = {| fs := fs'; threads := <[i := t']> (threads c) ++ option_list sp |}.
Proof.
  unfold step. destruct (threads c !! i) as [t|]; simpl; [|done].
  destruct (thread_step o (threads c) (fs c) t) as [[[fs' t'] sp]|] eqn:Et;
    simpl; [|done].
  intros [= <-]. by exists t, fs', t', sp.
Qed.

Lemma lookup_step (l : list thread) i t t' sp j x :
  l !! i = Some t ->
  (<[i := t']> l ++ option_list sp) !! j = Some x ->
  (j = i /\ x = t')
  \/ (j <> i /\ l !! j = Some x)
  \/ (j = length l /\ sp = Some x).
Proof.
  intros Hi Hj. pose proof (lookup_lt_Some _ _ _ Hi) as Hlt.
  destruct (decide (j < length l)%nat) as [Hjl|Hjl].
  - rewrite lookup_app_l in Hj by (by rewrite length_insert).
    destruct (decide (j = i)) as [->|Hne].
    + rewrite list_lookup_insert_eq in Hj by done. left. by injection Hj as <-.
    + rewrite list_lookup_insert_ne in Hj by done. right. left. done.
  - rewrite lookup_app_r in Hj by (rewrite length_insert; lia).
    rewrite length_insert in Hj. destruct sp as [y|]; simpl in Hj.
    + destruct (j - length l)%nat as [|k] eqn:E; simpl in Hj; [|done].
      right. right. split; [lia|]. by injection Hj as ->.
    + by destruct (j - length l)%nat.
Qed.


Lemma isfile_insert p q x (fs : dir) :
  isfile p (<[q := x]> fs) = if decide (q = p) then true else isfile p fs.
Proof.
  unfold isfile. destruct (decide (q = p)) as [->|Hne].
  - by rewrite lookup_insert_eq.
  - by rewrite lookup_insert_ne.
Qed.

Lemma isfile_delete p q (fs : dir) :
  isfile p (delete q fs) = if decide (q = p) then false else isfile p fs.
Proof.
  unfold isfile. destruct (decide (q = p)) as [->|Hne].
  - by rewrite lookup_delete_eq.
  - by rewrite lookup_delete_ne.
Qed.

Lemma isfile_None p (fs : dir) : fs !! p = None -> isfile p fs = false.
Proof. unfold isfile. by intros ->. Qed.

Lemma thread_step_tstep o pool fs t fs' t' sp :
  thread_step o pool fs t = Some (fs', t', sp) -> tstep pool fs t fs' t' sp.
Proof.
  destruct t as [r pc|a pc]; simpl.
  - destruct pc; simpl; try done.
    + unfold open_x. destruct (fs !! signalpath r) eqn:E; simpl.
      * destruct (r_wait r) eqn:Ew; intros [= <- <- <-].
        -- pose proof (c_underway pool fs r) as Hs. rewrite Ew in Hs. apply Hs.
           unfold isfile. by rewrite E.
        -- pose proof (c_underway pool fs r) as Hs. rewrite Ew in Hs. apply Hs.
           unfold isfile. by rewrite E.
      * intros [= <- <- <-]. by constructor.
    + destruct (isfile (pathname r) fs) eqn:E; intros [= <- <- <-]; by constructor.
    + unfold unlink. destruct (fs !! signalpath r) eqn:E; simpl; intros [= <- <- <-].
      * constructor. unfold isfile. by rewrite E.
      * constructor. unfold isfile. by rewrite E.
    + destruct (Py.int (r_size r)) as [size|e] eqn:Es;
        destruct (Py.int (r_sid r)) as [sid|e'] eqn:Ei; simpl;
        intros [= <- <- <-]; by constructor.
    + destruct (pool !! tid) as [t|] eqn:E; [|done].
      destruct (terminated t) eqn:Et; [|done]. intros [= <- <- <-].
      by econstructor.
    + destruct (isfile (signalpath r) fs) eqn:E; intros [= <- <- <-]; by constructor.
  - destruct pc; simpl; try done.
    + destruct (declared (a_study a)) eqn:Ed, o; intros [= <- <- <-]; by constructor.
    + destruct (writes (a_format a)) eqn:Ew.
      * destruct o as [written|e [|]]; intros [= <- <- <-]; by constructor.
      * intros [= <- <- <-]. by constructor.
    + unfold unlink. destruct (fs !! a_signalname a) eqn:E; simpl; intros [= <- <- <-].
      * constructor. unfold isfile. by rewrite E.
      * constructor. unfold isfile. by rewrite E.
Qed.


Ltac names :=
  repeat match goal with
  | H : signal_of _ = signal_of _ |- _ => apply signal_of_inj in H
  | H : signal_of _ = filename _ |- _ => by destruct (signal_not_data _ _ H)
  | H : filename _ = signal_of _ |- _ => symmetry in H; by destruct (signal_not_data _ _ H)
  | H : signalpath _ = signal_of _ |- _ => unfold signalpath in H
  | H : signal_of _ = signalpath _ |- _ => unfold signalpath in H
  | H : pathname _ = _ |- _ => unfold pathname in H
  | H : _ = pathname _ |- _ => unfold pathname in H
  end.

Ltac cases :=
  repeat match goal with
  | H : true = true -> _ |- _ => specialize (H eq_refl)
  | H : false = true -> _ |- _ => clear H
  | H : context [String.eqb ?a ?b] |- _ => destruct (String.eqb_spec a b)
  | |- context [String.eqb ?a ?b] => destruct (String.eqb_spec a b)
  | H : context [decide ?P] |- _ => destruct (decide P)
  | |- context [decide ?P] => destruct (decide P)
  | H : context [if r_wait ?r then _ else _] |- _ => destruct (r_wait r) eqn:?
  | |- context [if r_wait ?r then _ else _] => destruct (r_wait r) eqn:?
  end.

#[local] Arguments signal_of : simpl never.
#[local] Arguments filename : simpl never.

Section Invariant.
Variable r0 : request.
Local Abbreviation name := (filename r0).
Local Abbreviation sig := (signal_of (filename r0)).

Lemma tstep_hold c i t fs' t' sp :
  invariant name c ->
  threads c !! i = Some t ->
  tstep (threads c) (fs c) t fs' t' sp ->
  (count (holds sig) (<[i := t']> (threads c) ++ option_list sp)
   <= if isfile sig fs' then 1 else 0)%nat.
Proof.
  intros [Hhold _ _] Hi Hstep.
  rewrite count_app, count_option.
  pose proof (count_insert (holds sig) _ i t t' Hi) as Hins.
  pose proof (count_pos (holds sig) _ i t Hi) as Hpos.
  destruct Hstep; cbn [holds a_signalname a_pathname] in *;
    unfold signalpath, pathname in *;
    rewrite ?isfile_insert, ?isfile_delete; cases; subst;
    repeat match goal with
    | H : ?fs !! ?p = None |- _ => apply isfile_None in H
    | H : ?x = sig |- _ => rewrite ?H in *; clear H
    end;
    repeat match goal with
    | H : isfile ?p ?fs = _ |- _ => rewrite ?H in *
    end; try lia; try done;
    destruct (isfile sig (fs c)); lia.
Qed.

Lemma hold_le_1 c : invariant name c -> (count (holds sig) (threads c) <= 1)%nat.
Proof. intros [Hhold _ _]. destruct (isfile sig (fs c)); lia. Qed.

Lemma one_holder c i j t t' :
  invariant name c ->
  threads c !! i = Some t -> threads c !! j = Some t' ->
  holds sig t = true -> holds sig t' = true -> i = j.
Proof.
  intros Hinv Hi Hj Ht Ht'. destruct (decide (i = j)) as [|Hne]; [done|].
  pose proof (count_two (holds sig) _ i j t t' Hi Hj Hne Ht Ht').
  pose proof (hold_le_1 c Hinv). lia.
Qed.

Lemma writer_holds c j a pc :
  invariant name c ->
  threads c !! j = Some (Worker a pc) ->
  writer name (Worker a pc) = true ->
  isfile name (fs c) = false ->
  holds sig (Worker a pc) = true.
Proof.
  intros Hinv Hj Hw Hf. destruct (inv_ok _ _ Hinv j _ Hj) as [Hwf Hpast].
  cbn [writer] in Hw. apply andb_true_iff in Hw as [Hp Hfmt].
  apply String.eqb_eq in Hp. specialize (Hpast Hp Hfmt).
  cbn [holds]. rewrite Hwf, Hp, String.eqb_refl.
  destruct pc; try done; congruence.
Qed.

Lemma no_writer_at_spawn c i r :
  invariant name c ->
  threads c !! i = Some (Caller r CSpawn) ->
  filename r = name ->
  count (writer name) (threads c) = 0%nat.
Proof.
  intros Hinv Hi Hr. apply count_zero. intros t Ht.
  destruct (writer name t) eqn:Ew; [exfalso|done].
  apply list_elem_of_lookup in Ht as [j Hj].
  destruct t as [r'|a pc]; [done|].
  pose proof (inv_ok _ _ Hinv i _ Hi) as Hspawn. cbn [thread_ok] in Hspawn.
  pose proof (writer_holds c j a pc Hinv Hj Ew (Hspawn Hr)) as Hh.
  assert (holds sig (Caller r CSpawn) = true) as Hc.
  { cbn [holds]. unfold signalpath. rewrite Hr. apply String.eqb_refl. }
  pose proof (one_holder c i j _ _ Hinv Hi Hj Hc Hh) as ->. congruence.
Qed.

Lemma tstep_once c i t fs' t' sp :
  invariant name c ->
  threads c !! i = Some t ->
  tstep (threads c) (fs c) t fs' t' sp ->
  (count (writer name) (<[i := t']> (threads c) ++ option_list sp) <= 1)%nat.
Proof.
  intros Hinv Hi Hstep. pose proof (inv_once _ _ Hinv) as Honce.
  rewrite count_app, count_option.
  pose proof (count_insert (writer name) _ i t t' Hi) as Hins.
  destruct Hstep; cbn [writer a_pathname a_format] in *;
    try (destruct (String.eqb (a_pathname a) name && writes (a_format a)); lia);
    try lia.
  destruct (String.eqb_spec (pathname r) name) as [Hr|]; cbn [andb]; [|lia].
  rewrite (no_writer_at_spawn c i r Hinv Hi Hr) in Hins.
  destruct (writes (r_format r)); lia.
Qed.

Lemma tstep_keeps_worker c i t fs' t' sp w a pc :
  threads c !! i = Some t ->
  tstep (threads c) (fs c) t fs' t' sp ->
  threads c !! w = Some (Worker a pc) ->
  exists pc', (<[i := t']> (threads c) ++ option_list sp) !! w = Some (Worker a pc').
Proof.
  intros Hi Hstep Hw. pose proof (lookup_lt_Some _ _ _ Hw) as Hlt.
  rewrite lookup_app_l by (by rewrite length_insert).
  destruct (decide (i = w)) as [->|Hne].
  - rewrite list_lookup_insert_eq by done. rewrite Hw in Hi. injection Hi as <-.
    inversion Hstep; subst; by eexists.
  - rewrite list_lookup_insert_ne by done. by eexists.
Qed.

Lemma tstep_keeps_file c i t fs' t' sp :
  invariant name c ->
  threads c !! i = Some t ->
  tstep (threads c) (fs c) t fs' t' sp ->
  isfile name (fs c) = true -> isfile name fs' = true.
Proof.
  intros Hinv Hi Hstep Hf. pose proof (inv_ok _ _ Hinv i _ Hi) as Hok.
  destruct Hstep; try done; rewrite ?isfile_insert, ?isfile_delete;
    try (by case_decide).
  destruct Hok as [Hwf _]. rewrite Hwf. case_decide as Hs; [|done]. names.
Qed.

Lemma tstep_keeps_nothing c i t fs' t' sp j r :
  invariant name c ->
  threads c !! i = Some t ->
  tstep (threads c) (fs c) t fs' t' sp ->
  j <> i -> threads c !! j = Some (Caller r CSpawn) -> filename r = name ->
  isfile name fs' = false.
Proof.
  intros Hinv Hi Hstep Hne Hj Hr.
  pose proof (inv_ok _ _ Hinv i _ Hi) as Hok.
  pose proof (inv_ok _ _ Hinv j _ Hj) as Hspawn. cbn [thread_ok] in Hspawn.
  specialize (Hspawn Hr).
  assert (holds sig (Caller r CSpawn) = true) as Hc.
  { cbn [holds]. unfold signalpath. rewrite Hr. apply String.eqb_refl. }
  assert (forall a, t = Worker a WWrite -> a_pathname a = name -> False) as Hno.
  { intros a -> Hp. destruct Hok as [Hwf _].
    assert (holds sig (Worker a WWrite) = true) as Hh.
    { cbn [holds]. rewrite Hwf, Hp. apply String.eqb_refl. }
    by pose proof (one_holder c i j _ _ Hinv Hi Hj Hh Hc). }
  destruct Hstep; try done; rewrite ?isfile_insert, ?isfile_delete;
    try (case_decide as Hs; [|done]).
  - unfold signalpath in Hs. names.
  - done.
  - destruct Hok as [Hwf _]. by destruct (Hno a eq_refl Hs).
  - by destruct (Hno a eq_refl Hs).
  - done.
Qed.

Lemma tstep_ok c i t fs' t' sp :
  invariant name c ->
  threads c !! i = Some t ->
  tstep (threads c) (fs c) t fs' t' sp ->
  forall j x,
    (<[i := t']> (threads c) ++ option_list sp) !! j = Some x ->
    thread_ok name fs' (<[i := t']> (threads c) ++ option_list sp) x.
Proof.
  intros Hinv Hi Hstep j x Hj.
  pose proof (lookup_lt_Some _ _ _ Hi) as Hlt.
  destruct (lookup_step _ _ _ _ _ _ _ Hi Hj) as [[-> ->]|[[Hne Hold]|[-> ->]]].
  - pose proof (inv_ok _ _ Hinv i _ Hi) as Hok.
    pose proof (tstep_keeps_file c i t fs' t' sp Hinv Hi Hstep) as Hkeep.
    destruct Hstep; cbn [thread_ok] in *; try done;
      try (by destruct (r_wait r));
      try (pose proof (proj1 Hok) as Hwf; pose proof (proj2 Hok) as Hpast;
           split; [done|]; intros Hp Hw; auto; fail).
    + unfold pathname in *. by intros <-.
    + unfold pathname in *. by intros <-.
    + destruct (r_wait r); [|done]. eexists _, _. split.
      * rewrite lookup_app_r by (by rewrite length_insert).
        rewrite length_insert, Nat.sub_diag. reflexivity.
      * done.
    + destruct Hok as [Hwf _]. split; [done|]. intros Hp _.
      rewrite isfile_insert, Hp. by rewrite decide_True.
    + destruct Hok as [Hwf _]. split; [done|]. intros _ Hw. congruence.
  - pose proof (inv_ok _ _ Hinv j _ Hold) as Hok.
    destruct x as [r pc|a pc]; cbn [thread_ok] in *.
    + destruct pc; try done.
      * intros Hr. apply (tstep_keeps_file c i t fs' t' sp Hinv Hi Hstep (Hok Hr)).
      * intros Hr. apply (tstep_keeps_nothing c i t fs' t' sp j r Hinv Hi Hstep Hne Hold Hr).
      * destruct Hok as (a & pc' & Hw & Hp & Hf).
        destruct (tstep_keeps_worker c i t fs' t' sp _ _ _ Hi Hstep Hw) as [pc'' Hw'].
        by eexists _, _.
    + destruct Hok as [Hwf Hpast]. split; [done|]. intros Hp Hw.
      specialize (Hpast Hp Hw).
      destruct pc; try done;
        apply (tstep_keeps_file c i t fs' t' sp Hinv Hi Hstep Hpast).
  - inversion Hstep; subst. cbn [thread_ok a_signalname a_pathname]. by split.
Qed.

Lemma tstep_invariant c i t fs' t' sp :
  invariant name c ->
  threads c !! i = Some t ->
  tstep (threads c) (fs c) t fs' t' sp ->
  invariant name {| fs := fs'; threads := <[i := t']> (threads c) ++ option_list sp |}.
Proof.
  intros Hinv Hi Hstep. split; cbn [fs threads].
  - by eapply tstep_hold.
  - by eapply tstep_once.
  - by eapply tstep_ok.
Qed.

Lemma step_invariant c c' i o :
  invariant name c -> step i o c = Some c' -> invariant name c'.
Proof.
  intros Hinv (t & fs' & t' & sp & Hi & Hs & ->)%step_inv.
  eapply tstep_invariant; eauto using thread_step_tstep.
Qed.

Lemma run_invariant sched c c' :
  invariant name c -> run sched c = Some c' -> invariant name c'.
Proof.
  revert c. induction sched as [|[i o] sched IH]; intros c Hinv; simpl.
  - by intros [= <-].
  - destruct (step i o c) as [c1|] eqn:Es; simpl; [|done].
    apply IH. by eapply step_invariant.
Qed.

Lemma arrive_invariant fs0 rs : invariant name (arrive fs0 rs).
Proof.
  split; cbn [arrive fs threads].
  - rewrite count_zero; [lia|]. intros t (r & -> & _)%list_elem_of_fmap. done.
  - rewrite count_zero; [lia|]. intros t (r & -> & _)%list_elem_of_fmap. done.
  - intros j t Hj. apply list_lookup_fmap_Some in Hj as (r & -> & _). done.
Qed.

End Invariant.
Section Completion.
Variable r0 : request.
Local Abbreviation name := (filename r0).
Local Abbreviation sig := (signal_of (filename r0)).

Lemma tstep_same_file pool fs t fs' t' sp :
  tstep pool fs t fs' t' sp ->
  (on_file name t' <-> on_file name t) /\ writing t' = writing t
  /\ raised t = false
  /\ forall x, sp = Some x -> (on_file name x <-> on_file name t)
                              /\ writing x = writing t /\ started t = true.
Proof.
  intros Hstep. destruct Hstep; cbn [on_file writing raised started];
    split_and!; try done; try (by destruct (r_wait r)).
  intros x [= <-]. by cbn.
Qed.

Lemma tstep_failed c i t fs' t' sp :
  threads c !! i = Some t ->
  tstep (threads c) (fs c) t fs' t' sp ->
  failed name c ->
  failed name {| fs := fs'; threads := <[i := t']> (threads c) ++ option_list sp |}.
Proof.
  intros Hi Hstep (k & x & Hk & Hon & Hr).
  pose proof (lookup_lt_Some _ _ _ Hk) as Hlt.
  exists k, x. split_and!; try done. cbn [threads].
  rewrite lookup_app_l by (by rewrite length_insert).
  destruct (decide (i = k)) as [->|Hne].
  - rewrite Hk in Hi. injection Hi as <-.
    destruct (tstep_same_file _ _ _ _ _ _ Hstep) as (_ & _ & Hnr & _). congruence.
  - by rewrite list_lookup_insert_ne.
Qed.

Lemma tstep_keeps_signal c i t fs' t' sp :
  invariant name c -> completes name c ->
  threads c !! i = Some t ->
  tstep (threads c) (fs c) t fs' t' sp ->
  isfile sig (fs c) = true ->
  isfile sig fs' = true \/ isfile name fs' = true.
Proof.
  intros Hinv Hcmp Hi Hstep Hs.
  pose proof (inv_ok _ _ Hinv i _ Hi) as Hok.
  pose proof (cmp_format _ _ Hcmp i _ Hi) as Hfmt.
  destruct Hstep; cbn [thread_ok on_file writing] in *;
    rewrite ?isfile_insert, ?isfile_delete; try (by left); try (left; by case_decide).
  - case_decide as Hd; [|by left]. right. case_decide; [done|].
    apply Hok. unfold signalpath in Hd. by apply signal_of_inj in Hd.
  - destruct Hok as [Hwf Hpast]. rewrite Hwf.
    case_decide as Hd; [|by left]. apply signal_of_inj in Hd. right.
    case_decide; [done|]. by apply Hpast; [|apply Hfmt].
Qed.

Lemma tstep_completes c i t fs' t' sp :
  invariant name c -> completes name c ->
  threads c !! i = Some t ->
  tstep (threads c) (fs c) t fs' t' sp ->
  completes name {| fs := fs'; threads := <[i := t']> (threads c) ++ option_list sp |}.
Proof.
  intros Hinv Hcmp Hi Hstep.
  pose proof (tstep_same_file _ _ _ _ _ _ Hstep) as (Hon & Hwr & Hnr & Hsp).
  pose proof (tstep_failed c i t fs' t' sp Hi Hstep) as Hfail.
  pose proof (tstep_keeps_file r0 c i t fs' t' sp Hinv Hi Hstep) as Hfile.
  pose proof (tstep_keeps_signal c i t fs' t' sp Hinv Hcmp Hi Hstep) as Hsig.
  assert (isfile sig (fs c) = true \/ isfile name (fs c) = true \/ failed name c ->
          isfile sig fs' = true \/ isfile name fs' = true
          \/ failed name {| fs := fs';
                            threads := <[i := t']> (threads c) ++ option_list sp |})
    as Hkeep.
  { intros [Hs|[Hf|Hx]]; [|by auto|by auto]. destruct (Hsig Hs); auto. }
  split; cbn [fs threads].
  - intros j x Hj Hx.
    destruct (lookup_step _ _ _ _ _ _ _ Hi Hj) as [[-> ->]|[[Hne Hold]|[-> Hs]]].
    + rewrite Hwr. apply (cmp_format _ _ Hcmp i t Hi). by apply Hon.
    + by apply (cmp_format _ _ Hcmp j x Hold).
    + destruct (Hsp x Hs) as (Hon' & -> & _).
      apply (cmp_format _ _ Hcmp i t Hi). by apply Hon'.
  - intros (j & x & Hj & Hx & Hst).
    destruct (lookup_step _ _ _ _ _ _ _ Hi Hj) as [[-> ->]|[[Hne Hold]|[-> Hs]]].
    + apply Hon in Hx. destruct (started t) eqn:Et.
      * apply Hkeep, (cmp_started _ _ Hcmp). by exists i, t.
      * destruct t as [r [] | a pc]; try done. cbn [on_file] in Hx.
        inversion Hstep; subst.
        -- left. rewrite isfile_insert. unfold signalpath. rewrite Hx.
           by rewrite decide_True.
        -- left. unfold signalpath in *. by rewrite <- Hx.
    + apply Hkeep, (cmp_started _ _ Hcmp). by exists j, x.
    + destruct (Hsp x Hs) as (Hon' & _ & Hst').
      apply Hkeep, (cmp_started _ _ Hcmp). exists i, t. split_and!; try done.
      by apply Hon'.
  - intros j r x Hj Hr Hw.
    assert (isfile name (fs c) = true \/ failed name c ->
            isfile name fs' = true
            \/ failed name {| fs := fs';
                              threads := <[i := t']> (threads c) ++ option_list sp |})
      as Hkeep'.
    { intros [?|?]; auto. }
    destruct (lookup_step _ _ _ _ _ _ _ Hi Hj) as [[-> <-]|[[Hne Hold]|[-> Hs]]].
    + pose proof (inv_ok _ _ Hinv i _ Hi) as Hok.
      inversion Hstep; subst; cbn [thread_ok] in Hok;
        try (match goal with H : context [r_wait r] |- _ => rewrite Hw in H end; done).
      * left. apply Hfile. by apply Hok.
      * destruct Hok as (a & pc' & Hw' & Hp & Hf).
        match goal with H : threads c !! _ = Some _, H' : terminated _ = true |- _ =>
          rewrite Hw' in H; injection H as <-; rename H' into Hterm end.
        pose proof (inv_ok _ _ Hinv _ _ Hw') as [_ Hpast].
        pose proof (cmp_format _ _ Hcmp _ _ Hw') as Hfm. cbn [on_file writing] in Hfm.
        rewrite Hp in *. specialize (Hfm Hr). specialize (Hpast Hr Hfm).
        destruct pc'; try done.
        -- by left.
        -- right. apply Hfail. eexists _, _. split_and!; [done|cbn; congruence|done].
        -- right. apply Hfail. eexists _, _. split_and!; [done|cbn; congruence|done].
      * apply Hkeep'.
        destruct (cmp_started _ _ Hcmp) as [Hs|[?|?]]; auto.
        { exists i, (Caller r CPoll). by split_and!. }
        unfold signalpath in *. rewrite Hr in *. congruence.
    + apply Hkeep'. by eapply (cmp_done _ _ Hcmp).
    + destruct (Hsp _ Hs) as (_ & _ & _). inversion Hstep; subst; done.
Qed.

Lemma run_completes sched c c' :
  invariant name c -> completes name c -> run sched c = Some c' ->
  completes name c'.
Proof.
  revert c. induction sched as [|[i o] sched IH]; intros c Hinv Hcmp; simpl.
  - by intros [= <-].
  - destruct (step i o c) as [c1|] eqn:Es; simpl; [|done].
    pose proof (step_invariant r0 _ _ _ _ Hinv Es) as Hinv1.
    apply step_inv in Es as (t & fs' & t' & sp & Hi & Hs & ->).
    apply IH; [done|]. eapply tstep_completes; eauto using thread_step_tstep.
Qed.

Lemma arrive_completes fs0 rs :
  (forall r, r ∈ rs -> filename r = name -> writes (r_format r) = true) ->
  completes name (arrive fs0 rs).
Proof.
  intros Hfmt. split; cbn [arrive fs threads].
  - intros j t Hj Hon. apply list_lookup_fmap_Some in Hj as (r & -> & Hr).
    apply Hfmt; [|done]. by eapply list_elem_of_lookup_2.
  - intros (j & t & Hj & _ & Hst).
    apply list_lookup_fmap_Some in Hj as (r & -> & _). done.
  - intros j r x Hj. apply list_lookup_fmap_Some in Hj as (r' & [=] & _).
Qed.

End Completion.

(** *** The claims about the protocol *)

Lemma creation_is_writer r t :
  writes (r_format r) = true -> creation_of r t = true -> writer (filename r) t = true.
Proof.
  destruct t as [r' pc|a pc]; [done|]. cbn [creation_of writer].
  intros Hw (Hs & Hf & Hp & _)%bool_decide_eq_true.
  rewrite Hp, Hf, Hw. unfold pathname. by rewrite String.eqb_refl.
Qed.

(** C1 (as amended): for a request whose format has a writer,
    [create_data_file] is started at most once, whatever the requests, the
    schedule and the outcomes of sampling and writing; every caller that
    returns returns the name of its file; and when every request for the
    file names a format that has a writer, a caller that waited and
    returned finds the file, unless a thread working on it ended with an
    exception. *)
Theorem at_most_once fs0 rs sched c r :
  run sched (arrive fs0 rs) = Some c ->
  writes (r_format r) = true ->
  (creations_of r c <= 1)%nat
  /\ (forall j r' x, threads c !! j = Some (Caller r' (CReturned x)) ->
                     x = filename r')
  /\ ((forall r', r' ∈ rs -> filename r' = filename r ->
                  writes (r_format r') = true) ->
      forall j r' x,
        threads c !! j = Some (Caller r' (CReturned x)) ->
        filename r' = filename r -> r_wait r' = true ->
        isfile (filename r) (fs c) = true \/ failed (filename r) c).
Proof.
  intros Hrun Hw.
  pose proof (run_invariant r _ _ _ (arrive_invariant r fs0 rs) Hrun) as Hinv.
  split_and!.
  - unfold creations_of. etrans; [|apply (inv_once _ _ Hinv)].
    apply count_le. intros t _. by apply creation_is_writer.
  - intros j r' x Hj. apply (inv_ok _ _ Hinv j _ Hj).
  - intros Hfmt j r' x Hj Hr Hwait.
    pose proof (run_completes r _ _ _ (arrive_invariant r fs0 rs)
                  (arrive_completes r fs0 rs Hfmt) Hrun) as Hcmp.
    by eapply (cmp_done _ _ Hcmp).
Qed.

Lemma at_most_once_witness :
  let r := two_groups "csv" true in
  exists c,
    run two_callers (arrive ∅ [r; r]) = Some c
    /\ (creations_of r c <= 1)%nat
    /\ (forall j r' x, threads c !! j = Some (Caller r' (CReturned x)) ->
                       x = filename r')
    /\ ((forall r', r' ∈ [r; r] -> filename r' = filename r ->
                    writes (r_format r') = true) ->
        forall j r' x,
          threads c !! j = Some (Caller r' (CReturned x)) ->
          filename r' = filename r -> r_wait r' = true ->
          isfile (filename r) (fs c) = true \/ failed (filename r) c).
Proof.
  intros r. eexists. split; [vm_compute; reflexivity|].
  apply (at_most_once ∅ [r; r] two_callers); [vm_compute; reflexivity|reflexivity].
Defined.

(** C1 as stated fails: with the format 'dummy', which [collect_sample]
    passes when no format is given, no file is written, and a second
    request for the same key starts [create_data_file] again. *)
Lemma dummy_is_created_twice :
  ~ (forall fs0 rs sched c r,
       run sched (arrive fs0 rs) = Some c -> (creations_of r c <= 1)%nat).
Proof.
  intros Hclaim.
  pose (r := two_groups "dummy" false).
  pose (sched := [(0, returns); (0, returns); (0, returns);
                  (2, returns); (2, returns); (2, returns);
                  (1, returns); (1, returns); (1, returns)]%nat).
  destruct (run sched (arrive ∅ [r; r])) as [c|] eqn:Hrun; [|by vm_compute in Hrun].
  specialize (Hclaim _ _ _ _ r Hrun).
  vm_compute in Hrun. injection Hrun as <-. vm_compute in Hclaim. lia.
Qed.


(** *** A file that is there *)

Lemma tstep_present name c i t fs' t' sp :
  (forall j a pc, threads c !! j = Some (Worker a pc) ->
                  a_signalname a = signal_of (a_pathname a)) ->
  (exists r, name = filename r) ->
  present name c ->
  threads c !! i = Some t ->
  tstep (threads c) (fs c) t fs' t' sp ->
  present name {| fs := fs'; threads := <[i := t']> (threads c) ++ option_list sp |}.
Proof.
  intros Hwf [r0 ->] [Hf Hth] Hi Hstep. pose proof (Hth i t Hi) as Hti.
  split; cbn [fs threads].
  - destruct Hstep; try done; rewrite ?isfile_insert, ?isfile_delete;
      try (by case_decide).
    rewrite (Hwf _ _ _ Hi). case_decide as Hd; [|done]. names.
  - intros j x Hj.
    destruct (lookup_step _ _ _ _ _ _ _ Hi Hj) as [[-> ->]|[[Hne Hold]|[-> Hs]]].
    + destruct Hstep; try done; try (by destruct (r_wait r)).
      unfold pathname in *. intros Hr. congruence.
    + by apply (Hth j x).
    + destruct Hstep; try done. injection Hs as <-. cbn. by apply Hti.
Qed.

Lemma run_present r fs0 rs sched c :
  isfile (filename r) fs0 = true ->
  run sched (arrive fs0 rs) = Some c ->
  present (filename r) c.
Proof.
  intros Hf.
  assert (present (filename r) (arrive fs0 rs)) as Hp.
  { split; [done|]. intros j t Hj.
    apply list_lookup_fmap_Some in Hj as (r' & -> & _). done. }
  pose proof (arrive_invariant r fs0 rs) as Hinv.
  revert Hp Hinv. generalize (arrive fs0 rs) as c0. clear Hf. revert c.
  induction sched as [|[i o] sched IH]; intros c c0 Hp Hinv; simpl.
  - by intros [= <-].
  - destruct (step i o c0) as [c1|] eqn:Es; simpl; [|done].
    pose proof (step_invariant r _ _ _ _ Hinv Es) as Hinv1.
    apply step_inv in Es as (t & fs' & t' & sp & Hi & Hs & ->).
    apply IH; [|done]. eapply tstep_present; eauto using thread_step_tstep.
    intros j a pc Hj. apply (inv_ok _ _ Hinv j _ Hj).
Qed.

(** C7: when the file of a request is there and its sentinel is not, a
    call of [get_data_file] creates the sentinel, sees the file, removes
    the sentinel and returns the file name, leaving the directory as it
    was; and however many requests arrive, no thread ever runs
    [create_data_file] on the file. *)
Theorem present_is_returned_at_once fs0 r :
  isfile (pathname r) fs0 = true ->
  isfile (signalpath r) fs0 = false ->
  (forall o,
      step 0 o (arrive fs0 [r])
      = Some {| fs := <[signalpath r := EmptyFile]> fs0;
                threads := [Caller r CCheck] |}
      /\ step 0 o {| fs := <[signalpath r := EmptyFile]> fs0;
                     threads := [Caller r CCheck] |}
         = Some {| fs := <[signalpath r := EmptyFile]> fs0;
                   threads := [Caller r CUnlink] |}
      /\ step 0 o {| fs := <[signalpath r := EmptyFile]> fs0;
                     threads := [Caller r CUnlink] |}
         = Some {| fs := fs0; threads := [Caller r (CReturned (filename r))] |})
  /\ (forall rs sched c,
        run sched (arrive fs0 rs) = Some c ->
        isfile (pathname r) (fs c) = true
        /\ creations_of r c = 0%nat
        /\ forall j a pc, threads c !! j = Some (Worker a pc) ->
                          a_pathname a <> pathname r).
Proof.
  intros Hf Hs. unfold isfile in Hf, Hs.
  destruct (fs0 !! pathname r) as [x|] eqn:Ef; [clear Hf|done].
  destruct (fs0 !! signalpath r) eqn:Esig; [done|clear Hs].
  assert (pathname r <> signalpath r) as Hne.
  { unfold pathname, signalpath. intros Heq. names. }
  split.
  - intros o. split_and!.
    + unfold step. cbn. unfold open_x. by rewrite Esig.
    + unfold step. cbn. unfold isfile. by rewrite lookup_insert_ne, Ef.
    + unfold step. cbn. unfold unlink. rewrite lookup_insert_eq. cbn.
      by rewrite delete_insert_id.
  - intros rs sched c Hrun.
    assert (isfile (filename r) fs0 = true) as Hf.
    { unfold isfile. unfold pathname in Ef. by rewrite Ef. }
    destruct (run_present r fs0 rs sched c Hf Hrun) as [Hfile Hth].
    split_and!; [done| |].
    + apply count_zero. intros t Ht. apply list_elem_of_lookup in Ht as [j Hj].
      specialize (Hth j t Hj). destruct t as [r' pc|a pc]; [done|].
      cbn [creation_of]. apply bool_decide_eq_false. intros (_ & _ & Hp & _). done.
    + intros j a pc Hj. apply (Hth j _ Hj).
Qed.

Lemma present_is_returned_at_once_witness :
  let r := two_groups "csv" true in
  let fs0 : dir := {[ "tykhe_twosample_null_4_42.csv" := CsvFile [] ]} in
  (forall o,
      step 0 o (arrive fs0 [r])
      = Some {| fs := <[signalpath r := EmptyFile]> fs0;
                threads := [Caller r CCheck] |}
      /\ step 0 o {| fs := <[signalpath r := EmptyFile]> fs0;
                     threads := [Caller r CCheck] |}
         = Some {| fs := <[signalpath r := EmptyFile]> fs0;
                   threads := [Caller r CUnlink] |}
      /\ step 0 o {| fs := <[signalpath r := EmptyFile]> fs0;
                     threads := [Caller r CUnlink] |}
         = Some {| fs := fs0; threads := [Caller r (CReturned (filename r))] |})
  /\ (forall rs sched c,
        run sched (arrive fs0 rs) = Some c ->
        isfile (pathname r) (fs c) = true
        /\ creations_of r c = 0%nat
        /\ forall j a pc, threads c !! j = Some (Worker a pc) ->
                          a_pathname a <> pathname r).
Proof.
  intros r fs0. apply (present_is_returned_at_once fs0 r); vm_compute; reflexivity.
Defined.

(** *** A study that is not declared *)






End CacheFacts.

(** ** One process: the memoised samples *)

Module ProcessFacts.
Import Frame Cache Sampling.

Section Memo.
Context `{Numpy}.
Variable simon_mu : list float.
Variable simon_Sigma : list (list float).
Variables (study : string) (size sid : Z).
Local Abbreviation key := (string * Z * Z)%type.

Local Abbreviation k := (study, size, sid).
Local Abbreviation pipeline := (sample_of simon_mu simon_Sigma study size sid).
Local Abbreviation memo_ok := (Sampling.memo_ok simon_mu simon_Sigma study size sid).
Local Abbreviation holds_entry :=
  (Sampling.holds_entry simon_mu simon_Sigma study size sid).

Lemma memo_find_Some (k' : key) m loc : memo_find k' m = Some loc -> (k', loc) ∈ m.
Proof.
  induction m as [|[k1 l1] m IH]; simpl; [done|].
  destruct (decide (k1 = k')) as [->|Hne].
  - intros [= ->]. left.
  - intros Hf. right. auto.
Qed.

Lemma memo_find_None (k' : key) m loc : memo_find k' m = None -> (k', loc) ∉ m.
Proof.
  induction m as [|[k1 l1] m IH]; simpl; [intros _; apply not_elem_of_nil|].
  destruct (decide (k1 = k')) as [->|Hne]; [done|].
  intros Hf [[= <- <-]|Hin]%elem_of_cons; [done|]. by apply IH.
Qed.

Lemma memo_drop_elem (k' : key) m e : e ∈ memo_drop k' m -> e ∈ m.
Proof.
  unfold memo_drop. rewrite !list_elem_of_In. intros Hin.
  by apply filter_In in Hin as [? _].
Qed.


Lemma start_ok fs0 : memo_ok (start fs0).
Proof. split; simpl; intros; exfalso; eapply not_elem_of_nil; eauto. Qed.

(** A call of [get_study_sample] for any key keeps the table in order
    and, when it returns, its key heads the table. *)
Lemma get_study_sample_ok study' size' sid' w :
  memo_ok w ->
  let r := get_study_sample simon_mu simon_Sigma study' size' sid' w in
  memo_ok r.1
  /\ files r.1 = files w
  /\ forall loc, r.2 = Ok loc -> ((study', size', sid'), loc) ∈ memo r.1.
Proof.
  intros [Hb Hi Hv]. unfold get_study_sample.
  destruct (memo_find _ (memo w)) as [loc|] eqn:Ef; cbn [fst snd heap memo files].
  - apply memo_find_Some in Ef.
    assert (forall e, e ∈ (study', size', sid', loc) :: memo_drop (study', size', sid') (memo w)
                      -> e ∈ memo w) as Hsub.
    { intros e [->|Hin]%elem_of_cons; [done|]. by eapply memo_drop_elem. }
    split_and!; [split; cbn [fst snd heap memo files]| |].
    + intros k' l Hin. by apply (Hb k'), Hsub.
    + intros k1 k2 l H1 H2. apply (Hi k1 k2 l); by apply Hsub.
    + intros l Hin. by apply Hv, Hsub.
    + done.
    + intros l [= <-]. left.
  - destruct (sample_of simon_mu simon_Sigma study' size' sid') as [df|e] eqn:Es;
      cbn [fst snd heap memo files].
    + assert (forall e, e ∈ take maxsize ((study', size', sid', length (heap w)) :: memo w)
                        -> e = (study', size', sid', length (heap w)) \/ e ∈ memo w) as Hsub.
      { intros e Hin. apply list_elem_of_lookup in Hin as [i Hin].
        apply lookup_take_Some in Hin as [Hin _].
        destruct i; [left; by injection Hin|right].
        cbn in Hin. by apply list_elem_of_lookup_2 in Hin. }
      split_and!; [split; cbn [fst snd heap memo files]| |].
      * intros k' l [[= -> ->]|Hin]%Hsub; rewrite length_app; cbn [length]; [lia|].
        specialize (Hb _ _ Hin). lia.
      * intros k1 k2 l [[= -> ->]|H1]%Hsub [[= ->]|H2]%Hsub; try done.
        -- specialize (Hb _ _ H2). lia.
        -- subst l. specialize (Hb _ _ H1). lia.
        -- by apply (Hi k1 k2 l).
      * intros l [[= -> -> -> ->]|Hin]%Hsub.
        -- exists df. split; [|done].
           rewrite lookup_app_r by lia. by rewrite Nat.sub_diag.
        -- destruct (Hv _ Hin) as (d & Hd & Hp). exists d. split; [|done].
           by apply lookup_app_l_Some.
      * done.
      * intros l [= <-]. left.
    + split_and!; [done|done|done].
Qed.

(** A property of the process kept by both parts of a sequence is kept
    by the sequence. *)
Lemma bind_keeps {A B} (P : world -> Prop) (m : M A) (f : A -> M B) w :
  P w -> (forall w, P w -> P (m w).1) -> (forall a w, P w -> P (f a w).1) ->
  P (bind m f w).1.
Proof.
  intros Hw Hm Hf. unfold bind. specialize (Hm w Hw).
  destruct (m w) as [w' [a|e]]; cbn in *; [by apply Hf|done].
Qed.

Lemma when_keeps (P : world -> Prop) b (m : M unit) w :
  P w -> (b = true -> forall w, P w -> P (m w).1) -> P (when b m w).1.
Proof. intros Hw Hm. destruct b; cbn; [by apply Hm|done]. Qed.

(** A writer that is handed the object of another key, or that leaves
    its frame as it was, keeps the table in order. *)
Lemma write_ok writer loc p k' w :
  (k' = k -> forall df, (writer df).1 = df) ->
  holds_entry k' loc w -> holds_entry k' loc (write writer loc p w).1.
Proof.
  intros Hkeep [[Hb Hi Hv] Hin]. unfold write.
  destruct (heap w !! loc) as [df|] eqn:El; [|done].
  assert (k' = k -> (writer df).1 = df) as Hdf by (intros Hk; by apply Hkeep).
  destruct (writer df) as [df' r]. cbn [fst] in Hdf.
  assert (forall l, (k, l) ∈ memo w ->
            exists d, <[loc := df']> (heap w) !! l = Some d /\ pipeline = Ok d) as Hv'.
  { intros l Hl. destruct (Hv l Hl) as (d & Hd & Hp). exists d. split; [|done].
    destruct (decide (l = loc)) as [->|Hne].
    - rewrite (Hdf (Hi _ _ _ Hin Hl)). by rewrite list_insert_id.
    - by rewrite list_lookup_insert_ne. }
  destruct r as [f|e]; (split; [split|]; cbn [fst heap memo files];
    [intros ? ? ?; rewrite length_insert; by eapply Hb|done|done|done]).
Qed.

Lemma unlink_file_ok p k' loc w :
  holds_entry k' loc w -> holds_entry k' loc (unlink_file p w).1.
Proof.
  intros [[Hb Hi Hv] Hin]. unfold unlink_file.
  destruct (unlink p (files w)); [|done]. by split; [split|].
Qed.

Lemma edits_false format :
  edits format = false ->
  String.eqb format "csv" = false /\ String.eqb format "xlsx" = false
  /\ String.eqb format "sav" = false.
Proof. unfold edits. by intros [[? ?]%orb_false_elim ?]%orb_false_elim. Qed.

(** A call that is not an edit of the frame of [k] keeps the table in
    order. *)
Lemma serve_ok c w :
  editing k c = false -> memo_ok w -> memo_ok (serve simon_mu simon_Sigma w c).
Proof.
  intros Hq Hw. destruct c as [study' size' sid'|study' size' format sid' p s]; cbn [serve].
  - by apply get_study_sample_ok.
  - unfold create_data_file, bind at 1.
    destruct (get_study_sample_ok study' size' sid' w Hw) as (Hw1 & _ & Hloc).
    destruct (get_study_sample _ _ _ _ _ w) as [w1 [loc|e]]; cbn [fst snd] in *; [|done].
    specialize (Hloc loc eq_refl).
    assert ((study', size', sid') = k -> edits format = false) as Hfmt.
    { intros Hk. cbn [editing] in Hq. by rewrite bool_decide_eq_true_2 in Hq. }
    cut (holds_entry (study', size', sid') loc
           (bind (when (String.eqb format "csv") (write (total df_to_csv) loc p)) (fun _ =>
            bind (when (String.eqb format "xlsx") (write (total df_to_xlsx) loc p)) (fun _ =>
            bind (when (String.eqb format "dta") (write to_stata loc p)) (fun _ =>
            bind (when (String.eqb format "sav") (write df_to_sav loc p)) (fun _ =>
            unlink_file s)))) w1).1); [by intros [? _]|].
    apply bind_keeps; [done| |intros _].
    { intros w' Hw'. apply when_keeps; [done|intros Hf w''].
      apply write_ok. intros Hk. apply Hfmt, edits_false in Hk as (? & ? & ?). congruence. }
    intros w' Hw'. apply bind_keeps; [done| |intros _]; clear w' Hw'.
    { intros w' Hw'. apply when_keeps; [done|intros Hf w''].
      apply write_ok. intros Hk. apply Hfmt, edits_false in Hk as (? & ? & ?). congruence. }
    intros w' Hw'. apply bind_keeps; [done| |intros _]; clear w' Hw'.
    { intros w' Hw'. apply when_keeps; [done|intros Hf w''].
      apply write_ok. intros _ df. apply FrameFacts.to_stata_keeps. }
    intros w' Hw'. apply bind_keeps; [done| |intros _]; clear w' Hw'.
    { intros w' Hw'. apply when_keeps; [done|intros Hf w''].
      apply write_ok. intros Hk. apply Hfmt, edits_false in Hk as (? & ? & ?). congruence. }
    apply unlink_file_ok.
Qed.

Lemma after_ok fs0 h : quiet k h = true -> memo_ok (after simon_mu simon_Sigma fs0 h).
Proof.
  unfold after. generalize (start_ok fs0). generalize (start fs0) as w.
  induction h as [|c h IH]; intros w Hw; cbn [foldl quiet forallb]; [done|].
  intros [Hc Hh]%andb_prop. apply IH; [|done].
  apply serve_ok; [|done]. by apply negb_true_iff.
Qed.

(** A call that runs the body hands out the sample of its key, in any
    process. *)
Lemma miss_sampled w :
  misses k w -> sampled simon_mu simon_Sigma study size sid w = pipeline.
Proof.
  unfold misses, sampled, get_study_sample. intros ->.
  destruct pipeline as [df|e]; [|done]. cbn [heap].
  rewrite lookup_app_r by lia. by rewrite Nat.sub_diag.
Qed.

(** With the table in order, so does a call answered from the table. *)
Lemma memo_ok_sampled w :
  memo_ok w -> sampled simon_mu simon_Sigma study size sid w = pipeline.
Proof.
  intros Hw. destruct (memo_find k (memo w)) as [loc|] eqn:Ef; [|by apply miss_sampled].
  unfold sampled, get_study_sample. rewrite Ef. cbn [heap].
  apply memo_find_Some in Ef. destruct (mo_val _ _ _ _ _ _ Hw _ Ef) as (df & -> & ->). done.
Qed.

(** Where the key does determine the frame: a call of [get_study_sample]
    that runs the body (the key is not in the table), and a call answered
    from the table of a process in which no writer was handed the frame
    of that key to edit, hand out the sample of the key.  Two such calls,
    in two processes with their own histories, hand out equal frames. *)
Theorem sample_determined_by_key fs1 fs2 h1 h2 :
  let w1 := after simon_mu simon_Sigma fs1 h1 in
  let w2 := after simon_mu simon_Sigma fs2 h2 in
  misses k w1 \/ quiet k h1 = true ->
  misses k w2 \/ quiet k h2 = true ->
  sampled simon_mu simon_Sigma study size sid w1
  = sampled simon_mu simon_Sigma study size sid w2
  /\ sampled simon_mu simon_Sigma study size sid w1 = pipeline.
Proof.
  intros w1 w2 H1 H2.
  assert (sampled simon_mu simon_Sigma study size sid w1 = pipeline) as E1.
  { destruct H1 as [Hm|Hq]; [by apply miss_sampled|]. by apply memo_ok_sampled, after_ok. }
  assert (sampled simon_mu simon_Sigma study size sid w2 = pipeline) as E2.
  { destruct H2 as [Hm|Hq]; [by apply miss_sampled|]. by apply memo_ok_sampled, after_ok. }
  split; [congruence|done].
Qed.

(** The call [create_data_file(..., 'csv', ...)] leaves, in the table, the
    frame as [df_to_csv] edited it: the next call for the key is handed
    that frame. *)
Lemma csv_creation_edits_sample w p s df :
  sampled simon_mu simon_Sigma study size sid w = Ok df ->
  sampled simon_mu simon_Sigma study size sid
    (serve simon_mu simon_Sigma w (CreateDataFile study size "csv" sid p s))
  = Ok (df_to_csv df).1.
Proof.
  unfold sampled. cbn [serve]. unfold create_data_file, bind at 1.
  assert (forall w1 loc,
            get_study_sample simon_mu simon_Sigma study size sid w = (w1, Ok loc) ->
            memo_find k (memo w1) = Some loc) as Hhead.
  { intros w1 loc. unfold get_study_sample.
    destruct (memo_find k (memo w)) as [l|] eqn:Ef.
    - intros [= <- <-]. cbn. by rewrite decide_True.
    - destruct pipeline; [|done]. intros [= <- <-]. cbn. by rewrite decide_True. }
  destruct (get_study_sample _ _ _ _ _ w) as [w1 [loc|e]] eqn:Eg; [|done].
  specialize (Hhead _ _ eq_refl).
  destruct (heap w1 !! loc) as [d|] eqn:El; [intros [= ->]|done].
  cbn. unfold bind at 1, write, total. rewrite El.
  destruct (df_to_csv df) as [df' f] eqn:Ew. cbn.
  unfold unlink_file. cbn [files].
  assert (<[loc := df']> (heap w1) !! loc = Some df') as Hl.
  { apply list_lookup_insert_eq. by eapply lookup_lt_Some. }
  destruct (unlink s _); unfold get_study_sample; cbn [memo heap fst]; rewrite Hhead;
    cbn [heap]; rewrite Hl; unfold df_to_csv in Ew; by injection Ew as <- _.
Qed.


End Memo.

Lemma sample_determined_by_key_witness :
  let h1 := [CreateDataFile "twosample_null" 4 "csv" 42 "a.csv" "creating-a.csv";
             GetStudySample "levels" 3 7;
             CreateDataFile "levels" 3 "dta" 7 "b.dta" "creating-b.dta"] in
  let w1 := after (H := Toy.numpy) [] [] ∅ h1 in
  let w2 := after (H := Toy.numpy) [] [] sentinels [] in
  sampled (H := Toy.numpy) [] [] "levels" 3 7 w1
  = sampled (H := Toy.numpy) [] [] "levels" 3 7 w2
  /\ sampled (H := Toy.numpy) [] [] "levels" 3 7 w1
     = sample_of (H := Toy.numpy) [] [] "levels" 3 7.
Proof.
  intros h1 w1 w2.
  apply (sample_determined_by_key (H := Toy.numpy) [] [] "levels" 3 7 ∅ sentinels h1 []);
    [right; vm_compute; reflexivity|left; vm_compute; reflexivity].
Defined.

(** The writers replace an ordered categorical column of the frame they
    are given by its codes. *)
Lemma codes_in_place (df : DataFrame) n labels values :
  getitem df n = Some (CatCol labels true values) ->
  getitem (df_to_csv df).1 n = Some (IntCol values)
  /\ getitem (df_to_xlsx df).1 n = Some (IntCol values)
  /\ (df_to_csv df).1 <> df /\ (df_to_xlsx df).1 <> df.
Proof.
  intros Hg.
  assert (getitem (foldl codes_step df (columns df)) n = Some (IntCol values)) as Hc.
  { destruct (FrameFacts.codes_loop_spec (columns df) df) as (Hl & _).
    rewrite Hl, Hg. rewrite decide_True; [done|].
    apply FrameFacts.getitem_Some_elem in Hg. unfold columns.
    apply list_elem_of_fmap. by exists (n, CatCol labels true values). }
  cbn [df_to_csv df_to_xlsx fst]. split_and!; try done;
    intros Heq; rewrite Heq in Hc; congruence.
Qed.

(** C3 fails on the code.  For the levels study with 3 observations and
    seed 7: each of [df_to_csv], [df_to_xlsx] and [df_to_sav] returns
    with the frame edited; after the csv file was written,
    [get_study_sample] hands out the frame with 'happiness' as integers;
    and the SPSS file written next records 'happiness' as a scale
    variable without labels, where the SPSS file written alone records it
    as ordinal with its labels. *)
Theorem writers_edit_the_memoised_frame :
  let sample := sample_of (H := Toy.numpy) [] [] "levels" 3 7 in
  let alone := after (H := Toy.numpy) [] [] sentinels [levels_file "sav"] in
  let csv := after (H := Toy.numpy) [] [] sentinels [levels_file "csv"] in
  let both := after (H := Toy.numpy) [] [] sentinels [levels_file "csv"; levels_file "sav"] in
  (exists df,
      sample = Ok df
      /\ getitem df "happiness"
         = Some (CatCol ["very unhappy"; "unhappy"; "neutral"; "happy"; "very happy"]
                   true [3; 1; 2])
      /\ (df_to_csv df).1 <> df /\ (df_to_xlsx df).1 <> df /\ (df_to_sav df).1 <> df)
  /\ sampled (H := Toy.numpy) [] [] "levels" 3 7 csv <> sample
  /\ (df ← sampled (H := Toy.numpy) [] [] "levels" 3 7 csv;
      Ok (getitem df "happiness")) = Ok (Some (IntCol [3; 1; 2]))
  /\ sav_entries alone "tykhe_levels_3_7.sav" "happiness"
     = Some (Some 0, Some {[ 1 := "unhappy"; 2 := "neutral"; 3 := "happy" ]},
             Some "ordinal", Some "F1.0")
  /\ sav_entries both "tykhe_levels_3_7.sav" "happiness"
     = Some (Some 0, None, Some "scale", None).
Proof.
  split_and!.
  - eexists. split; [vm_compute; reflexivity|].
    split_and!; [reflexivity|vm_compute; congruence..].
  - vm_compute. congruence.
  - vm_compute. reflexivity.
  - vm_compute. reflexivity.
  - vm_compute. reflexivity.
Qed.

(** C2 fails on the code, where the writers edit the memoised frame.
    For the levels study with 3 observations and seed 7, the key does
    not determine what a call of [get_study_sample] hands out: a process
    that has served nothing hands out the sample of the key, with
    'happiness' as an ordered categorical column, and a process that has
    written the csv file of the key hands out another frame, with
    'happiness' as integers.  The Stata file of the key differs in the
    same way between a process that writes it first and one that wrote
    the csv file before. *)
Theorem same_key_different_frames :
  let fresh := after (H := Toy.numpy) [] [] sentinels [] in
  let used := after (H := Toy.numpy) [] [] sentinels [levels_file "csv"] in
  let dta := after (H := Toy.numpy) [] [] sentinels [levels_file "dta"] in
  let csv_dta :=
    after (H := Toy.numpy) [] [] sentinels [levels_file "csv"; levels_file "dta"] in
  exists df,
    sample_of (H := Toy.numpy) [] [] "levels" 3 7 = Ok df
    /\ sampled (H := Toy.numpy) [] [] "levels" 3 7 fresh = Ok df
    /\ sampled (H := Toy.numpy) [] [] "levels" 3 7 used = Ok (df_to_csv df).1
    /\ (df_to_csv df).1 <> df
    /\ getitem df "happiness"
       = Some (CatCol ["very unhappy"; "unhappy"; "neutral"; "happy"; "very happy"]
                 true [3; 1; 2])
    /\ getitem (df_to_csv df).1 "happiness" = Some (IntCol [3; 1; 2])
    /\ files dta !! "tykhe_levels_3_7.dta" = Some (StataFile df)
    /\ files csv_dta !! "tykhe_levels_3_7.dta" = Some (StataFile (df_to_csv df).1).
Proof.
  eexists. split; [vm_compute; reflexivity|].
  split_and!; [vm_compute; reflexivity..|vm_compute; congruence| | | |];
    vm_compute; reflexivity.
Qed.

End ProcessFacts.

(** ** The sentinel protocol, continued *)

Module ProtocolFacts.
Import Frame Cache CacheFacts.

#[local] Arguments signal_of : simpl never.
#[local] Arguments filename : simpl never.

Section WriteOnce.
Variable r0 : request.
Local Abbreviation name := (filename r0).

Lemma about_to_write_writer t : about_to_write name t = true -> writer name t = true.
Proof. destruct t as [|a []]; simpl; done. Qed.

Lemma tstep_unwritten c i t fs' t' sp :
  invariant name c -> unwritten name c ->
  threads c !! i = Some t ->
  tstep (threads c) (fs c) t fs' t' sp ->
  unwritten name {| fs := fs'; threads := <[i := t']> (threads c) ++ option_list sp |}.
Proof.
  intros Hinv Hun Hi Hstep j x Hj Hx. cbn [fs threads] in *.
  pose proof (inv_ok _ _ Hinv i _ Hi) as Hok.
  assert (forall y, about_to_write name y = true ->
            (exists k, k <> i /\ threads c !! k = Some y) \/ y = t ->
            isfile name (fs c) = false) as Hold.
  { intros y Hy [(k & _ & Hk)| ->]; by eapply Hun. }
  destruct (lookup_step _ _ _ _ _ _ _ Hi Hj) as [[-> ->]|[[Hne Hk]|[-> Hs]]].
  - (* the thread that moved *)
    destruct Hstep; cbn [about_to_write] in Hx; try done.
    apply (Hold (Worker a WSample)); [done|by right].
  - (* another thread *)
    assert (isfile name (fs c) = false) as Hf by (by eapply Hun).
    destruct Hstep; try done; rewrite ?isfile_insert, ?isfile_delete;
      try (case_decide as Hd; [|done]); try (by names).
    + (* a writer wrote: it is the one thread that writes the file *)
      exfalso. pose proof (inv_once _ _ Hinv) as Honce.
      pose proof (count_two (writer name) (threads c) i j _ _ Hi Hk ltac:(done)) as H2.
      cbn [writer] in H2. rewrite Hd, String.eqb_refl, H in H2.
      specialize (H2 eq_refl (about_to_write_writer _ Hx)). lia.
    + exfalso. pose proof (inv_once _ _ Hinv) as Honce.
      pose proof (count_two (writer name) (threads c) i j _ _ Hi Hk ltac:(done)) as H2.
      cbn [writer] in H2. rewrite Hd, String.eqb_refl, H in H2.
      specialize (H2 eq_refl (about_to_write_writer _ Hx)). lia.
  - (* the thread that was started *)
    destruct Hstep; try done. injection Hs as <-.
    cbn [about_to_write a_pathname a_format] in Hx.
    apply andb_prop in Hx as [Hp%String.eqb_eq _].
    cbn [thread_ok] in Hok. by apply Hok.
Qed.

Lemma tstep_content c i t fs' t' sp :
  invariant name c -> unwritten name c ->
  threads c !! i = Some t ->
  tstep (threads c) (fs c) t fs' t' sp ->
  isfile name (fs c) = true -> fs' !! name = fs c !! name.
Proof.
  intros Hinv Hun Hi Hstep Hf.
  pose proof (inv_ok _ _ Hinv i _ Hi) as Hok.
  destruct Hstep; try done.
  - rewrite lookup_insert_ne; [done|]. unfold signalpath. intros Hd. names.
  - rewrite lookup_delete_ne; [done|]. unfold signalpath. intros Hd. names.
  - destruct (decide (a_pathname a = name)) as [Hd|Hd]; [|by rewrite lookup_insert_ne].
    rewrite (Hun i _ Hi) in Hf; [done|]. cbn. by rewrite Hd, String.eqb_refl.
  - destruct (decide (a_pathname a = name)) as [Hd|Hd]; [|by rewrite lookup_insert_ne].
    rewrite (Hun i _ Hi) in Hf; [done|]. cbn. by rewrite Hd, String.eqb_refl.
  - rewrite lookup_delete_ne; [done|]. destruct Hok as [-> _]. intros Hd. names.
Qed.

Lemma run_content sched c c' :
  invariant name c -> unwritten name c ->
  run sched c = Some c' ->
  isfile name (fs c) = true -> fs c' !! name = fs c !! name.
Proof.
  revert c. induction sched as [|[i o] sched IH]; intros c Hinv Hun; simpl.
  - by intros [= <-].
  - destruct (step i o c) as [c1|] eqn:Es; simpl; [|done]. intros Hrun Hf.
    pose proof (step_invariant r0 _ _ _ _ Hinv Es) as Hinv1.
    apply step_inv in Es as (t & fs' & t' & sp & Hi & Hs%thread_step_tstep & ->).
    pose proof (tstep_unwritten _ _ _ _ _ _ Hinv Hun Hi Hs) as Hun1.
    pose proof (tstep_content _ _ _ _ _ _ Hinv Hun Hi Hs Hf) as Hc.
    rewrite <- Hc.
    apply (IH {| fs := fs'; threads := <[i := t']> (threads c) ++ option_list sp |});
      [done..|].
    unfold isfile in *. cbn [fs]. by rewrite Hc.
Qed.

Lemma run_unwritten sched c c' :
  invariant name c -> unwritten name c ->
  run sched c = Some c' -> unwritten name c'.
Proof.
  revert c. induction sched as [|[i o] sched IH]; intros c Hinv Hun; simpl.
  - by intros [= <-].
  - destruct (step i o c) as [c1|] eqn:Es; simpl; [|done].
    pose proof (step_invariant r0 _ _ _ _ Hinv Es) as Hinv1.
    apply step_inv in Es as (t & fs' & t' & sp & Hi & Hs%thread_step_tstep & ->).
    apply IH; [done|]. by eapply tstep_unwritten.
Qed.

Lemma arrive_unwritten fs0 rs : unwritten name (arrive fs0 rs).
Proof. intros j t Hj. apply list_lookup_fmap_Some in Hj as (r & -> & _). done. Qed.

(** A data file that is there is never written again and never removed:
    from any configuration the requests can reach, every further
    schedule leaves the file as it is. *)
Theorem written_once fs0 rs sched1 sched2 c1 c2 :
  run sched1 (arrive fs0 rs) = Some c1 ->
  run sched2 c1 = Some c2 ->
  isfile name (fs c1) = true ->
  fs c2 !! name = fs c1 !! name.
Proof.
  intros H1 H2 Hf.
  pose proof (arrive_invariant r0 fs0 rs) as Hinv0.
  apply (run_content sched2 c1 c2); [by eapply run_invariant| |done..].
  apply (run_unwritten sched1 (arrive fs0 rs)); [done|apply arrive_unwritten|done].
Qed.


End WriteOnce.
Section Stale.
Variable r0 : request.
Local Abbreviation name := (filename r0).
Local Abbreviation sig := (signal_of (filename r0)).

Lemma tstep_stale c i t fs' t' sp :
  stale name c ->
  threads c !! i = Some t ->
  tstep (threads c) (fs c) t fs' t' sp ->
  stale name {| fs := fs'; threads := <[i := t']> (threads c) ++ option_list sp |}
  /\ fs' !! name = fs c !! name.
Proof.
  intros [Hsig Hth] Hi Hstep. pose proof (Hth i t Hi) as Hti.
  assert (isfile sig fs' = true /\ fs' !! name = fs c !! name) as [Hsig' Hsame].
  { destruct Hstep; try done; rewrite ?isfile_insert, ?isfile_delete;
      unfold signalpath, pathname in *.
    - split; [by case_decide|]. rewrite lookup_insert_ne; [done|]. intros Hd. names.
    - split.
      + case_decide as Hd; [|done]. names. by destruct (Hti Hd).
      + rewrite lookup_delete_ne; [done|]. intros Hd. names.
    - destruct Hti as [Hne _]. split; [by case_decide|]. by rewrite lookup_insert_ne.
    - destruct Hti as [Hne _]. split; [by case_decide|]. by rewrite lookup_insert_ne.
    - destruct Hti as [Hne Hs]. rewrite Hs. split.
      + case_decide as Hd; [|done]. names. done.
      + rewrite lookup_delete_ne; [done|]. intros Hd. names. }
  split; [|done]. split; [done|]. cbn [fs threads]. intros j x Hj.
  destruct (lookup_step _ _ _ _ _ _ _ Hi Hj) as [[-> ->]|[[Hne Hold]|[-> Hs]]].
  - destruct Hstep; try done; unfold signalpath in *; intros Hr;
      try (by destruct (Hti Hr)).
    + rewrite Hr in H. unfold isfile in Hsig. by rewrite H in Hsig.
    + by destruct (r_wait r) eqn:Ew.
    + rewrite Hr in H. congruence.
  - by apply (Hth j x).
  - destruct Hstep; try done. injection Hs as <-. cbn [a_pathname a_signalname].
    split; [|done]. unfold pathname. intros Hr. by destruct (Hti Hr).
Qed.

Lemma run_stale sched c c' :
  stale name c -> run sched c = Some c' ->
  stale name c' /\ fs c' !! name = fs c !! name.
Proof.
  revert c. induction sched as [|[i o] sched IH]; intros c Hst; simpl.
  - by intros [= <-].
  - destruct (step i o c) as [c1|] eqn:Es; simpl; [|done]. intros Hrun.
    apply step_inv in Es as (t & fs' & t' & sp & Hi & Hs%thread_step_tstep & ->).
    destruct (tstep_stale _ _ _ _ _ _ Hst Hi Hs) as [Hst1 Hc].
    destruct (IH _ Hst1 Hrun) as [Hst' Hc']. split; [done|].
    cbn [fs] in Hc'. by rewrite Hc'.
Qed.

Lemma arrive_stale fs0 rs : isfile sig fs0 = true -> stale name (arrive fs0 rs).
Proof.
  intros Hs. split; [done|]. intros j t Hj.
  apply list_lookup_fmap_Some in Hj as (r & -> & _). done.
Qed.

(** A sentinel nobody holds is never removed.  When the requests arrive
    with the sentinel of a file in the directory, then in every schedule
    the sentinel stays, the entry of the file stays as it was,
    [create_data_file] is never started on the file, and no caller that
    waits for the file returns. *)
Theorem stale_sentinel_stays fs0 rs sched c :
  isfile (signalpath r0) fs0 = true ->
  run sched (arrive fs0 rs) = Some c ->
  isfile (signalpath r0) (fs c) = true
  /\ fs c !! pathname r0 = fs0 !! pathname r0
  /\ (forall j a pc, threads c !! j = Some (Worker a pc) ->
                     a_pathname a <> pathname r0)
  /\ (forall j r pc, threads c !! j = Some (Caller r pc) ->
                     filename r = filename r0 -> r_wait r = true ->
                     pc = CStart \/ pc = CPoll).
Proof.
  intros Hs Hrun.
  destruct (run_stale _ _ _ (arrive_stale fs0 rs Hs) Hrun) as [[Hsig Hth] Hc].
  split_and!; [done|done| |].
  - intros j a pc Hj. by destruct (Hth j _ Hj).
  - intros j r pc Hj Hr Hw. specialize (Hth j _ Hj Hr).
    destruct pc; try done; [by left|by right|congruence].
Qed.

End Stale.


(** *** Calls that end early *)

Lemma step_other i j o c c' t :
  step j o c = Some c' -> j <> i ->
  threads c !! i = Some t -> threads c' !! i = Some t.
Proof.
  intros Hs Hne Hi.
  apply step_inv in Hs as (x & fs' & x' & sp & Hj & _ & ->). cbn [threads].
  apply lookup_app_l_Some. by rewrite list_lookup_insert_ne.
Qed.

(** A call that does not wait can always move, and each move brings it
    closer to its end. *)
Lemma nowait_step i o c r pc :
  threads c !! i = Some (Caller r pc) ->
  r_wait r = false -> straight pc = true -> caller_rank pc <> 0%nat ->
  exists c' pc',
    step i o c = Some c'
    /\ threads c' !! i = Some (Caller r pc')
    /\ straight pc' = true
    /\ (caller_rank pc' < caller_rank pc)%nat.
Proof.
  intros Hi Hw Hs Hr. pose proof (lookup_lt_Some _ _ _ Hi) as Hlt.
  assert (forall fs' pc' sp,
            caller_step (threads c) (fs c) r pc = Some (fs', pc', sp) ->
            straight pc' = true -> (caller_rank pc' < caller_rank pc)%nat ->
            exists c' pc',
              step i o c = Some c'
              /\ threads c' !! i = Some (Caller r pc')
              /\ straight pc' = true
              /\ (caller_rank pc' < caller_rank pc)%nat) as Hgo.
  { intros fs' pc' sp Hcs Hs' Hr'. eexists _, pc'. unfold step. rewrite Hi. cbn.
    rewrite Hcs. cbn. split_and!; [done| |done|done].
    apply lookup_app_l_Some. by rewrite list_lookup_insert_eq. }
  destruct pc; try done.
  - destruct (open_x (signalpath r) (fs c)) eqn:E;
      (eapply Hgo; [cbn [caller_step]; rewrite E, ?Hw; reflexivity|done|cbn; lia]).
  - destruct (isfile (pathname r) (fs c)) eqn:E;
      (eapply Hgo; [cbn [caller_step]; rewrite E; reflexivity|done|cbn; lia]).
  - destruct (unlink (signalpath r) (fs c)) eqn:E;
      (eapply Hgo; [cbn [caller_step]; rewrite E; reflexivity|done|cbn; lia]).
  - destruct (Py.int (r_size r)) eqn:E1, (Py.int (r_sid r)) eqn:E2;
      (eapply Hgo; [cbn [caller_step]; rewrite E1, ?E2, ?Hw; reflexivity|done|cbn; lia]).
Qed.

(** A call of [get_data_file] with [wait=False] never blocks: whatever
    the other threads do, it can take its next step until it has ended,
    and it has ended after three steps of its own. *)
Theorem nowait_never_blocks c i r sched c' :
  threads c !! i = Some (Caller r CStart) ->
  r_wait r = false ->
  run sched c = Some c' ->
  exists pc,
    threads c' !! i = Some (Caller r pc)
    /\ (terminated (Caller r pc) = false -> forall o, is_Some (step i o c'))
    /\ ((3 <= steps_of i sched)%nat -> terminated (Caller r pc) = true).
Proof.
  intros Hi Hw Hrun.
  cut (forall pc0 c0,
         threads c0 !! i = Some (Caller r pc0) -> straight pc0 = true ->
         run sched c0 = Some c' ->
         exists pc,
           threads c' !! i = Some (Caller r pc) /\ straight pc = true
           /\ ((caller_rank pc0 <= steps_of i sched)%nat -> caller_rank pc = 0%nat)).
  { intros Hgen. destruct (Hgen CStart c Hi eq_refl Hrun) as (pc & Hpc & Hs & Hend).
    exists pc. split_and!; [done| |].
    - intros Ht o. destruct (decide (caller_rank pc = 0%nat)) as [H0|H0].
      + by destruct pc.
      + destruct (nowait_step i o c' r pc Hpc Hw Hs H0) as (c2 & _ & -> & _). done.
    - intros H3. specialize (Hend H3). by destruct pc. }
  clear c Hi Hrun. induction sched as [|[j o] sched IH]; intros pc0 c0 Hi Hs; simpl.
  - intros [= <-]. exists pc0. split_and!; [done..|]. unfold steps_of. simpl. lia.
  - destruct (step j o c0) as [c1|] eqn:Es; simpl; [|done]. intros Hrun.
    unfold steps_of. cbn [List.filter fst].
    destruct (Nat.eqb_spec j i) as [->|Hne].
    + destruct (decide (caller_rank pc0 = 0%nat)) as [H0|H0].
      { unfold step in Es. rewrite Hi in Es. by destruct pc0. }
      destruct (nowait_step i o c0 r pc0 Hi Hw Hs H0) as (c2 & pc1 & Hc2 & Hi1 & Hs1 & Hr).
      rewrite Es in Hc2. injection Hc2 as <-.
      destruct (IH pc1 c1 Hi1 Hs1 Hrun) as (pc & Hpc & Hsp & Hend).
      exists pc. split_and!; [done..|]. simpl. intros Hle.
      apply Hend. unfold steps_of. lia.
    + destruct (IH pc0 c1 (step_other _ _ _ _ _ _ Es Hne Hi) Hs Hrun)
        as (pc & Hpc & Hsp & Hend).
      by exists pc.
Qed.

(** *** A size or seed that is not a number *)


(** *** A lone call *)



(** *** The theorems on concrete requests *)

Lemma written_once_witness :
  let r := two_groups "csv" true in
  exists c1 c2,
    run (take 6 two_callers) (arrive ∅ [r; r]) = Some c1
    /\ run (drop 6 two_callers) c1 = Some c2
    /\ isfile (filename r) (fs c1) = true
    /\ fs c2 !! filename r = fs c1 !! filename r.
Proof.
  intros r.
  pose (c1 := default (arrive ∅ []) (run (take 6 two_callers) (arrive ∅ [r; r]))).
  pose (c2 := default (arrive ∅ []) (run (drop 6 two_callers) c1)).
  exists c1, c2. split_and!; [vm_compute; reflexivity..|].
  apply (written_once r ∅ [r; r] (take 6 two_callers) (drop 6 two_callers) c1 c2);
    vm_compute; reflexivity.
Defined.

Lemma stale_sentinel_stays_witness :
  let r := two_groups "csv" true in
  let fs0 : dir := {[ "creating-tykhe_twosample_null_4_42.csv" := EmptyFile ]} in
  let c := {| fs := fs0; threads := [Caller r CPoll] |} in
  isfile (signalpath r) (fs c) = true
  /\ fs c !! pathname r = fs0 !! pathname r
  /\ (forall j a pc, threads c !! j = Some (Worker a pc) ->
                     a_pathname a <> pathname r)
  /\ (forall j r' pc, threads c !! j = Some (Caller r' pc) ->
                      filename r' = filename r -> r_wait r' = true ->
                      pc = CStart \/ pc = CPoll).
Proof.
  intros r fs0 c.
  apply (stale_sentinel_stays r fs0 [r] [(0, returns); (0, returns)]%nat c);
    vm_compute; reflexivity.
Defined.

Lemma nowait_never_blocks_witness :
  let r := two_groups "dummy" false in
  let sched := [(0, returns); (0, returns); (0, returns); (1, returns)]%nat in
  exists c' pc,
    run sched (arrive ∅ [r]) = Some c'
    /\ threads c' !! 0%nat = Some (Caller r pc)
    /\ (terminated (Caller r pc) = false -> forall o, is_Some (step 0 o c'))
    /\ ((3 <= steps_of 0 sched)%nat -> terminated (Caller r pc) = true).
Proof.
  intros r sched.
  pose (c' := default (arrive ∅ []) (run sched (arrive ∅ [r]))).
  exists c'.
  destruct (nowait_never_blocks (arrive ∅ [r]) 0 r sched c') as (pc & Hpc);
    [vm_compute; reflexivity..|].
  exists pc. split; [vm_compute; reflexivity|exact Hpc].
Defined.



End ProtocolFacts.

(** ** The memoised samples, continued *)

Module MemoFacts.
Import Frame Cache Sampling ProcessFacts.

Section Memo.
Context `{Numpy}.
Variable simon_mu : list float.
Variable simon_Sigma : list (list float).
Local Abbreviation key := (string * Z * Z)%type.
Local Abbreviation gss := (get_study_sample simon_mu simon_Sigma).

(** *** The table *)

Lemma memo_find_drop_ne (k k' : key) m :
  k' <> k -> memo_find k (memo_drop k' m) = memo_find k m.
Proof.
  intros Hne. unfold memo_drop. induction m as [|[k1 l1] m IH]; [done|].
  cbn [List.filter fst]. destruct (decide (k1 = k')) as [->|Hk].
  - rewrite bool_decide_eq_true_2 by done. cbn [negb memo_find].
    by rewrite decide_False.
  - rewrite bool_decide_eq_false_2 by done. cbn [negb memo_find].
    by rewrite IH.
Qed.

Lemma memo_rank_drop (k k' : key) m :
  k' <> k -> (memo_rank k (memo_drop k' m) <= memo_rank k m)%nat.
Proof.
  intros Hne. unfold memo_drop. induction m as [|[k1 l1] m IH]; [done|].
  cbn [List.filter fst memo_rank]. destruct (decide (k1 = k')) as [->|Hk].
  - rewrite bool_decide_eq_true_2 by done. cbn [negb]. case_decide; [done|lia].
  - rewrite bool_decide_eq_false_2 by done. cbn [negb memo_rank]. case_decide; lia.
Qed.

Lemma memo_take (k : key) m n loc :
  memo_find k m = Some loc -> (memo_rank k m < n)%nat ->
  memo_find k (take n m) = Some loc /\ memo_rank k (take n m) = memo_rank k m.
Proof.
  revert n. induction m as [|[k1 l1] m IH]; intros n; [done|].
  cbn [memo_find memo_rank]. destruct n as [|n]; [lia|]. cbn [take memo_find memo_rank].
  destruct (decide (k1 = k)) as [->|Hk]; [done|].
  intros Hf Hr. destruct (IH n Hf ltac:(lia)) as [-> ->]. done.
Qed.

Lemma memo_find_keys (k : key) m : memo_find k m = None -> k ∉ m.*1.
Proof.
  induction m as [|[k1 l1] m IH]; cbn; [intros _; apply not_elem_of_nil|].
  destruct (decide (k1 = k)) as [->|Hk]; [done|].
  intros Hf [Heq|Hin]%elem_of_cons; [done|]. by apply IH.
Qed.

Lemma memo_drop_keys (k : key) m :
  (k ∉ (memo_drop k m).*1)
  /\ (NoDup m.*1 -> NoDup (memo_drop k m).*1)
  /\ (length (memo_drop k m) <= length m)%nat.
Proof.
  unfold memo_drop. induction m as [|[k1 l1] m (IH1 & IH2 & IH3)].
  - split_and!; [apply not_elem_of_nil|done|done].
  - cbn [List.filter fst]. destruct (decide (k1 = k)) as [->|Hk].
    + rewrite bool_decide_eq_true_2 by done. cbn [negb].
      split_and!; [done| |cbn; lia]. rewrite fmap_cons, NoDup_cons. intros [_ ?]. auto.
    + rewrite bool_decide_eq_false_2 by done. cbn [negb].
      split_and!; [|rewrite !fmap_cons, !NoDup_cons|cbn; lia].
      * rewrite fmap_cons. intros [Heq|Hin]%elem_of_cons; [done|]. by apply IH1.
      * intros [Hn Hd]. split; [|auto]. intros Hin. apply Hn.
        apply list_elem_of_fmap in Hin as ([k2 l2] & -> & Hin).
        apply list_elem_of_fmap. exists (k2, l2). split; [done|].
        by eapply memo_drop_elem.
Qed.


Lemma gss_kept (k : key) loc n study' size' sid' w :
  kept k loc n w -> (n < 299)%nat ->
  kept k loc (S n) (gss study' size' sid' w).1.
Proof.
  intros [Hf Hr] Hn. unfold get_study_sample.
  destruct (decide ((study', size', sid') = k)) as [->|Hne].
  - rewrite Hf. unfold kept. cbn [fst memo memo_find memo_rank].
    rewrite !decide_True by done. split; [done|lia].
  - unfold kept.
    destruct (memo_find (study', size', sid') (memo w)) as [l|] eqn:Ef; cbn [fst memo].
    + cbn [memo_find memo_rank]. rewrite !decide_False by done.
      rewrite memo_find_drop_ne by done. split; [done|].
      pose proof (memo_rank_drop k (study', size', sid') (memo w) Hne). lia.
    + destruct (sample_of _ _ _ _ _) as [df|e]; cbn [fst memo]; [|split; [done|lia]].
      unfold maxsize. cbn [take memo_find memo_rank]. rewrite !decide_False by done.
      destruct (memo_take k (memo w) 299 loc Hf ltac:(lia)) as [-> ->].
      split; [done|lia].
Qed.

Lemma write_memo writer loc p w : memo (write writer loc p w).1 = memo w.
Proof.
  unfold write. destruct (heap w !! loc); [|done].
  by destruct (writer _) as [? [|]].
Qed.

Lemma unlink_file_memo p w :
  memo (unlink_file p w).1 = memo w /\ heap (unlink_file p w).1 = heap w.
Proof. unfold unlink_file. by destruct (unlink p (files w)). Qed.

Lemma write_heap writer loc p w :
  length (heap (write writer loc p w).1) = length (heap w).
Proof.
  unfold write. destruct (heap w !! loc); [|done].
  destruct (writer _) as [? [|]]; cbn; by rewrite length_insert.
Qed.

(** [create_data_file] leaves the table as its call of
    [get_study_sample] left it, and adds no object. *)
Lemma create_data_file_table study' size' format sid' p s w :
  let w' := (create_data_file simon_mu simon_Sigma study' size' format sid' p s w).1 in
  memo w' = memo (gss study' size' sid' w).1
  /\ length (heap w') = length (heap (gss study' size' sid' w).1).
Proof.
  cbn zeta.
  remember (create_data_file simon_mu simon_Sigma study' size' format sid' p s w)
    as res eqn:Hres.
  unfold create_data_file, bind at 1 in Hres.
  destruct (gss study' size' sid' w) as [w1 [loc|e]]; subst res; cbn [fst]; [|done].
  set (P := fun w' : world =>
              memo w' = memo w1 /\ length (heap w') = length (heap w1)).
  change (P (bind (when (String.eqb format "csv") (write (total df_to_csv) loc p)) (fun _ =>
             bind (when (String.eqb format "xlsx") (write (total df_to_xlsx) loc p)) (fun _ =>
             bind (when (String.eqb format "dta") (write to_stata loc p)) (fun _ =>
             bind (when (String.eqb format "sav") (write df_to_sav loc p)) (fun _ =>
             unlink_file s)))) w1).1).
  assert (forall b writer w', P w' -> P (when b (write writer loc p) w').1) as Hwhen.
  { intros b writer w' Hw'. apply when_keeps; [done|]. intros _ w2 [Hm Hh].
    unfold P. by rewrite write_memo, write_heap. }
  assert (P w1) as H1 by done.
  revert H1. generalize w1 at 1 2 as w0.
  intros w0 H0. apply bind_keeps; [done|intros; by apply Hwhen|intros _].
  clear w0 H0. intros w0 H0. apply bind_keeps; [done|intros; by apply Hwhen|intros _].
  clear w0 H0. intros w0 H0. apply bind_keeps; [done|intros; by apply Hwhen|intros _].
  clear w0 H0. intros w0 H0. apply bind_keeps; [done|intros; by apply Hwhen|intros _].
  clear w0 H0. intros w0 [Hm Hh]. unfold P.
  destruct (unlink_file_memo s w0) as [-> ->]. done.
Qed.

Lemma serve_kept (k : key) loc n c w :
  kept k loc n w -> (n < 299)%nat ->
  kept k loc (S n) (serve simon_mu simon_Sigma w c).
Proof.
  intros Hk Hn. destruct c as [study' size' sid'|study' size' format sid' p s];
    cbn [serve]; [by apply gss_kept|].
  unfold kept. rewrite (proj1 (create_data_file_table _ _ _ _ _ _ _)). by apply gss_kept.
Qed.

Lemma gss_head study size sid w w1 loc :
  gss study size sid w = (w1, Ok loc) ->
  kept (study, size, sid) loc 0 w1.
Proof.
  unfold get_study_sample.
  destruct (memo_find (study, size, sid) (memo w)) as [l|] eqn:Ef.
  - intros [= <- <-]. unfold kept. cbn [memo memo_find memo_rank].
    by rewrite !decide_True.
  - destruct (sample_of _ _ _ _ _); [|done]. intros [= <- <-]. unfold kept, maxsize.
    cbn [memo take memo_find memo_rank]. by rewrite !decide_True.
Qed.

Lemma foldl_kept (k : key) loc h w0 n :
  kept k loc n w0 -> (n + length h <= 299)%nat ->
  kept k loc (n + length h) (foldl (serve simon_mu simon_Sigma) w0 h).
Proof.
  revert w0 n. induction h as [|c h IH]; intros w0 n Hk Hn; cbn [foldl length] in *.
  - by rewrite Nat.add_0_r.
  - replace (n + S (length h))%nat with (S n + length h)%nat by lia.
    apply IH; [|lia]. apply serve_kept; [done|lia].
Qed.

(** A sample stays memoised over the next 299 calls the process serves,
    whatever their keys and formats: the call after them is answered
    from the table with the same object, without a new frame and without
    touching the directory. *)
Theorem memoised_for_299_calls study size sid w w1 loc h :
  gss study size sid w = (w1, Ok loc) ->
  (length h <= 299)%nat ->
  let w2 := foldl (serve simon_mu simon_Sigma) w1 h in
  gss study size sid w2
  = ({| heap := heap w2;
        memo := ((study, size, sid), loc) :: memo_drop (study, size, sid) (memo w2);
        files := files w2 |}, Ok loc).
Proof.
  intros Hg Hlen w2.
  destruct (foldl_kept (study, size, sid) loc h w1 0 (gss_head _ _ _ _ _ _ Hg) Hlen)
    as [Hf _].
  unfold get_study_sample. fold w2 in Hf. by rewrite Hf.
Qed.


(** *** The size of the table *)

Lemma gss_table study size sid w :
  table_ok w -> table_ok (gss study size sid w).1.
Proof.
  intros (Hlen & Hnd & Hloc). unfold table_ok, maxsize, get_study_sample in *.
  destruct (memo_find _ (memo w)) as [loc|] eqn:Ef; cbn [fst memo heap].
  - destruct (memo_drop_keys (study, size, sid) (memo w)) as (Hk & Hd & Hl).
    apply memo_find_Some in Ef as Hin.
    split_and!.
    + assert (length (memo_drop (study, size, sid) (memo w)) < length (memo w))%nat;
        [|cbn; lia].
      clear -Hin. unfold memo_drop. induction (memo w) as [|[k1 l1] m IH];
        [by apply elem_of_nil in Hin|].
      cbn [List.filter fst]. apply elem_of_cons in Hin as [[= <- <-]|Hin].
      * rewrite bool_decide_eq_true_2 by done. cbn.
        pose proof (proj2 (proj2 (memo_drop_keys (study, size, sid) m))) as Hle.
        unfold memo_drop in Hle. lia.
      * specialize (IH Hin). destruct (negb _); cbn; lia.
    + rewrite fmap_cons. apply NoDup_cons. auto.
    + intros k l [[= -> ->]|Hin']%elem_of_cons; [by eapply Hloc|].
      apply (Hloc k). by eapply memo_drop_elem.
  - destruct (sample_of _ _ _ _ _) as [df|e]; cbn [fst memo heap]; [|done].
    split_and!.
    + rewrite length_take. unfold maxsize. lia.
    + rewrite fmap_take. eapply sublist_NoDup; [|apply sublist_take]. rewrite fmap_cons. apply NoDup_cons.
      split; [by apply memo_find_keys|done].
    + intros k l Hin. rewrite length_app. cbn [length].
      apply list_elem_of_lookup in Hin as [i Hi].
      apply lookup_take_Some in Hi as [Hi _].
      destruct i; cbn in Hi; [injection Hi as <- <-; lia|].
      apply list_elem_of_lookup_2 in Hi. specialize (Hloc _ _ Hi). lia.
Qed.

Lemma serve_table c w : table_ok w -> table_ok (serve simon_mu simon_Sigma w c).
Proof.
  intros Hw. destruct c as [study size sid|study size format sid p s]; cbn [serve];
    [by apply gss_table|].
  destruct (create_data_file_table study size format sid p s w) as [Hm Hh].
  cbn zeta in Hm, Hh. unfold table_ok. rewrite Hm, Hh. by apply gss_table.
Qed.

(** Whatever calls a process has served, the table of [lru_cache] holds
    at most 300 samples, at most one for a key, and each entry refers to
    a frame that exists. *)
Theorem memo_is_bounded fs0 h :
  let w := after simon_mu simon_Sigma fs0 h in
  (length (memo w) <= 300)%nat
  /\ NoDup (memo w).*1
  /\ forall (k : key) loc, (k, loc) ∈ memo w -> is_Some (heap w !! loc).
Proof.
  cbn zeta. unfold after.
  cut (table_ok (foldl (serve simon_mu simon_Sigma) (start fs0) h)).
  { intros (? & ? & Hloc). split_and!; [done..|].
    intros k loc Hin. apply lookup_lt_is_Some. by eapply Hloc. }
  assert (table_ok (start fs0)) as H0.
  { split_and!; [cbn; lia|constructor|]. intros k loc Hin. by apply elem_of_nil in Hin. }
  revert H0. generalize (start fs0) as w.
  induction h as [|c h IH]; intros w Hw; cbn [foldl]; [done|].
  apply IH. by apply serve_table.
Qed.


(** *** What [create_data_file] leaves *)

Lemma unlink_file_files p w : files (unlink_file p w).1 = delete p (files w).
Proof.
  unfold unlink_file, unlink. destruct (files w !! p) eqn:E; cbn; [done|].
  by rewrite delete_id.
Qed.

Lemma sampled_Ok study size sid w df :
  sampled simon_mu simon_Sigma study size sid w = Ok df ->
  exists w1 loc,
    gss study size sid w = (w1, Ok loc)
    /\ heap w1 !! loc = Some df /\ files w1 = files w
    /\ memo_find (study, size, sid) (memo w1) = Some loc.
Proof.
  unfold sampled. destruct (gss study size sid w) as [w1 [loc|e]] eqn:Eg; [|done].
  destruct (heap w1 !! loc) as [d|] eqn:El; [intros [= ->]|done].
  exists w1, loc. split; [done|]. split; [done|].
  split; [|by destruct (gss_head _ _ _ _ _ _ Eg)].
  revert Eg. unfold get_study_sample.
  destruct (memo_find _ (memo w)); [by intros [= <- _]|].
  destruct (sample_of _ _ _ _ _); [by intros [= <- _]|done].
Qed.



Lemma serve_unwritten study size sid format p s w w1 loc :
  writes format = false ->
  gss study size sid w = (w1, Ok loc) ->
  serve simon_mu simon_Sigma w (CreateDataFile study size format sid p s)
  = (unlink_file s w1).1.
Proof.
  intros Hw Hg. cbn [serve]. unfold create_data_file, bind at 1. rewrite Hg.
  assert (String.eqb format "csv" = false /\ String.eqb format "xlsx" = false
          /\ String.eqb format "dta" = false /\ String.eqb format "sav" = false)
    as (-> & -> & -> & ->).
  { unfold writes in Hw. apply bool_decide_eq_false in Hw.
    split_and!; apply String.eqb_neq; intros ->; apply Hw; set_solver. }
  done.
Qed.

(** A call of [create_data_file] for a format without writer, as
    [collect_sample] makes it with 'dummy', writes no file and leaves the
    sample in the table: the next call of [get_study_sample] for the key
    is answered from the table, with the same frame and without a new
    object. *)
Theorem unwritten_format_warms_table study size sid format p s w df :
  writes format = false ->
  sampled simon_mu simon_Sigma study size sid w = Ok df ->
  let w' := serve simon_mu simon_Sigma w (CreateDataFile study size format sid p s) in
  files w' = delete s (files w)
  /\ exists loc,
      heap w' !! loc = Some df
      /\ gss study size sid w'
         = ({| heap := heap w';
               memo := ((study, size, sid), loc) :: memo_drop (study, size, sid) (memo w');
               files := files w' |}, Ok loc).
Proof.
  intros Hw (w1 & loc & Hg & Hl & Hf & Hm)%sampled_Ok. cbn zeta.
  rewrite (serve_unwritten _ _ _ _ p s _ _ _ Hw Hg).
  destruct (unlink_file_memo s w1) as [Hmemo Hheap].
  rewrite unlink_file_files, Hf, Hheap. split; [done|]. exists loc. split; [done|].
  unfold get_study_sample. by rewrite Hmemo, Hm, Hheap, unlink_file_files, Hf.
Qed.


End Memo.

Lemma memoised_for_299_calls_witness :
  let w1 := (get_study_sample (H := Toy.numpy) [] [] "levels" 3 7 (start ∅)).1 in
  let h := [levels_file "csv"; GetStudySample "twosample_null" 4 42] in
  let w2 := foldl (serve (H := Toy.numpy) [] []) w1 h in
  get_study_sample (H := Toy.numpy) [] [] "levels" 3 7 w2
  = ({| heap := heap w2;
        memo := (("levels", 3, 7), 0%nat) :: memo_drop ("levels", 3, 7) (memo w2);
        files := files w2 |}, Ok 0%nat).
Proof.
  intros w1 h.
  apply (memoised_for_299_calls (H := Toy.numpy) [] [] "levels" 3 7 (start ∅) w1 0 h);
    [vm_compute; reflexivity|vm_compute; lia].
Defined.


Lemma unwritten_format_warms_table_witness :
  let df := match sample_of (H := Toy.numpy) [] [] "levels" 3 7 with
            | Ok df => df
            | Raise _ => []
            end in
  let w' := serve (H := Toy.numpy) [] [] (start ∅) (levels_file "dummy") in
  files w' = delete "creating-tykhe_levels_3_7.dummy" (files (start ∅))
  /\ exists loc,
      heap w' !! loc = Some df
      /\ get_study_sample (H := Toy.numpy) [] [] "levels" 3 7 w'
         = ({| heap := heap w';
               memo := (("levels", 3, 7), loc) :: memo_drop ("levels", 3, 7) (memo w');
               files := files w' |}, Ok loc).
Proof.
  intros df.
  apply (unwritten_format_warms_table (H := Toy.numpy) [] [] "levels" 3 7 "dummy"
           "tykhe_levels_3_7.dummy" "creating-tykhe_levels_3_7.dummy" (start ∅) df);
    vm_compute; reflexivity.
Defined.

End MemoFacts.

(** ** The writers, continued *)

Module WriterFacts.
Import Frame FrameFacts.

(** *** [df_to_csv] and [df_to_xlsx] *)

Lemma codes_step_id (df : DataFrame) a :
  (forall c, getitem df a = Some c -> is_ordinal c = false) -> codes_step df a = df.
Proof.
  unfold codes_step. intros Hno. destruct (getitem df a) as [c|]; [|done].
  by rewrite (Hno c eq_refl).
Qed.

Lemma codes_loop_id ns (df : DataFrame) :
  (forall n c, getitem df n = Some c -> is_ordinal c = false) ->
  foldl codes_step df ns = df.
Proof.
  intros Hno. induction ns as [|a ns IH]; [done|]. cbn [foldl].
  rewrite codes_step_id; [done|]. apply Hno.
Qed.

Lemma coded_not_ordinal c : is_ordinal (coded c) = false.
Proof. by destruct c as [| ? [] ? | |]. Qed.

Lemma getitem_columns (df : DataFrame) n c : getitem df n = Some c -> n ∈ columns df.
Proof.
  intros Hg%getitem_Some_elem. unfold columns. apply list_elem_of_fmap.
  by exists (n, c).
Qed.

(** What [df_to_csv] and [df_to_xlsx] write: the frame they are given,
    with the same columns in the same order and the same number of rows,
    every ordered categorical column replaced by its integer codes and
    every other column as it is.  Both write the same frame, and on the
    frame one of them has left, each writes that frame again. *)
Theorem csv_and_xlsx_write_codes (df : DataFrame) :
  let d := (df_to_csv df).1 in
  df_to_csv df = (d, CsvFile d)
  /\ df_to_xlsx df = (d, ExcelFile d)
  /\ columns d = columns df
  /\ nrows d = nrows df
  /\ (forall n labels values,
        getitem df n = Some (CatCol labels true values) ->
        getitem d n = Some (IntCol values))
  /\ (forall n c, getitem df n = Some c -> is_ordinal c = false ->
                  getitem d n = Some c)
  /\ df_to_csv d = (d, CsvFile d)
  /\ df_to_xlsx d = (d, ExcelFile d).
Proof.
  cbn zeta. unfold df_to_csv, df_to_xlsx. cbn [fst].
  destruct (codes_loop_spec (columns df) df) as (Hg & Hc & Hr).
  assert (forall n c, getitem df n = Some c ->
            getitem (foldl codes_step df (columns df)) n = Some (coded c)) as Hcoded.
  { intros n c Hn. rewrite Hg, Hn. rewrite decide_True; [done|]. by eapply getitem_columns. }
  assert (foldl codes_step (foldl codes_step df (columns df))
            (columns (foldl codes_step df (columns df)))
          = foldl codes_step df (columns df)) as Hid.
  { apply codes_loop_id. intros n c. rewrite Hg.
    destruct (getitem df n) as [c0|] eqn:En; [|done]. cbn.
    destruct (decide _) as [|Hn]; intros [= <-]; [apply coded_not_ordinal|].
    exfalso. by eapply Hn, getitem_columns. }
  split_and!; try done.
  - intros n labels values Hn. by rewrite (Hcoded _ _ Hn).
  - intros n c Hn Ho. rewrite (Hcoded _ _ Hn). unfold coded. by rewrite Ho.
  - by rewrite Hid.
  - by rewrite Hid.
Qed.

(** *** [df_to_sav] *)

Lemma sav_step_plain (df df1 : DataFrame) h h1 a c :
  sav_step (df, Ok h) a = (df1, Ok h1) ->
  getitem df a = Some c -> is_ordinal c = false ->
  valueLabels h1 !! a = valueLabels h !! a /\ formats h1 !! a = formats h !! a.
Proof.
  unfold sav_step. intros Hs Hg Ho. rewrite Hg in Hs.
  destruct c as [xs|labels [|] values|xs|xs]; try done.
  - by injection Hs as <- <-.
  - destruct (apply_len _ ≫= _) as [wd|e]; [|done]. by injection Hs as <- <-.
  - by injection Hs as <- <-.
  - by injection Hs as <- <-.
Qed.

Lemma sav_loop_plain ns (df df' : DataFrame) h h' n c :
  NoDup ns ->
  foldl sav_step (df, Ok h) ns = (df', Ok h') ->
  n ∈ ns -> getitem df n = Some c -> is_ordinal c = false ->
  valueLabels h' !! n = valueLabels h !! n /\ formats h' !! n = formats h !! n.
Proof.
  revert df h. induction ns as [|a ns IH]; intros df h Hnd; [by intros _ ?%elem_of_nil|].
  apply NoDup_cons in Hnd as [Ha Hnd]. cbn [foldl]. intros Hf Hin Hg Ho.
  destruct (sav_step (df, Ok h) a) as [df1 [h1|e]] eqn:Es;
    [|by rewrite sav_loop_raise in Hf].
  destruct (decide (n = a)) as [->|Hne].
  - destruct (sav_step_plain _ _ _ _ _ _ Es Hg Ho) as [E1 E2].
    destruct (sav_loop_other _ _ _ _ _ a Hf Ha) as [_ [= _ E3 _ E4]].
    by rewrite E3, E4.
  - apply elem_of_cons in Hin as [?|Hin]; [done|].
    apply sav_step_Ok in Es as (_ & _ & _ & Hoth & _).
    destruct (Hoth n Hne) as [Hg1 [= _ E3 _ E4]].
    destruct (IH df1 h1 Hnd Hf Hin ltac:(by rewrite Hg1) Ho) as [-> ->]. done.
Qed.

Lemma length_iterrows (df : DataFrame) :
  length (iterrows df) = nrows df
  /\ forall row, row ∈ iterrows df -> length row = length (columns df).
Proof.
  unfold iterrows, columns. split; [by rewrite length_fmap, length_seq|].
  intros row (i & -> & _)%list_elem_of_fmap. by rewrite !length_fmap.
Qed.

Lemma sav_recorded_level c h n :
  sav_recorded c h n ->
  measureLevels h !! n = Some (measure_level c)
  /\ (measure_level c <> "nominal" -> varTypes h !! n = Some 0).
Proof.
  unfold sav_recorded, entries.
  destruct c as [xs|labels [|] values|xs|xs]; cbn [measure_level].
  - by intros [? ?].
  - by intros (vl & w & _ & _ & [= -> _ -> _]).
  - by intros (ls & w & _ & _ & _ & ->).
  - by intros [? ?].
  - by intros [? ?].
Qed.

(** What [df_to_sav] writes when it returns, for a frame with distinct
    column names: the variables are the columns in order, there is one
    row for each row of the frame with one value for each column, every
    column is declared with the measurement level of its dtype (ordinal,
    nominal, or scale for a column that is not categorical) and, unless
    nominal, as numeric; only ordered categorical columns get value
    labels and a display format, and nothing is declared for other names. *)
Theorem sav_declares_every_column (df d : DataFrame) h rows :
  NoDup (columns df) ->
  df_to_sav df = (d, Ok (SavFile h rows)) ->
  varNames h = columns df
  /\ columns d = columns df
  /\ length rows = nrows df
  /\ (forall row, row ∈ rows -> length row = length (columns df))
  /\ (forall n c, getitem df n = Some c ->
        getitem d n = Some (sav_column c)
        /\ measureLevels h !! n = Some (measure_level c)
        /\ (measure_level c <> "nominal" -> varTypes h !! n = Some 0)
        /\ (is_ordinal c = false ->
            valueLabels h !! n = None /\ formats h !! n = None))
  /\ (forall n, n ∉ columns df -> entries h n = (None, None, None, None)).
Proof.
  intros Hnd [Hloop ->]%df_to_sav_Ok.
  destruct (sav_loop_shape _ _ _ _ _ Hloop) as (Hc & Hr & Hv).
  destruct (length_iterrows d) as [Hlen Hrow].
  split_and!.
  - by rewrite Hv.
  - done.
  - by rewrite Hlen.
  - intros row Hin. rewrite (Hrow row Hin). by rewrite Hc.
  - intros n c Hg. pose proof (getitem_columns _ _ _ Hg) as Hin.
    destruct (sav_loop_spec _ _ _ _ _ _ _ Hnd Hloop Hin Hg) as [Hd Hrec].
    destruct (sav_recorded_level _ _ _ Hrec) as [Hl Ht].
    split_and!; [done..|]. intros Ho.
    by destruct (sav_loop_plain _ _ _ _ _ _ _ Hnd Hloop Hin Hg Ho) as [-> ->].
  - intros n Hn. by destruct (sav_loop_other _ _ _ _ _ n Hloop Hn) as [_ ->].
Qed.

Lemma cells_nil c : col_length c = 0%nat -> cells c = [].
Proof. unfold col_length. by destruct (cells c). Qed.

Lemma sav_loop_without_rows ns (d : DataFrame) h :
  (forall m c, getitem d m = Some c -> col_length c = 0%nat) ->
  (forall a, a ∈ ns -> is_Some (getitem d a)) ->
  (foldl sav_step (d, Ok h) ns).2 = Raise ValueError
  \/ forall m c, getitem d m = Some c -> measure_level c = "nominal" -> m ∉ ns.
Proof.
  revert d h. induction ns as [|a ns IH]; intros d h Hemp Hsome.
  { right. intros m c _ _. apply not_elem_of_nil. }
  cbn [foldl]. destruct (Hsome a ltac:(left)) as [c Hc].
  assert (forall c', col_length c' = 0%nat ->
            forall h1,
              (foldl sav_step (setitem d a c', Ok h1) ns).2 = Raise ValueError
              \/ forall m c0, getitem (setitem d a c') m = Some c0 ->
                              measure_level c0 = "nominal" -> m ∉ ns) as Hnext.
  { intros c' Hc' h1. apply IH.
    - intros m c0. destruct (decide (a = m)) as [->|Hne].
      + rewrite getitem_setitem_eq. by intros [= <-].
      + rewrite getitem_setitem_ne by done. apply Hemp.
    - intros b Hb. destruct (decide (a = b)) as [->|Hne].
      + by rewrite getitem_setitem_eq.
      + rewrite getitem_setitem_ne by done. apply Hsome. by right. }
  pose proof (cells_nil _ (Hemp _ _ Hc)) as Hcells.
  unfold sav_step at 2. rewrite Hc.
  destruct c as [xs|labels [|] values|xs|xs].
  - destruct (IH d {| varNames := varNames h; varTypes := <[a:=0]> (varTypes h);
                      valueLabels := valueLabels h;
                      measureLevels := <[a:="scale"]> (measureLevels h);
                      formats := formats h |} Hemp
                ltac:(intros; apply Hsome; by right)) as [Hr|Hn]; [by left|right].
    intros m c0 Hm Hl [->|Hin]%elem_of_cons; [|by eapply Hn].
    rewrite Hc in Hm. by injection Hm as <-.
  - cbn [cells] in Hcells. apply fmap_nil_inv in Hcells as ->.
    cbn [value_labels]. destruct (Py.ceil_log10 (length labels)) as [w|e] eqn:Ew.
    + cbn. edestruct (Hnext (IntCol []) eq_refl) as [Hr|Hn]; [by left|right].
      intros m c0 Hm Hl [->|Hin]%elem_of_cons.
      * rewrite Hc in Hm. by injection Hm as <-.
      * apply (Hn m c0); [|done|done]. rewrite getitem_setitem_ne; [done|].
        intros ->. rewrite Hc in Hm. by injection Hm as <-.
    + left. cbn. rewrite sav_loop_raise. cbn.
      unfold Py.ceil_log10 in Ew. destruct (length labels); [by injection Ew as <-|done].
  - left. cbn [cells] in Hcells. apply fmap_nil_inv in Hcells as ->.
    cbn. by rewrite sav_loop_raise.
  - destruct (IH d {| varNames := varNames h; varTypes := <[a:=0]> (varTypes h);
                      valueLabels := valueLabels h;
                      measureLevels := <[a:="scale"]> (measureLevels h);
                      formats := formats h |} Hemp
                ltac:(intros; apply Hsome; by right)) as [Hr|Hn]; [by left|right].
    intros m c0 Hm Hl [->|Hin]%elem_of_cons; [|by eapply Hn].
    rewrite Hc in Hm. by injection Hm as <-.
  - destruct (IH d {| varNames := varNames h; varTypes := <[a:=0]> (varTypes h);
                      valueLabels := valueLabels h;
                      measureLevels := <[a:="scale"]> (measureLevels h);
                      formats := formats h |} Hemp
                ltac:(intros; apply Hsome; by right)) as [Hr|Hn]; [by left|right].
    intros m c0 Hm Hl [->|Hin]%elem_of_cons; [|by eapply Hn].
    rewrite Hc in Hm. by injection Hm as <-.
Qed.

(** [df_to_sav] raises [ValueError] on a frame without rows that has an
    unordered categorical column: the width of the column is the [max]
    of an empty sequence.  No file is written. *)
Theorem sav_raises_without_rows (df : DataFrame) n labels values :
  (forall m c, getitem df m = Some c -> col_length c = 0%nat) ->
  getitem df n = Some (CatCol labels false values) ->
  (df_to_sav df).2 = Raise ValueError.
Proof.
  intros Hemp Hn.
  destruct (sav_loop_without_rows (columns df) df (empty_header (columns df)) Hemp)
    as [Hr|Hno].
  - intros a Ha. destruct (getitem df a) eqn:E; [done|].
    apply getitem_None in E. done.
  - unfold df_to_sav. destruct (foldl sav_step _ _) as [d [h|e]]; cbn in *; congruence.
  - by destruct (Hno n _ Hn eq_refl (getitem_columns _ _ _ Hn)).
Qed.


(** *** When [df_to_sav] returns *)

Lemma index_in_range {A} (l : list A) i :
  0 <= i < Z.of_nat (length l) -> exists x, Py.index l i = Ok x /\ x ∈ l.
Proof.
  intros Hi. unfold Py.index. cbn zeta.
  destruct (Z.ltb_spec i 0) as [|_]; [lia|].
  destruct (Z.leb_spec 0 i) as [_|]; [|lia].
  destruct (Z.ltb_spec i (Z.of_nat (length l))) as [_|]; [|lia]. cbn.
  destruct (l !! Z.to_nat i) as [x|] eqn:E.
  - exists x. split; [done|]. by eapply list_elem_of_lookup_2.
  - apply lookup_ge_None in E. lia.
Qed.

Lemma value_labels_Ok labels values :
  Forall (fun k => 0 <= k < Z.of_nat (length labels)) values ->
  exists vl, value_labels labels values = Ok vl.
Proof.
  induction 1 as [|k values Hk Hall [vl IH]]; [by eexists|].
  cbn [value_labels]. destruct (index_in_range labels k Hk) as (l & -> & _).
  rewrite IH. by eexists.
Qed.

Lemma apply_len_Ok labels ordered values :
  Forall (fun k => 0 <= k < Z.of_nat (length labels)) values ->
  exists lens,
    apply_len (cells (CatCol labels ordered values)) = Ok lens
    /\ length lens = length values.
Proof.
  cbn [cells]. induction 1 as [|k values Hk Hall (lens & IH & Hlen)]; [by exists []|].
  cbn [fmap list_fmap]. unfold label at 1.
  destruct (Z.ltb_spec k 0) as [|_]; [lia|].
  destruct (labels !! Z.to_nat k) as [l|] eqn:E.
  - cbn [cell_of_label apply_len]. change (list_fmap _ _ ?f ?l) with (f <$> l).
    rewrite IH. eexists. split; [done|]. cbn. by rewrite Hlen.
  - apply lookup_ge_None in E. lia.
Qed.

Lemma complete_setitem (d : DataFrame) a c :
  complete d -> complete_column c -> complete (setitem d a c).
Proof.
  intros Hd Hc n c'. destruct (decide (a = n)) as [->|Hne].
  - rewrite getitem_setitem_eq. by intros [= <-].
  - rewrite getitem_setitem_ne by done. apply Hd.
Qed.

Lemma sav_loop_complete ns (d : DataFrame) h :
  complete d -> (forall a, a ∈ ns -> is_Some (getitem d a)) ->
  exists d' h', foldl sav_step (d, Ok h) ns = (d', Ok h').
Proof.
  revert d h. induction ns as [|a ns IH]; intros d h Hd Hsome; [by eexists _, _|].
  cbn [foldl]. destruct (Hsome a ltac:(left)) as [c Hc].
  assert (forall c', complete_column c' -> forall h1,
            exists d' h', foldl sav_step (setitem d a c', Ok h1) ns = (d', Ok h'))
    as Hnext.
  { intros c' Hc' h1. apply IH; [by apply complete_setitem|].
    intros b Hb. destruct (decide (a = b)) as [->|Hne].
    - by rewrite getitem_setitem_eq.
    - rewrite getitem_setitem_ne by done. apply Hsome. by right. }
  assert (forall h1, exists d' h', foldl sav_step (d, Ok h1) ns = (d', Ok h')) as Hsame.
  { intros h1. apply IH; [done|]. intros b Hb. apply Hsome. by right. }
  destruct (Hd a c Hc) as [Hlen Hcodes].
  unfold sav_step at 2. rewrite Hc.
  destruct c as [xs|labels [|] values|xs|xs]; try apply Hsame.
  - destruct (value_labels_Ok labels values Hcodes) as [vl ->].
    assert (0 < length labels)%nat as Hl.
    { unfold col_length in Hlen. cbn in Hlen. rewrite length_fmap in Hlen.
      destruct values as [|k values]; [done|]. apply Forall_cons in Hcodes as [? _]. lia. }
    destruct (ceil_log10_Ok _ Hl) as [w ->]. cbn [mbind result_bind].
    apply Hnext. split; [|done]. unfold col_length in *. cbn in *.
    by rewrite length_fmap in *.
  - destruct (apply_len_Ok labels false values Hcodes) as (lens & -> & Hll).
    cbn [mbind result_bind].
    assert (length values <> 0%nat) as Hv.
    { unfold col_length in Hlen. cbn in Hlen. by rewrite length_fmap in Hlen. }
    destruct lens as [|n lens]; [cbn in Hll; lia|]. cbn [py_max].
    apply Hnext. split; [|done]. unfold col_length. cbn. by rewrite !length_fmap.
Qed.

(** [df_to_sav] returns with a file for every frame that has rows and no
    missing values: every column has at least one cell and the codes of
    every categorical column point into its categories. *)
Theorem sav_is_written (df : DataFrame) :
  complete df ->
  exists d h rows, df_to_sav df = (d, Ok (SavFile h rows)).
Proof.
  intros Hc. unfold df_to_sav.
  destruct (sav_loop_complete (columns df) df (empty_header (columns df)) Hc)
    as (d & h & ->).
  - intros a Ha. destruct (getitem df a) eqn:E; [done|]. by apply getitem_None in E.
  - by eexists _, _, _.
Qed.


Lemma sav_declares_every_column_witness :
  let df := one_of_each in
  let d := (df_to_sav df).1 in
  let h := match (df_to_sav df).2 with
           | Ok (SavFile h _) => h
           | _ => empty_header []
           end in
  let rows := iterrows d in
  varNames h = columns df
  /\ columns d = columns df
  /\ length rows = nrows df
  /\ (forall row, row ∈ rows -> length row = length (columns df))
  /\ (forall n c, getitem df n = Some c ->
        getitem d n = Some (sav_column c)
        /\ measureLevels h !! n = Some (measure_level c)
        /\ (measure_level c <> "nominal" -> varTypes h !! n = Some 0)
        /\ (is_ordinal c = false ->
            valueLabels h !! n = None /\ formats h !! n = None))
  /\ (forall n, n ∉ columns df -> entries h n = (None, None, None, None)).
Proof.
  intros df d h rows.
  apply (sav_declares_every_column df d h rows);
    [refine (proj1 (bool_decide_eq_true _) _); vm_compute; reflexivity|vm_compute; reflexivity].
Defined.

Lemma sav_raises_without_rows_witness :
  (df_to_sav (groups_only [])).2 = Raise ValueError.
Proof.
  apply (sav_raises_without_rows (groups_only []) "group" ["A"; "B"] []);
    [|reflexivity].
  intros m c. unfold groups_only. cbn [getitem].
  destruct (String.eqb "group" m); [by intros [= <-]|done].
Defined.

Lemma sav_is_written_witness :
  exists d h rows, df_to_sav (groups_only [0; 1]) = (d, Ok (SavFile h rows)).
Proof.
  apply (sav_is_written (groups_only [0; 1])).
  intros m c. unfold groups_only. cbn [getitem].
  destruct (String.eqb "group" m); [intros [= <-]|done].
  split; [done|]. repeat constructor; cbn; lia.
Defined.

End WriterFacts.

(** ** The samples, continued *)

Module SampleFacts.
Import Frame FrameFacts Sampling SamplingFacts WriterFacts.

Section Facts.
Context `{Numpy}.

(** *** The shape of a sample *)

Lemma observations_length st rng l s :
  observations st rng l = Ok s -> length s = length l.
Proof.
  revert rng s. induction l as [|i l IH]; intros rng s; cbn [observations].
  - by intros [= <-].
  - destruct (get_observation st rng i) as [[obs rng']|]; cbn; [|done].
    destruct (observations st rng' l) as [rest|] eqn:E; cbn; [|done].
    intros [= <-]. cbn. by rewrite (IH _ _ E).
Qed.

Lemma record_columns_rows ncols sample cols :
  record_columns ncols sample = Ok cols ->
  Forall (fun col => length col = length sample) cols.
Proof.
  revert cols. induction sample as [|row rest IH]; intros cols; cbn [record_columns].
  - intros [= <-]. apply Forall_forall. by intros col ->%elem_of_replicate_inv.
  - destruct (length row =? ncols)%nat eqn:El; [|done].
    destruct (record_columns ncols rest) as [cs|] eqn:E; cbn; [|done].
    intros [= <-]. specialize (IH cs eq_refl). apply Nat.eqb_eq in El.
    pose proof (record_columns_length _ _ _ E) as Hlen.
    clear E. revert row El Hlen. generalize ncols.
    induction IH as [|c cs' Hc Hcs IHcs]; intros k [|x row] El Hlen; cbn; try done.
    constructor; [cbn; by rewrite Hc|].
    cbn in El, Hlen. apply (IHcs (pred k)); lia.
Qed.

Lemma astype_col_spec t vs c :
  astype_col float_of_str t vs = Ok c -> has_dtype t c /\ col_length c = length vs.
Proof.
  destruct t as [|categories ordered]; cbn [astype_col].
  - destruct (to_floats float_of_str vs) as [xs|] eqn:E; cbn; [|done].
    intros [= <-]. split; [done|]. unfold col_length. cbn. rewrite length_fmap.
    revert xs E. induction vs as [|v vs IH]; intros xs; cbn [to_floats].
    + by intros [= <-].
    + destruct (to_float float_of_str v); cbn; [|done].
      destruct (to_floats float_of_str vs) as [ys|]; cbn; [|done].
      intros [= <-]. cbn. by rewrite (IH ys).
  - intros [= <-]. split; [done|]. unfold col_length. cbn. by rewrite !length_fmap.
Qed.

Lemma astype_spec raw variables df :
  astype float_of_str raw variables = Ok df ->
  columns df = raw.*1
  /\ forall n c, (n, c) ∈ df ->
       exists vs t, (n, vs) ∈ raw
                    /\ (list_to_map variables : gmap string dtype) !! n = Some t
                    /\ astype_col float_of_str t vs = Ok c.
Proof.
  revert df. induction raw as [|[n vs] raw IH]; intros df; cbn [astype].
  - intros [= <-]. split; [done|]. by intros n c ?%elem_of_nil.
  - destruct (_ !! n) as [t|] eqn:Et; [|done].
    destruct (astype_col float_of_str t vs) as [c|] eqn:Ec; cbn; [|done].
    destruct (astype float_of_str raw variables) as [df'|] eqn:Ea; cbn; [|done].
    intros [= <-]. destruct (IH df' eq_refl) as [Hc Hall]. split.
    + unfold columns in *. cbn. by rewrite Hc.
    + intros m c' [[= -> ->]|Hin]%elem_of_cons.
      * exists vs, t. split_and!; [left|done|done].
      * destruct (Hall m c' Hin) as (vs' & t' & ? & ? & ?).
        exists vs', t'. split_and!; [by right|done|done].
Qed.

(** A sample has the declared variables as its columns, in order, one
    row for each index in [range(size)], and every variable has a column
    of its declared dtype. *)
Theorem get_sample_shape st size rng df :
  NoDup (variables st).*1 ->
  get_sample st size rng = Ok df ->
  columns df = (variables st).*1
  /\ (forall n c, getitem df n = Some c -> col_length c = Z.to_nat size)
  /\ (forall n t, (n, t) ∈ variables st ->
        exists c, getitem df n = Some c /\ has_dtype t c).
Proof.
  intros Hnd. unfold get_sample, from_records.
  destruct (observations st rng (range size)) as [sample|] eqn:Eo; cbn; [|done].
  destruct (record_columns _ sample) as [cols|] eqn:Er; cbn; [|done].
  intros Ha. apply astype_spec in Ha as [Hc Hall].
  pose proof (record_columns_length _ _ _ Er) as Hlen.
  pose proof (record_columns_rows _ _ _ Er) as Hrows.
  rewrite length_fmap in Hlen.
  assert (columns df = (variables st).*1) as Hcols.
  { rewrite Hc. apply fst_zip. rewrite length_fmap. lia. }
  assert (forall n c, getitem df n = Some c ->
            col_length c = Z.to_nat size
            /\ exists t, (list_to_map (variables st) : gmap string dtype) !! n = Some t
                         /\ has_dtype t c) as Hcol.
  { intros n c Hg%getitem_Some_elem. destruct (Hall n c Hg) as (vs & t & Hin & Ht & Hcol).
    apply astype_col_spec in Hcol as [Hd Hl]. split; [|by exists t].
    rewrite Hl. apply elem_of_zip_r in Hin.
    rewrite Forall_forall in Hrows. rewrite (Hrows vs Hin).
    by rewrite (observations_length _ _ _ _ Eo), length_range. }
  split_and!; [done|intros n c Hg; by destruct (Hcol n c Hg)|].
  intros n t Hin. destruct (getitem df n) as [c|] eqn:Eg.
  - exists c. split; [done|]. destruct (Hcol n c Eg) as [_ (t' & Ht' & Hd)].
    apply (elem_of_list_to_map_1 (M := gmap string)) in Hin; [|done]. congruence.
  - apply getitem_None in Eg. destruct Eg. rewrite Hcols.
    apply list_elem_of_fmap. by exists (n, t).
Qed.

(** *** A sample without rows *)

Lemma range_nonpos size : size <= 0 -> range size = [].
Proof. intros Hs. unfold range. by replace (Z.to_nat size) with 0%nat by lia. Qed.

Lemma astype_without_rows (decl variables : list (string * dtype)) :
  NoDup variables.*1 -> decl ⊆ variables ->
  astype float_of_str (zip decl.*1 (replicate (length decl) [])) variables
  = Ok ((fun nt => (nt.1, empty_column nt.2)) <$> decl).
Proof.
  intros Hnd. induction decl as [|[n t] decl IH]; intros Hsub; [done|].
  cbn [fmap list_fmap length replicate zip zip_with fst astype].
  rewrite (elem_of_list_to_map_1 (M := gmap string) variables n t Hnd)
    by (apply Hsub; left).
  rewrite IH by (intros x Hx; apply Hsub; by right).
  by destruct t.
Qed.

(** For a size of zero or less, [range(size)] is empty: the sample has
    the declared columns with their dtypes and no rows, and no
    observation is drawn. *)
Theorem get_sample_without_rows st size rng :
  size <= 0 ->
  NoDup (variables st).*1 ->
  get_sample st size rng
  = Ok ((fun nt => (nt.1, empty_column nt.2)) <$> variables st).
Proof.
  intros Hs Hnd. unfold get_sample, from_records. rewrite (range_nonpos _ Hs).
  cbn [observations]. cbn. rewrite length_fmap.
  by apply astype_without_rows.
Qed.

(** *** The two-group study *)

Lemma twosample_draw d rng i :
  get_observation (TwoSample d) rng i
  = let '(x, rng') := normal 0 1 rng in
    Ok ([VStr (group_of i); VFloat (effect d i x)], rng').
Proof.
  unfold TwoSample, group_of, effect. cbn [get_observation].
  destruct (normal 0 1 rng) as [x rng'].
  pose proof (Z.mod_pos_bound i 2 ltac:(lia)) as Hb.
  remember (i mod 2) as gi eqn:Egi. clear Egi.
  assert (gi = 0 \/ gi = 1) as [-> | ->] by lia; done.
Qed.

Lemma twosample_draws d rng indices :
  observations (TwoSample d) rng indices
  = Ok (zip_with (fun i x => [VStr (group_of i); VFloat (effect d i x)]) indices
          (draws (length indices) rng)).
Proof.
  revert rng. induction indices as [|i indices IH]; intros rng; [done|].
  cbn [observations length draws]. rewrite twosample_draw.
  destruct (normal 0 1 rng) as [x rng']. cbn. by rewrite IH.
Qed.

Lemma length_draws n rng : length (draws n rng) = n.
Proof.
  revert rng. induction n as [|n IH]; intros rng; [done|]. cbn [draws].
  destruct (normal 0 1 rng) as [x rng']. cbn. by rewrite IH.
Qed.

Lemma zip_effect d (l : list Z) (xs : list float) :
  zip_with (fun i x => [VStr (group_of i); VFloat (effect d i x)]) l xs
  = zip_with (fun i x => [VStr (group_of i); VFloat x]) l (zip_with (effect d) l xs).
Proof.
  revert xs. induction l as [|i l IH]; intros [|x xs]; cbn; try done. by rewrite IH.
Qed.

(** The sample of the two-group study: the group of row [i] is A for an
    even and B for an odd [i], and its [x] is the [i]-th standard normal
    draw of the generator, with [d] added in the rows of group B only.
    The draws do not depend on [d]. *)
Theorem twosample_adds_effect_to_B d size rng :
  get_sample (TwoSample d) size rng
  = Ok [("group", CatCol ["A"; "B"] false ((fun i => i mod 2) <$> range size));
        ("x", FloatCol (zip_with (effect d) (range size)
                          (draws (Z.to_nat size) rng)))].
Proof.
  unfold get_sample, from_records. rewrite twosample_draws, length_range. cbn.
  set (xs := draws (Z.to_nat size) rng).
  assert (length xs = length (range size)) as Hlen
    by (unfold xs; by rewrite length_draws, length_range).
  rewrite zip_effect.
  rewrite twosample_records by (by rewrite length_zip_with; lia). cbn.
  rewrite lookup_insert_eq, lookup_insert_ne, lookup_insert_eq by done.
  cbn. rewrite to_floats_VFloat. cbn. do 4 f_equal.
  rewrite <- list_fmap_compose. apply list_fmap_ext. intros _ i _. apply group_code.
Qed.


Lemma getitem_is_column (df : DataFrame) a : a ∈ columns df -> is_Some (getitem df a).
Proof. intros Ha. destruct (getitem df a) eqn:E; [done|]. by apply getitem_None in E. Qed.

(** The two-group sample can be handed to [df_to_sav] exactly when it
    has a row: for a positive size the writer is reached with one row for
    each observation, for a size of zero or less [df_to_sav] raises
    [ValueError]. *)
Theorem twosample_sav_needs_a_row d size rng :
  exists df,
    get_sample (TwoSample d) size rng = Ok df
    /\ (0 < size ->
        exists d' h rows,
          df_to_sav df = (d', Ok (SavFile h rows))
          /\ length rows = Z.to_nat size)
    /\ (size <= 0 -> (df_to_sav df).2 = Raise ValueError).
Proof.
  destruct (twosample_sample d size rng) as (xs & Hxs & Hdf).
  eexists. split; [exact Hdf|].
  match type of Hdf with _ = Ok ?d => set (df := d) end.
  assert (forall n c, getitem df n = Some c -> col_length c = Z.to_nat size) as Hlen.
  { intros n c. unfold df, col_length. cbn [getitem].
    repeat (destruct (String.eqb _ n);
            [intros [= <-]; cbn; by rewrite ?length_fmap, ?length_range|]).
    done. }
  split.
  - intros Hs.
    destruct (sav_loop_complete (columns df) df (empty_header (columns df)))
      as (d' & h & Hloop); [|apply getitem_is_column|].
    + intros n c Hc. split; [rewrite (Hlen n c Hc); lia|].
      revert Hc. unfold df. cbn [getitem].
      destruct (String.eqb _ n); [intros [= <-]|].
      * apply Forall_forall. intros k (i & -> & _)%list_elem_of_fmap.
        pose proof (Z.mod_pos_bound i 2 ltac:(lia)). cbn. lia.
      * destruct (String.eqb _ n); [by intros [= <-]|done].
    + unfold df_to_sav. rewrite Hloop. eexists _, _, _. split; [done|].
      destruct (sav_loop_shape _ _ _ _ _ Hloop) as (_ & Hr & _).
      rewrite (proj1 (length_iterrows d')), Hr. unfold df, nrows, col_length. cbn.
      by rewrite !length_fmap, length_range.
  - intros Hs.
    destruct (sav_loop_without_rows (columns df) df (empty_header (columns df)))
      as [Hr|Hno].
    + intros n c Hc. rewrite (Hlen n c Hc). lia.
    + apply getitem_is_column.
    + unfold df_to_sav. destruct (foldl sav_step _ _) as [d' [h|e]]; cbn in *; congruence.
    + exfalso. apply (Hno "group" _ eq_refl eq_refl). unfold df, columns. cbn. left.
Qed.


(** *** The levels study *)

Section Contract.

(** What numpy documents for [integers] and [choice]: a value from
    [0] up to, not including, the bound. *)
Hypothesis integers_range :
  forall n rng, 0 < n -> 0 <= (integers n rng).1 < n.
Hypothesis choice_range :
  forall n p rng, 0 < n -> 0 <= (choice n p rng).1 < n.

Lemma levels_observation rng i :
  match get_observation Levels rng i with
  | Ok (obs, _) => levels_row obs
  | Raise _ => False
  end.
Proof.
  unfold Levels. cbn [get_observation].
  repeat first
    [ match goal with
      | |- context [Py.index ?l ?i] =>
          let H := fresh "Hin" in
          destruct (index_in_range l i ltac:(cbn; lia)) as (? & -> & H);
          cbn [mbind result_bind]
      end
    | match goal with
      | |- context [choice ?n ?p ?g] =>
          let H := fresh "Hch" in
          pose proof (choice_range n p g ltac:(cbn; lia)) as H;
          destruct (choice n p g) as [? ?]; cbn in H
      end
    | match goal with
      | |- context [integers ?n ?g] =>
          let H := fresh "Hint" in
          pose proof (integers_range n g ltac:(cbn; lia)) as H;
          destruct (integers n g) as [? ?]; cbn in H
      end
    | match goal with
      | |- context [let '(_, _) := ?x in _] => destruct x as [? ?]
      end ].
  done.
Qed.

Lemma levels_observations rng l :
  exists sample,
    observations Levels rng l = Ok sample /\ Forall levels_row sample.
Proof.
  revert rng. induction l as [|i l IH]; intros rng; [by exists []|].
  cbn [observations]. pose proof (levels_observation rng i) as Hobs.
  destruct (get_observation Levels rng i) as [[obs rng']|]; [|done].
  destruct (IH rng') as (sample & Hs & Hall). exists (obs :: sample).
  cbn. rewrite Hs. split; [done|]. by constructor.
Qed.

(** The rows of a sample of the levels study, column by column. *)
Lemma levels_records sample :
  Forall levels_row sample ->
  exists ss hs cs xs,
    record_columns 4 sample = Ok [VStr <$> ss; VStr <$> hs; VStr <$> cs; VFloat <$> xs]
    /\ length ss = length sample /\ length hs = length sample
    /\ length cs = length sample /\ length xs = length sample
    /\ Forall (.∈ ["female"; "male"]) ss
    /\ Forall (.∈ ["very unhappy"; "unhappy"; "neutral"; "happy"; "very happy"]) hs
    /\ Forall (.∈ ["red"; "orange"; "yellow"; "green"; "blue"; "purple";
                   "black"; "white"; "grey"; "brown"]) cs.
Proof.
  induction 1 as [|obs sample Hrow Hall (ss & hs & cs & xs & Hrec & IH)].
  - by exists [], [], [], [].
  - destruct obs as [|[|s] [|[|h] [|[|c] [|[x|] [|]]]]]; try done.
    destruct Hrow as (Hs & Hh & Hc).
    destruct IH as (L1 & L2 & L3 & L4 & F1 & F2 & F3).
    exists (s :: ss), (h :: hs), (c :: cs), (x :: xs).
    cbn [record_columns length Nat.eqb]. rewrite Hrec. cbn.
    rewrite L1, L2, L3, L4. split_and!; try done; by constructor.
Qed.

Lemma index_of_member categories s k :
  s ∈ categories ->
  k <= index_of categories s k < k + Z.of_nat (length categories).
Proof.
  revert k. induction categories as [|c categories IH]; intros k Hin;
    [by apply elem_of_nil in Hin|].
  cbn [index_of length]. destruct (String.eqb_spec c s) as [->|Hne]; [lia|].
  apply elem_of_cons in Hin as [->|Hin]; [done|].
  specialize (IH (k + 1) Hin). lia.
Qed.

Lemma codes_of_members categories ss :
  Forall (.∈ categories) ss ->
  Forall (fun k => 0 <= k < Z.of_nat (length categories))
    (to_code categories <$> (VStr <$> ss)).
Proof.
  induction 1 as [|s ss Hs Hall IH]; [constructor|].
  cbn. constructor; [|done]. pose proof (index_of_member categories s 0 Hs). lia.
Qed.

(** The sample of the levels study, for any size. *)
Lemma levels_sample size rng :
  exists ss hs cs xs,
    get_sample Levels size rng
    = Ok [("sex", CatCol ["female"; "male"] false
                    (to_code ["female"; "male"] <$> (VStr <$> ss)));
          ("happiness",
           CatCol ["very unhappy"; "unhappy"; "neutral"; "happy"; "very happy"] true
             (to_code ["very unhappy"; "unhappy"; "neutral"; "happy"; "very happy"]
                <$> (VStr <$> hs)));
          ("colour",
           CatCol ["red"; "orange"; "yellow"; "green"; "blue"; "purple";
                   "black"; "white"; "grey"; "brown"] false
             (to_code ["red"; "orange"; "yellow"; "green"; "blue"; "purple";
                       "black"; "white"; "grey"; "brown"] <$> (VStr <$> cs)));
          ("height", FloatCol xs)]
    /\ length ss = Z.to_nat size /\ length hs = Z.to_nat size
    /\ length cs = Z.to_nat size /\ length xs = Z.to_nat size
    /\ Forall (.∈ ["female"; "male"]) ss
    /\ Forall (.∈ ["very unhappy"; "unhappy"; "neutral"; "happy"; "very happy"]) hs
    /\ Forall (.∈ ["red"; "orange"; "yellow"; "green"; "blue"; "purple";
                   "black"; "white"; "grey"; "brown"]) cs.
Proof.
  destruct (levels_observations rng (range size)) as (sample & Hobs & Hrows).
  destruct (levels_records sample Hrows)
    as (ss & hs & cs & xs & Hrec & L1 & L2 & L3 & L4 & F1 & F2 & F3).
  pose proof (observations_length _ _ _ _ Hobs) as Hlen. rewrite length_range in Hlen.
  exists ss, hs, cs, xs. rewrite L1, L2, L3, L4, Hlen. split_and!; try done.
  unfold get_sample, from_records. rewrite Hobs. cbn [mbind result_bind].
  change (length (variables Levels).*1) with 4%nat. rewrite Hrec.
  cbn [mbind result_bind]. unfold Levels at 1 2. cbn [variables fmap list_fmap fst zip zip_with].
  cbn [astype].
  repeat match goal with
  | |- context [@lookup _ _ (gmap string dtype) _ ?k ?m] =>
      let v := eval vm_compute in (m !! k) in
      replace (m !! k) with v by (vm_compute; reflexivity)
  end.
  cbn [astype_col mbind result_bind]. by rewrite to_floats_VFloat.
Qed.


(** With a generator that keeps to numpy's bounds, sampling the levels
    study never raises and leaves no missing value: every code of a
    categorical column points into the categories.  [df_to_sav] then
    reaches the writer when the sample has a row, and raises
    [ValueError] when it has none. *)
Theorem levels_never_raises size rng :
  exists df,
    get_sample Levels size rng = Ok df
    /\ (forall n labels ordered codes,
          getitem df n = Some (CatCol labels ordered codes) ->
          Forall (fun k => 0 <= k < Z.of_nat (length labels)) codes)
    /\ (0 < size -> exists d h rows, df_to_sav df = (d, Ok (SavFile h rows)))
    /\ (size <= 0 -> (df_to_sav df).2 = Raise ValueError).
Proof.
  destruct (levels_sample size rng)
    as (ss & hs & cs & xs & Hdf & L1 & L2 & L3 & L4 & F1 & F2 & F3).
  eexists. split; [exact Hdf|].
  match type of Hdf with _ = Ok ?d => set (df := d) end.
  assert (forall n c, getitem df n = Some c -> col_length c = Z.to_nat size) as Hlen.
  { intros n c. unfold df, col_length. cbn [getitem].
    repeat (destruct (String.eqb _ n); [intros [= <-]; cbn; by rewrite ?length_fmap|]).
    done. }
  assert (forall n labels ordered codes,
            getitem df n = Some (CatCol labels ordered codes) ->
            Forall (fun k => 0 <= k < Z.of_nat (length labels)) codes) as Hcodes.
  { intros n labels ordered codes. unfold df. cbn [getitem].
    repeat (destruct (String.eqb _ n);
            [intros [= <- <- <-] || intros [=]; by apply codes_of_members|]).
    done. }
  split_and!; [done| |].
  - intros Hs. unfold df_to_sav.
    destruct (sav_loop_complete (columns df) df (empty_header (columns df)))
      as (d & h & ->); [|apply getitem_is_column|by eexists _, _, _].
    intros n c Hc. split; [rewrite (Hlen n c Hc); lia|].
    destruct c; try done. by eapply Hcodes.
  - intros Hs.
    destruct (sav_loop_without_rows (columns df) df (empty_header (columns df)))
      as [Hr|Hno].
    + intros n c Hc. rewrite (Hlen n c Hc). lia.
    + apply getitem_is_column.
    + unfold df_to_sav. destruct (foldl sav_step _ _) as [d [h|e]]; cbn in *; congruence.
    + exfalso. apply (Hno "sex" _ eq_refl eq_refl). unfold df, columns. cbn. left.
Qed.


End Contract.


End Facts.

Lemma get_sample_shape_witness :
  let df := match get_sample (H := Toy.numpy) Levels 3 7 with
            | Ok df => df
            | Raise _ => []
            end in
  columns df = (variables (H := Toy.numpy) Levels).*1
  /\ (forall n c, getitem df n = Some c -> col_length c = Z.to_nat 3)
  /\ (forall n t, (n, t) ∈ variables (H := Toy.numpy) Levels ->
        exists c, getitem df n = Some c /\ has_dtype t c).
Proof.
  intros df.
  apply (get_sample_shape (H := Toy.numpy) Levels 3 7 df);
    [refine (proj1 (bool_decide_eq_true _) _); vm_compute; reflexivity|vm_compute; reflexivity].
Defined.

Lemma get_sample_without_rows_witness :
  get_sample (H := Toy.numpy) Levels (-5) 7
  = Ok ((fun nt => (nt.1, empty_column nt.2)) <$> variables (H := Toy.numpy) Levels).
Proof.
  apply (get_sample_without_rows (H := Toy.numpy) Levels (-5) 7);
    [lia|refine (proj1 (bool_decide_eq_true _) _); vm_compute; reflexivity].
Defined.

Lemma levels_never_raises_witness :
  exists df,
    get_sample (H := Toy.numpy) Levels 3 7 = Ok df
    /\ (forall n labels ordered codes,
          getitem df n = Some (CatCol labels ordered codes) ->
          Forall (fun k => 0 <= k < Z.of_nat (length labels)) codes)
    /\ (0 < 3 -> exists d h rows, df_to_sav df = (d, Ok (SavFile h rows)))
    /\ (3 <= 0 -> (df_to_sav df).2 = Raise ValueError).
Proof.
  apply (levels_never_raises (H := Toy.numpy)).
  - intros n rng Hn. cbn. apply Z.mod_pos_bound. lia.
  - intros n p rng Hn. cbn. apply Z.mod_pos_bound. lia.
Defined.

End SampleFacts.

(** ** Frames without categorical columns *)

Module PlainFacts.
Import Frame FrameFacts Cache Sampling SamplingFacts ProcessFacts WriterFacts SampleFacts.

Lemma sav_loop_plain_frame ns (d : DataFrame) h :
  plain d -> (forall a, a ∈ ns -> is_Some (getitem d a)) ->
  exists h',
    foldl sav_step (d, Ok h) ns = (d, Ok h')
    /\ varNames h' = varNames h
    /\ (forall n, n ∈ ns -> entries h' n = (Some 0, valueLabels h !! n, Some "scale",
                                             formats h !! n))
    /\ (forall n, n ∉ ns -> entries h' n = entries h n).
Proof.
  revert h. induction ns as [|a ns IH]; intros h Hp Hsome.
  { exists h. split_and!; [done..| |done]. by intros n ?%elem_of_nil. }
  cbn [foldl]. destruct (Hsome a ltac:(left)) as [c Hc].
  pose proof (Hp a c Hc) as Hplain.
  set (h1 := {| varNames := varNames h; varTypes := <[a:=0]> (varTypes h);
                valueLabels := valueLabels h;
                measureLevels := <[a:="scale"]> (measureLevels h);
                formats := formats h |}).
  assert (sav_step (d, Ok h) a = (d, Ok h1)) as ->.
  { unfold sav_step. rewrite Hc. by destruct c. }
  destruct (IH h1 Hp ltac:(intros; apply Hsome; by right)) as (h' & -> & Hv & Hin & Hout).
  exists h'. split_and!; [done|done| |].
  - intros n Hn. destruct (decide (n ∈ ns)) as [Hns|Hns]; [by rewrite (Hin n Hns)|].
    apply elem_of_cons in Hn as [->|?]; [|done]. rewrite (Hout a Hns).
    unfold entries, h1. cbn. by rewrite !lookup_insert_eq.
  - intros n [Hna Hns]%not_elem_of_cons. rewrite (Hout n Hns).
    unfold entries, h1. cbn. by rewrite !lookup_insert_ne.
Qed.

(** The writers edit categorical columns only: a frame without
    categorical columns is left as it was by [df_to_csv], [df_to_xlsx]
    and [df_to_sav], which hand the frame itself to their encoders;
    [df_to_sav] declares every column as a numeric scale variable and
    reaches the writer also when the frame has no rows. *)
Theorem writers_keep_plain_frames (df : DataFrame) :
  plain df ->
  df_to_csv df = (df, CsvFile df)
  /\ df_to_xlsx df = (df, ExcelFile df)
  /\ exists h,
      df_to_sav df = (df, Ok (SavFile h (iterrows df)))
      /\ varNames h = columns df
      /\ forall n, n ∈ columns df ->
           entries h n = (Some 0, None, Some "scale", None).
Proof.
  intros Hp.
  assert (foldl codes_step df (columns df) = df) as Hcodes.
  { apply codes_loop_id. intros n c Hc. specialize (Hp n c Hc). by destruct c. }
  split_and!.
  - unfold df_to_csv. by rewrite Hcodes.
  - unfold df_to_xlsx. by rewrite Hcodes.
  - destruct (sav_loop_plain_frame (columns df) df (empty_header (columns df)) Hp)
      as (h & Hloop & Hv & Hin & _); [apply getitem_is_column|].
    exists h. unfold df_to_sav. rewrite Hloop. split_and!; [done|done|].
    intros n Hn. by rewrite (Hin n Hn).
Qed.

Lemma writers_keep_plain_frames_witness :
  let df := two_floats in
  df_to_csv df = (df, CsvFile df)
  /\ df_to_xlsx df = (df, ExcelFile df)
  /\ exists h,
      df_to_sav df = (df, Ok (SavFile h (iterrows df)))
      /\ varNames h = columns df
      /\ forall n, n ∈ columns df ->
           entries h n = (Some 0, None, Some "scale", None).
Proof.
  intros df. apply (writers_keep_plain_frames df).
  intros n c. unfold df, two_floats. cbn [getitem].
  repeat (destruct (String.eqb _ n); [by intros [= <-]|]). done.
Defined.

(** *** The memoised frame of a plain sample *)

Section PlainMemo.
Context `{Numpy}.
Variable simon_mu : list float.
Variable simon_Sigma : list (list float).
Variables (study : string) (size sid : Z).

Local Abbreviation k := (study, size, sid).
Local Abbreviation pipeline := (sample_of simon_mu simon_Sigma study size sid).
Local Abbreviation memo_ok := (Sampling.memo_ok simon_mu simon_Sigma study size sid).
Local Abbreviation holds_entry :=
  (Sampling.holds_entry simon_mu simon_Sigma study size sid).

Hypothesis plain_sample : forall df, pipeline = Ok df -> plain df.

Lemma sav_keeps_plain (df : DataFrame) : plain df -> (df_to_sav df).1 = df.
Proof.
  intros Hp.
  destruct (sav_loop_plain_frame (columns df) df (empty_header (columns df)) Hp)
    as (h & Hloop & _); [apply getitem_is_column|].
  unfold df_to_sav. by rewrite Hloop.
Qed.

Lemma codes_keep_plain (df : DataFrame) :
  plain df -> foldl codes_step df (columns df) = df.
Proof.
  intros Hp. apply codes_loop_id. intros n c Hc. specialize (Hp n c Hc). by destruct c.
Qed.

(** A writer that leaves plain frames alone keeps the table in order. *)
Lemma write_plain_ok writer loc p k' w :
  (forall df, plain df -> (writer df).1 = df) ->
  holds_entry k' loc w -> holds_entry k' loc (write writer loc p w).1.
Proof.
  intros Hkeep [[Hb Hi Hv] Hin]. unfold write.
  destruct (heap w !! loc) as [df|] eqn:El; [|done].
  assert (forall l, (k, l) ∈ memo w ->
            exists d, <[loc := (writer df).1]> (heap w) !! l = Some d
                      /\ pipeline = Ok d) as Hv'.
  { intros l Hl. destruct (Hv l Hl) as (d & Hd & Hp). exists d. split; [|done].
    destruct (decide (l = loc)) as [->|Hne].
    - assert (d = df) as -> by congruence.
      rewrite (Hkeep df (plain_sample df Hp)). by rewrite list_insert_id.
    - by rewrite list_lookup_insert_ne. }
  destruct (writer df) as [df' [f|e]]; cbn [fst] in Hv';
    (split; [split|]; cbn [fst heap memo files];
     [intros ? ? ?; rewrite length_insert; by eapply Hb|done|done|done]).
Qed.

Lemma serve_plain_ok c w :
  memo_ok w -> memo_ok (serve simon_mu simon_Sigma w c).
Proof.
  intros Hw. destruct c as [study' size' sid'|study' size' format sid' p s]; cbn [serve].
  - by apply get_study_sample_ok.
  - unfold create_data_file, bind at 1.
    destruct (get_study_sample_ok simon_mu simon_Sigma study size sid study' size' sid' w Hw)
      as (Hw1 & _ & Hloc).
    destruct (get_study_sample _ _ _ _ _ w) as [w1 [loc|e]]; cbn [fst snd] in *; [|done].
    specialize (Hloc loc eq_refl).
    cut (holds_entry (study', size', sid') loc
           (bind (when (String.eqb format "csv") (write (total df_to_csv) loc p)) (fun _ =>
            bind (when (String.eqb format "xlsx") (write (total df_to_xlsx) loc p)) (fun _ =>
            bind (when (String.eqb format "dta") (write to_stata loc p)) (fun _ =>
            bind (when (String.eqb format "sav") (write df_to_sav loc p)) (fun _ =>
            unlink_file s)))) w1).1); [by intros [? _]|].
    apply (bind_keeps (holds_entry (study', size', sid') loc)); [done| |intros _].
    { intros w' Hw'. apply when_keeps; [done|intros _ w''].
      apply write_plain_ok. intros df Hp. cbn. by apply codes_keep_plain. }
    intros w' Hw'. apply (bind_keeps (holds_entry (study', size', sid') loc));
      [done| |intros _]; clear w' Hw'.
    { intros w' Hw'. apply when_keeps; [done|intros _ w''].
      apply write_plain_ok. intros df Hp. cbn. by apply codes_keep_plain. }
    intros w' Hw'. apply (bind_keeps (holds_entry (study', size', sid') loc));
      [done| |intros _]; clear w' Hw'.
    { intros w' Hw'. apply when_keeps; [done|intros _ w''].
      apply write_plain_ok. intros df _. apply FrameFacts.to_stata_keeps. }
    intros w' Hw'. apply (bind_keeps (holds_entry (study', size', sid') loc));
      [done| |intros _]; clear w' Hw'.
    { intros w' Hw'. apply when_keeps; [done|intros _ w''].
      apply write_plain_ok. apply sav_keeps_plain. }
    apply unlink_file_ok.
Qed.

(** For a key whose sample has no categorical column, as for the Simon
    task, no writer changes the memoised frame: after whatever calls the
    process has served, in whatever formats, [get_study_sample] hands out
    the sample its key determines. *)
Theorem plain_sample_is_never_edited fs0 h :
  sampled simon_mu simon_Sigma study size sid (after simon_mu simon_Sigma fs0 h)
  = pipeline.
Proof.
  apply memo_ok_sampled. unfold after.
  pose proof (start_ok simon_mu simon_Sigma study size sid fs0) as H0.
  revert H0. generalize (start fs0) as w.
  induction h as [|c h IH]; intros w Hw; cbn [foldl]; [done|].
  apply IH. by apply serve_plain_ok.
Qed.

End PlainMemo.

(** *** The Simon task *)

Section Simon.
Context `{Numpy}.
Variable simon_mu : list float.
Variable simon_Sigma : list (list float).

(** A draw of [multivariate_normal] has the dimension of the mean. *)
Hypothesis draw_dimension :
  forall mu Sigma rng, length (multivariate_normal mu Sigma rng).1 = length mu.

Lemma simon_observation rng i :
  get_observation (Simon simon_mu simon_Sigma) rng i
  = let '(x, rng') := multivariate_normal simon_mu simon_Sigma rng in
    Ok (VFloat <$> x, rng').
Proof. done. Qed.

Lemma simon_observations rng l :
  exists sample,
    observations (Simon simon_mu simon_Sigma) rng l = Ok sample
    /\ length sample = length l
    /\ Forall (fun obs => exists x, obs = VFloat <$> x /\ length x = length simon_mu)
         sample.
Proof.
  revert rng. induction l as [|i l IH]; intros rng; [by exists []|].
  cbn [observations]. rewrite simon_observation.
  pose proof (draw_dimension simon_mu simon_Sigma rng) as Hd.
  destruct (multivariate_normal simon_mu simon_Sigma rng) as [x rng']. cbn [fst] in Hd.
  cbn [mbind result_bind]. destruct (IH rng') as (sample & Hs & Hlen & Hall).
  rewrite Hs. exists ((VFloat <$> x) :: sample). cbn. rewrite Hlen. split_and!; [done..|].
  constructor; [by exists x|done].
Qed.

Lemma simon_records sample :
  Forall simon_row sample ->
  exists c1 c2 c3 c4,
    record_columns 4 sample
    = Ok [VFloat <$> c1; VFloat <$> c2; VFloat <$> c3; VFloat <$> c4]
    /\ length c1 = length sample /\ length c2 = length sample
    /\ length c3 = length sample /\ length c4 = length sample.
Proof.
  induction 1 as [|obs sample Hrow Hall (c1 & c2 & c3 & c4 & Hrec & L1 & L2 & L3 & L4)].
  - by exists [], [], [], [].
  - destruct Hrow as (x & -> & Hx).
    destruct x as [|x1 [|x2 [|x3 [|x4 [|]]]]]; try done.
    exists (x1 :: c1), (x2 :: c2), (x3 :: c3), (x4 :: c4).
    cbn [record_columns length fmap list_fmap Nat.eqb]. rewrite Hrec. cbn.
    by rewrite L1, L2, L3, L4.
Qed.

(** With draws of the dimension of the mean: when the mean estimated
    from the data has four entries, sampling the Simon task never raises
    and gives four float columns with one row for each observation, no
    column being categorical; with a mean of another dimension every
    sample with a row raises [ValueError] in [from_records]. *)
Theorem simon_has_four_floats size rng :
  (length simon_mu = 4%nat ->
   exists c1 c2 c3 c4,
     get_sample (Simon simon_mu simon_Sigma) size rng
     = Ok [("session1_congruent", FloatCol c1);
           ("session1_incongruent", FloatCol c2);
           ("session2_congruent", FloatCol c3);
           ("session2_incongruent", FloatCol c4)]
     /\ length c1 = Z.to_nat size /\ length c2 = Z.to_nat size
     /\ length c3 = Z.to_nat size /\ length c4 = Z.to_nat size)
  /\ (length simon_mu <> 4%nat -> 0 < size ->
      get_sample (Simon simon_mu simon_Sigma) size rng = Raise ValueError).
Proof.
  destruct (simon_observations rng (range size)) as (sample & Hobs & Hlen & Hall).
  rewrite length_range in Hlen. split.
  - intros Hmu.
    destruct (simon_records sample) as (c1 & c2 & c3 & c4 & Hrec & L1 & L2 & L3 & L4).
    { eapply Forall_impl; [exact Hall|]. intros obs (x & -> & Hx). exists x.
      split; [done|congruence]. }
    exists c1, c2, c3, c4. rewrite L1, L2, L3, L4, Hlen. split_and!; try done.
    unfold get_sample, from_records. rewrite Hobs. cbn [mbind result_bind].
    change (length (variables (Simon simon_mu simon_Sigma)).*1) with 4%nat.
    rewrite Hrec. cbn [mbind result_bind]. unfold Simon at 1 2.
    cbn [variables fmap list_fmap fst zip zip_with]. cbn [astype].
    repeat match goal with
    | |- context [@lookup _ _ (gmap string dtype) _ ?k ?m] =>
        let v := eval vm_compute in (m !! k) in
        replace (m !! k) with v by (vm_compute; reflexivity)
    end.
    cbn [astype_col mbind result_bind]. by rewrite !to_floats_VFloat.
  - intros Hmu Hs. unfold get_sample, from_records. rewrite Hobs. cbn [mbind result_bind].
    change (length (variables (Simon simon_mu simon_Sigma)).*1) with 4%nat.
    destruct sample as [|obs sample]; [cbn in Hlen; lia|].
    apply Forall_cons in Hall as [(x & -> & Hx) _]. cbn [record_columns].
    rewrite length_fmap, Hx. by destruct (Nat.eqb_spec (length simon_mu) 4).
Qed.

End Simon.

Lemma plain_sample_is_never_edited_witness :
  let h := [CreateDataFile "simon" 2 "csv" 7 "tykhe_simon_2_7.csv"
              "creating-tykhe_simon_2_7.csv";
            CreateDataFile "simon" 2 "sav" 7 "tykhe_simon_2_7.sav"
              "creating-tykhe_simon_2_7.sav"] in
  sampled (H := Toy.numpy) [1; 2; 3; 4]%float [] "simon" 2 7
    (after (H := Toy.numpy) [1; 2; 3; 4]%float [] ∅ h)
  = sample_of (H := Toy.numpy) [1; 2; 3; 4]%float [] "simon" 2 7.
Proof.
  intros h.
  apply (plain_sample_is_never_edited (H := Toy.numpy) [1; 2; 3; 4]%float [] "simon" 2 7).
  intros df Hdf. vm_compute in Hdf. injection Hdf as <-.
  intros n c. cbn [getitem].
  repeat (destruct (String.eqb _ n); [by intros [= <-]|]). done.
Defined.

Lemma simon_has_four_floats_witness :
  (length [1; 2; 3; 4]%float = 4%nat ->
   exists c1 c2 c3 c4,
     get_sample (H := Toy.numpy) (Simon [1; 2; 3; 4]%float []) 2 7
     = Ok [("session1_congruent", FloatCol c1);
           ("session1_incongruent", FloatCol c2);
           ("session2_congruent", FloatCol c3);
           ("session2_incongruent", FloatCol c4)]
     /\ length c1 = Z.to_nat 2 /\ length c2 = Z.to_nat 2
     /\ length c3 = Z.to_nat 2 /\ length c4 = Z.to_nat 2)
  /\ (length [1; 2; 3; 4]%float <> 4%nat -> 0 < 2 ->
      get_sample (H := Toy.numpy) (Simon [1; 2; 3; 4]%float []) 2 7 = Raise ValueError).
Proof.
  apply (simon_has_four_floats (H := Toy.numpy) [1; 2; 3; 4]%float []).
  intros mu Sigma rng. cbn. by rewrite length_fmap.
Defined.

End PlainFacts.

(** ** Sentinels that stay *)

Module LeakFacts.
Import Frame Cache CacheFacts.

#[local] Arguments signal_of : simpl never.
#[local] Arguments filename : simpl never.

Section Leak.
Variable r0 : request.
Local Abbreviation name := (filename r0).
Local Abbreviation sig := (signal_of (filename r0)).

Lemma tstep_held c i t fs' t' sp :
  held name c ->
  threads c !! i = Some t ->
  tstep (threads c) (fs c) t fs' t' sp ->
  held name {| fs := fs'; threads := <[i := t']> (threads c) ++ option_list sp |}.
Proof.
  intros [Hheld Hwork] Hi Hstep. split; cbn [fs threads].
  2: { intros j a pc Hj.
       destruct (lookup_step _ _ _ _ _ _ _ Hi Hj) as [[-> Ht]|[[Hne Hold]|[-> Hs]]].
       - subst t'. inversion Hstep; subst; by eapply Hwork.
       - by eapply Hwork.
       - destruct Hstep; try done. injection Hs as <- <-. by exists r. }
  intros Hsig.
  pose proof (lookup_lt_Some _ _ _ Hi) as Hlt.
  assert (holds sig t' = true ->
          exists j x, (<[i := t']> (threads c) ++ option_list sp) !! j = Some x
                      /\ holds sig x = true) as Hself.
  { intros Ht. exists i, t'. split; [|done].
    apply lookup_app_l_Some. by rewrite list_lookup_insert_eq. }
  assert (isfile sig (fs c) = true -> holds sig t = false ->
          exists j x, (<[i := t']> (threads c) ++ option_list sp) !! j = Some x
                      /\ holds sig x = true) as Hother.
  { intros Hf Ht. destruct (Hheld Hf) as (j & x & Hj & Hx).
    exists j, x. split; [|done]. apply lookup_app_l_Some.
    rewrite list_lookup_insert_ne; [done|]. intros ->. congruence. }
  destruct (holds sig t) eqn:Ht.
  - (* the holder moves *)
    destruct Hstep; cbn [holds] in Ht; try done;
      try (apply Hself; cbn [holds]; done).
    + apply String.eqb_eq in Ht. rewrite isfile_delete, Ht, decide_True in Hsig; done.
    + apply String.eqb_eq in Ht. rewrite Ht in H. congruence.
    + exists (length (threads c)), (Worker {| a_study := r_study r; a_size := size;
                                               a_format := r_format r; a_sid := sid;
                                               a_pathname := pathname r;
                                               a_signalname := signalpath r |} WSample).
      split; [|done]. rewrite lookup_app_r by (rewrite length_insert; lia).
      rewrite length_insert, Nat.sub_diag. done.
    + apply String.eqb_eq in Ht. rewrite isfile_delete, Ht, decide_True in Hsig; done.
    + apply String.eqb_eq in Ht. rewrite Ht in H. congruence.
  - (* another thread moves, or this one takes the sentinel *)
    destruct Hstep; try (by apply Hother);
      rewrite ?isfile_insert, ?isfile_delete in Hsig.
    + destruct (decide (signalpath r = sig)) as [Hd|Hd]; [|by apply Hother].
      apply Hself. cbn [holds]. by apply String.eqb_eq.
    + destruct (decide (signalpath r = sig)); [done|by apply Hother].
    + destruct (decide (a_pathname a = sig)) as [Hd|Hd]; [|by apply Hother].
      destruct (Hwork _ _ _ Hi) as [r Hr]. rewrite Hr in Hd. names.
    + destruct (decide (a_pathname a = sig)) as [Hd|Hd]; [|by apply Hother].
      destruct (Hwork _ _ _ Hi) as [r Hr]. rewrite Hr in Hd. names.
    + destruct (decide (a_signalname a = sig)); [done|by apply Hother].
Qed.

Lemma run_held sched c c' :
  held name c -> run sched c = Some c' -> held name c'.
Proof.
  revert c. induction sched as [|[i o] sched IH]; intros c Hh; simpl.
  - by intros [= <-].
  - destruct (step i o c) as [c1|] eqn:Es; simpl; [|done].
    apply step_inv in Es as (t & fs' & t' & sp & Hi & Hs%thread_step_tstep & ->).
    apply IH. by eapply tstep_held.
Qed.

Lemma holds_active_or_raised s t :
  holds s t = true -> terminated t = false \/ raised t = true.
Proof. destruct t as [r []|a []]; cbn; auto; done. Qed.

(** A sentinel is left behind only by an exception.  When the requests
    arrive with no sentinel for a file in the directory, then in every
    schedule, whenever the sentinel is there, some thread holds it: one
    that is still between creating and removing it, or one that ended
    with an exception.  So once every thread has ended and none has
    raised, the sentinel is gone. *)
Theorem sentinel_left_only_by_exception fs0 rs sched c :
  isfile (signalpath r0) fs0 = false ->
  run sched (arrive fs0 rs) = Some c ->
  (isfile (signalpath r0) (fs c) = true ->
   exists j t,
     threads c !! j = Some t
     /\ holds (signalpath r0) t = true
     /\ (terminated t = false \/ raised t = true))
  /\ ((forall j t, threads c !! j = Some t ->
                   terminated t = true /\ raised t = false) ->
      isfile (signalpath r0) (fs c) = false).
Proof.
  intros Hs Hrun.
  assert (held name (arrive fs0 rs)) as H0.
  { split; [unfold signalpath in Hs; cbn; congruence|].
    intros j a pc Hj. by apply list_lookup_fmap_Some in Hj as (r & [=] & _). }
  destruct (run_held _ _ _ H0 Hrun) as [Hheld _].
  assert (isfile (signalpath r0) (fs c) = true ->
          exists j t,
            threads c !! j = Some t
            /\ holds (signalpath r0) t = true
            /\ (terminated t = false \/ raised t = true)) as Hleft.
  { intros Hf. destruct (Hheld Hf) as (j & t & Hj & Ht).
    exists j, t. split_and!; [done..|]. by eapply holds_active_or_raised. }
  split; [done|]. intros Hall.
  destruct (isfile (signalpath r0) (fs c)) eqn:Hf; [|done].
  destruct (Hleft eq_refl) as (j & t & Hj & _ & Hor).
  destruct (Hall j t Hj) as [Ht Hr]. destruct Hor; congruence.
Qed.

End Leak.

Lemma sentinel_left_only_by_exception_witness :
  let r := two_groups "csv" true in
  let c := {| fs := {[ "tykhe_twosample_null_4_42.csv" := CsvFile [] ]};
              threads := [Caller r (CReturned "tykhe_twosample_null_4_42.csv");
                          Worker (creation_args r 4 42) WFinished] |} in
  (isfile (signalpath r) (fs c) = true ->
   exists j t,
     threads c !! j = Some t
     /\ holds (signalpath r) t = true
     /\ (terminated t = false \/ raised t = true))
  /\ ((forall j t, threads c !! j = Some t ->
                   terminated t = true /\ raised t = false) ->
      isfile (signalpath r) (fs c) = false).
Proof.
  intros r c.
  apply (sentinel_left_only_by_exception r ∅ [r]
           (lone_call true returns (Returns (CsvFile []))) c);
    vm_compute; reflexivity.
Defined.

End LeakFacts.
